(** * APKGuard: the analysis pipeline and the threat database

    A shallow embedding of
      - [server/apk-analyzer/analyzer.js]   (class [APKAnalyzer]) and
      - [server/threat-database/database.js] (class [ThreatDatabase])
    together with the properties of the scoring model, the threat lookup
    and the per-job record that the design document states.

    Conventions of the embedding.
      - JavaScript numbers that only ever hold integers (scores, counts,
        progress) are [Z]; the one place where the source multiplies by
        the doubles 0.55 and 0.45 is modelled both on binary64
        ([PrimFloat]) and on [Z], and the two are proved equal on the
        whole grid of sub-scores 0..100.
      - JavaScript strings are [string]; [toLowerCase]/[toUpperCase] act
        on the ASCII letters (every literal the source compares against is
        ASCII).
      - [Map] objects are [gmap string _].
      - [async] methods without a real I/O wait run to completion; the
        points where the event loop can run a timer are explicit. *)

From Stdlib Require Import ZArith String Ascii List Bool Lia.
From Stdlib Require Import PrimFloat FloatOps SpecFloat Uint63.
From stdpp Require Import base option gmap strings.

Open Scope string_scope.
Open Scope Z_scope.

(* ===================================================================== *)
(** ** JavaScript string and array primitives used by the source *)
(* ===================================================================== *)

Module Js.

Definition is_upper (c : ascii) : bool :=
  let n := Z.of_nat (nat_of_ascii c) in (65 <=? n) && (n <=? 90).

Definition is_lower (c : ascii) : bool :=
  let n := Z.of_nat (nat_of_ascii c) in (97 <=? n) && (n <=? 122).

Definition lower_char (c : ascii) : ascii :=
  if is_upper c then ascii_of_nat (nat_of_ascii c + 32) else c.

Definition upper_char (c : ascii) : ascii :=
  if is_lower c then ascii_of_nat (nat_of_ascii c - 32) else c.

Fixpoint map_string (f : ascii -> ascii) (s : string) : string :=
  match s with
  | EmptyString => EmptyString
  | String c r => String (f c) (map_string f r)
  end.

(** [s.toLowerCase()] and [s.toUpperCase()] *)
Definition toLowerCase : string -> string := map_string lower_char.
Definition toUpperCase : string -> string := map_string upper_char.

(** [s.startsWith(p)] *)
Definition startsWith (s p : string) : bool := String.prefix p s.

(** [s.includes(sub)] : [sub] occurs somewhere in [s] *)
Fixpoint includes (s sub : string) : bool :=
  String.prefix sub s ||
  match s with
  | EmptyString => false
  | String _ r => includes r sub
  end.

(** [arr.includes(x)] on an array of strings *)
Definition arr_includes (arr : list string) (x : string) : bool :=
  existsb (String.eqb x) arr.

(** [/a|b|c/.test(s)] for literal alternatives: some alternative occurs
    in [s]. *)
Definition test_any (alts : list string) (s : string) : bool :=
  existsb (includes s) alts.

(** [x || d] on strings: the empty string is falsy. *)
Definition or_else (x d : string) : string :=
  match x with EmptyString => d | _ => x end.

(** Truthiness of an optional string ([undefined], [null] and [''] are
    falsy). *)
Definition truthy (x : option string) : bool :=
  match x with
  | Some (String _ _) => true
  | _ => false
  end.

(** [Math.round] of a finite double, computed exactly: the integer
    [floor (x + 1/2)].  [None] for NaN and the infinities. *)
Definition Math_round (x : float) : option Z :=
  match Prim2SF x with
  | S754_zero _ => Some 0
  | S754_finite s m e =>
      let n := if s then Z.neg m else Z.pos m in
      Some (if 0 <=? e then n * 2 ^ e
            else (2 * n + 2 ^ (- e)) / 2 ^ (1 - e))
  | _ => None
  end.

(** An integer in [0, 2^53) as a double. *)
Definition of_int (n : Z) : float := PrimFloat.of_uint63 (Uint63.of_Z n).

End Js.

(* ===================================================================== *)
(** ** The data model *)
(* ===================================================================== *)

(** What [analyzeFileStructure] returns.  [generateFinalResult] also
  reads a [filename] property, which [analyzeFileStructure] never
  sets: it is [None] on every object the pipeline builds. *)
Record FileAnalysis := {
fa_size : Z;
fa_hash : option string;          (* sha256, [null] in the fallback *)
fa_hashSha1 : option string;
fa_isValidAPK : bool;
fa_filename : option string
}.

(** What [analyzeManifest] returns.  [signatures] is read by
  [generateFinalResult] and set by no function of the analyzer. *)
Record ManifestInfo := {
packageName : string;
versionCode : string;
versionName : string;
permissions : list string;
activities : list string;
services : list string;
receivers : list string;
providers : list string;
signatures : option (list string)
}.

Record PermissionAnalysis := {
pa_total : Z;
pa_suspicious : list string;
pa_banking : list string;
pa_riskScore : Z
}.

Inductive Confidence := conf_high | conf_medium | conf_low.

(** One entry of [foundPatterns] *)
Record FoundPattern := {
fp_pattern : string;
fp_file : string;
fp_confidence : Confidence
}.

Record CodeAnalysis := {
ca_dexFiles : Z;
ca_suspiciousPatterns : list FoundPattern;
ca_riskScore : Z;
ca_error : option string
}.

Record ThreatAnalysis := {
isKnownThreat : bool;
threatType : option string;
ta_confidence : option Z;
ta_description : option string
}.

Inductive RiskLevel := safe | low_risk | suspicious | high_risk | malicious.

Inductive Status := queued | processing | completed | failed.

(** The [factor] text of an adjustment; the counts are the numbers the
  source interpolates into the text. *)
Inductive Factor :=
| MaliciousName                     (* 'Malicious filename/package' *)
| ModdedApp                         (* 'Modded app indicators' *)
| HighRiskPermissions (n : Z)
| MediumRiskPermissions (n : Z)
| LowRiskPermissions (n : Z)
| HighRiskPatterns (n : Z)
| MediumRiskPatterns (n : Z)
| BankingIndicators                 (* 'Legitimate banking app indicators' *)
| PlatformSignature                 (* 'Google/Android signature detected' *)
| NoSignals                         (* 'No suspicious signals detected' *)
| LowSignalsGuard.                  (* 'Low signals guard (perm<25 & ...' *)

(** [{ factor, boost }], [{ factor, reduction }] or [{ factor, cap }] *)
Inductive Magnitude := boost (n : Z) | reduction (n : Z) | cap (n : Z).

Record Adjustment := { factor : Factor; magnitude : Magnitude }.

Record RiskBreakdown := {
baseScore : Z;
permissionScore : Z;
codeScore : Z;
adjustments : list Adjustment;
finalScore : Z
}.

Record Summary := {
riskLevel : RiskLevel;
riskScore : Z;
isSafe : bool;
confidence : Z;
riskBreakdown : RiskBreakdown
}.

Record Details := {
d_fileAnalysis : FileAnalysis;
d_manifestAnalysis : ManifestInfo;
d_permissionAnalysis : PermissionAnalysis;
d_codeAnalysis : CodeAnalysis;
d_threatAnalysis : ThreatAnalysis
}.

(** The object [generateFinalResult] builds (its two wall-clock stamps
  are left out). *)
Record FinalResult := {
fr_id : string;
fr_status : Status;
summary : Summary;
details : Details;
recommendations : list string
}.

(* ===================================================================== *)
(** ** [APKAnalyzer]: the two sub-scores *)
(* ===================================================================== *)

Module Permissions.

(** The table of [analyzePermissions] *)
Definition suspiciousPermissions : list string :=
  [ "android.permission.READ_SMS";
    "android.permission.SEND_SMS";
    "android.permission.RECEIVE_SMS";
    "android.permission.BIND_ACCESSIBILITY_SERVICE";
    "android.permission.REQUEST_INSTALL_PACKAGES";
    "android.permission.SYSTEM_ALERT_WINDOW";
    "android.permission.WRITE_SETTINGS";
    "android.permission.PACKAGE_USAGE_STATS";
    "android.permission.RECEIVE_BOOT_COMPLETED";
    "android.permission.READ_CONTACTS";
    "android.permission.WRITE_CONTACTS";
    "android.permission.READ_CALL_LOG";
    "android.permission.WRITE_CALL_LOG";
    "android.permission.CAMERA";
    "android.permission.RECORD_AUDIO";
    "android.permission.ACCESS_FINE_LOCATION";
    "android.permission.ACCESS_COARSE_LOCATION";
    "android.permission.READ_PHONE_NUMBERS";
    "android.permission.READ_PHONE_STATE" ].

Definition bankingPermissions : list string :=
  [ "android.permission.INTERNET";
    "android.permission.ACCESS_NETWORK_STATE";
    "android.permission.READ_EXTERNAL_STORAGE";
    "android.permission.WRITE_EXTERNAL_STORAGE" ].

(** The three tables of [calculatePermissionRisk] *)
Definition highRiskPerms : list string :=
  [ "android.permission.BIND_ACCESSIBILITY_SERVICE";
    "android.permission.SYSTEM_ALERT_WINDOW";
    "android.permission.TYPE_APPLICATION_OVERLAY" ].

Definition mediumRiskPerms : list string :=
  [ "android.permission.RECEIVE_SMS";
    "android.permission.READ_SMS";
    "android.permission.SEND_SMS";
    "android.permission.READ_CONTACTS";
    "android.permission.WRITE_CONTACTS";
    "android.permission.READ_CALL_LOG";
    "android.permission.WRITE_CALL_LOG" ].

Definition lowRiskPerms : list string :=
  [ "android.permission.CAMERA";
    "android.permission.RECORD_AUDIO";
    "android.permission.ACCESS_FINE_LOCATION";
    "android.permission.ACCESS_COARSE_LOCATION";
    "android.permission.READ_PHONE_STATE";
    "android.permission.INTERNET";
    "android.permission.ACCESS_NETWORK_STATE" ].

(** The body of the [forEach] callback: what one suspicious permission
    adds to [riskScore]. *)
Definition add_permission (riskScore : Z) (perm : string) : Z :=
  if Js.arr_includes highRiskPerms perm then riskScore + 25
  else if Js.arr_includes mediumRiskPerms perm then riskScore + 15
  else if Js.arr_includes lowRiskPerms perm then riskScore + 8
  else riskScore + 10.

(** [suspiciousPermissions.length === 1 &&
     lowRiskPerms.includes(suspiciousPermissions[0])] *)
Definition single_low_risk (suspiciousPermissions : list string) : bool :=
  match suspiciousPermissions with
  | [p] => Js.arr_includes lowRiskPerms p
  | _ => false
  end.

Definition calculatePermissionRisk
    (permissions suspiciousPermissions : list string) : Z :=
  let riskScore := 10 in
  let riskScore := fold_left add_permission suspiciousPermissions riskScore in
  let riskScore :=
    if single_low_risk suspiciousPermissions
    then Z.max (riskScore - 5) 0 else riskScore in
  let riskScore :=
    if 5 <=? Z.of_nat (length suspiciousPermissions)
    then riskScore + 15 else riskScore in
  Z.max 0 (Z.min riskScore 100).

Definition analyzePermissions (permissions : list string)
    : PermissionAnalysis :=
  let foundSuspicious :=
    List.filter (Js.arr_includes suspiciousPermissions) permissions in
  let foundBanking :=
    List.filter (Js.arr_includes bankingPermissions) permissions in
  {| pa_total := Z.of_nat (length permissions);
     pa_suspicious := foundSuspicious;
     pa_banking := foundBanking;
     pa_riskScore := calculatePermissionRisk permissions foundSuspicious |}.

(** *** The scorer as the design document words it *)

Inductive Tier := high_tier | medium_tier | low_tier | unrecognized.

Definition tier_of (perm : string) : Tier :=
  if Js.arr_includes highRiskPerms perm then high_tier
  else if Js.arr_includes mediumRiskPerms perm then medium_tier
  else if Js.arr_includes lowRiskPerms perm then low_tier
  else unrecognized.

Definition increment (t : Tier) : Z :=
  match t with
  | high_tier => 25
  | medium_tier => 15
  | low_tier => 8
  | unrecognized => 10
  end.

Definition matched (perms : list string) : list string :=
  List.filter (Js.arr_includes suspiciousPermissions) perms.

Fixpoint sum_increments (ms : list string) : Z :=
  match ms with
  | [] => 0
  | m :: r => increment (tier_of m) + sum_increments r
  end.

Definition exactly_one_low (ms : list string) : bool :=
  match ms with
  | [m] => match tier_of m with low_tier => true | _ => false end
  | _ => false
  end.

Definition clamp_0_100 (x : Z) : Z := Z.max 0 (Z.min x 100).

Definition spec_permission_score (perms : list string) : Z :=
  let ms := matched perms in
  clamp_0_100
    (10 + sum_increments ms
        - (if exactly_one_low ms then 5 else 0)
        + (if 5 <=? Z.of_nat (length ms) then 15 else 0)).

End Permissions.

Module Code.

(** [String(pattern.pattern || pattern).toUpperCase()]: an entry whose
    [pattern] is the empty string is falsy, and the entry itself is
    rendered, as the text [[object Object]]. *)
Definition pat_of (p : FoundPattern) : string :=
  Js.toUpperCase (Js.or_else (fp_pattern p) "[object Object]").

Definition is_high (pat : string) : bool :=
  Js.includes pat "SYSTEM_ALERT_WINDOW" ||
  Js.includes pat "TYPE_APPLICATION_OVERLAY" ||
  Js.includes pat "ACCESSIBILITYSERVICE" ||
  Js.includes pat "KEYLOGGER" ||
  Js.includes pat "SCREEN_CAPTURE" ||
  Js.includes pat "BANKING_TROJAN" ||
  Js.includes pat "CREDENTIAL_STEALER".

Definition is_medium (pat : string) : bool :=
  Js.includes pat "SMS" ||
  Js.includes pat "CONTACTS" ||
  Js.includes pat "CALL_LOG" ||
  Js.includes pat "RECORD_AUDIO" ||
  Js.includes pat "CAMERA" ||
  Js.includes pat "MEDIAPROJECTION" ||
  Js.includes pat "VIRTUALDISPLAY" ||
  Js.includes pat "DEVICEADMIN" ||
  Js.includes pat "DEVICEPOLICY".

Definition is_low_named (pat : string) : bool :=
  Js.includes pat "INTERNET" ||
  Js.includes pat "NETWORK" ||
  Js.includes pat "LOCATION" ||
  Js.includes pat "PHONE_STATE".

(** The three arrays the [forEach] fills *)
Record Buckets := {
  highRiskPatterns : list FoundPattern;
  mediumRiskPatterns : list FoundPattern;
  lowRiskPatterns : list FoundPattern
}.

(** The body of the [forEach] callback ([push] appends) *)
Definition categorize (b : Buckets) (pattern : FoundPattern) : Buckets :=
  let pat := pat_of pattern in
  if is_high pat then
    {| highRiskPatterns := highRiskPatterns b ++ [pattern];
       mediumRiskPatterns := mediumRiskPatterns b;
       lowRiskPatterns := lowRiskPatterns b |}
  else if is_medium pat then
    {| highRiskPatterns := highRiskPatterns b;
       mediumRiskPatterns := mediumRiskPatterns b ++ [pattern];
       lowRiskPatterns := lowRiskPatterns b |}
  else if is_low_named pat then
    {| highRiskPatterns := highRiskPatterns b;
       mediumRiskPatterns := mediumRiskPatterns b;
       lowRiskPatterns := lowRiskPatterns b ++ [pattern] |}
  else
    {| highRiskPatterns := highRiskPatterns b;
       mediumRiskPatterns := mediumRiskPatterns b;
       lowRiskPatterns := lowRiskPatterns b ++ [pattern] |}.

Definition len {A} (l : list A) : Z := Z.of_nat (length l).

Definition calculateCodeRisk (suspiciousPatterns : list FoundPattern) : Z :=
  let riskScore := 0 in
  let b := fold_left categorize suspiciousPatterns
             {| highRiskPatterns := []; mediumRiskPatterns := [];
                lowRiskPatterns := [] |} in
  let riskScore :=
    if 0 <? len (highRiskPatterns b)
    then riskScore + Z.min (25 + len (highRiskPatterns b) * 8) 60
    else riskScore in
  let riskScore :=
    if 2 <=? len (mediumRiskPatterns b)
    then riskScore + Z.min (20 + len (mediumRiskPatterns b) * 5) 40
    else riskScore in
  let riskScore :=
    if 3 <=? len (lowRiskPatterns b)
    then riskScore + Z.min (15 + len (lowRiskPatterns b) * 3) 30
    else riskScore in
  let riskScore :=
    if (len suspiciousPatterns =? 1) && (len (lowRiskPatterns b) =? 1)
    then Z.max (riskScore - 5) 0 else riskScore in
  let riskScore :=
    if (len (highRiskPatterns b) =? 0) && (len (mediumRiskPatterns b) =? 0)
    then Z.max (riskScore - 10) 0 else riskScore in
  Z.min riskScore 100.

(** *** The scorer as the design document words it *)

Inductive Class := high_class | medium_class | low_class.

Definition class_of (p : FoundPattern) : Class :=
  let pat := pat_of p in
  if is_high pat then high_class
  else if is_medium pat then medium_class
  else low_class.

Definition is_class (c : Class) (p : FoundPattern) : bool :=
  match c, class_of p with
  | high_class, high_class
  | medium_class, medium_class
  | low_class, low_class => true
  | _, _ => false
  end.

Definition count (c : Class) (ps : list FoundPattern) : Z :=
  len (List.filter (is_class c) ps).

Definition high_contribution (h : Z) : Z :=
  if 1 <=? h then Z.min (25 + 8 * h) 60 else 0.
Definition medium_contribution (m : Z) : Z :=
  if 2 <=? m then Z.min (20 + 5 * m) 40 else 0.
Definition low_contribution (l : Z) : Z :=
  if 3 <=? l then Z.min (15 + 3 * l) 30 else 0.

Definition spec_code_score (ps : list FoundPattern) : Z :=
  let h := count high_class ps in
  let m := count medium_class ps in
  let l := count low_class ps in
  Permissions.clamp_0_100
    (high_contribution h + medium_contribution m + low_contribution l
     - (if (len ps =? 1) && (l =? 1) then 5 else 0)
     - (if (h =? 0) && (m =? 0) then 10 else 0)).

End Code.

(* ===================================================================== *)
(** ** [APKAnalyzer]: the risk aggregator *)
(* ===================================================================== *)

Module Aggregator.

Import Code (len).

(** [threatAnalysis && threatAnalysis.isKnownThreat] *)
Definition known (threatAnalysis : option ThreatAnalysis) : bool :=
  match threatAnalysis with
  | Some t => isKnownThreat t
  | None => false
  end.

(** [Math.round((0.55 * permissionRisk) + (0.45 * codeRisk))] on
    binary64, as the source computes it ([0x1.199999999999ap-1] and
    [0x1.ccccccccccccdp-2] are the doubles the literals 0.55 and 0.45
    denote). *)
Definition weighted_f64 (permissionRisk codeRisk : Z) : option Z :=
  Js.Math_round
    (PrimFloat.add
       (PrimFloat.mul 0x1.199999999999ap-1%float (Js.of_int permissionRisk))
       (PrimFloat.mul 0x1.ccccccccccccdp-2%float (Js.of_int codeRisk))).

(** The same value in integer arithmetic: the nearest integer to
    [(55 p + 45 c) / 100], halves rounded up. *)
Definition weighted (permissionRisk codeRisk : Z) : Z :=
  (11 * permissionRisk + 9 * codeRisk + 10) / 20.

Definition calculateTotalRisk
    (permissionRisk codeRisk : Z) (threatAnalysis : option ThreatAnalysis)
    : Z :=
  let totalRisk := weighted permissionRisk codeRisk in
  let totalRisk :=
    if (60 <=? permissionRisk) || (60 <=? codeRisk)
    then Z.max totalRisk 70 else totalRisk in
  let totalRisk :=
    if known threatAnalysis then Z.max totalRisk 90 else totalRisk in
  let totalRisk :=
    if ((permissionRisk <? 15) && (codeRisk <? 15))
       && negb (known threatAnalysis)
    then Z.min totalRisk 20 else totalRisk in
  (* [Math.round(totalRisk)] of the last line rounds an integer *)
  Z.max 0 (Z.min totalRisk 100).

(** *** The guard rails as the design document words them *)

Definition floor_at (bound x : Z) : Z := Z.max x bound.
Definition cap_at (bound x : Z) : Z := Z.min x bound.

Definition spec_total_risk (p c : Z) (matched_threat : bool) : Z :=
  let base := weighted p c in
  let s1 := if (60 <=? p) || (60 <=? c) then floor_at 70 base else base in
  let s2 := if matched_threat then floor_at 90 s1 else s1 in
  let s3 := if (p <? 15) && (c <? 15) && negb matched_threat
            then cap_at 20 s2 else s2 in
  Permissions.clamp_0_100 s3.

Definition determineRiskLevel (riskScore : Z) : RiskLevel :=
  if riskScore <? 30 then safe
  else if riskScore <? 50 then low_risk
  else if riskScore <? 70 then suspicious
  else if riskScore <? 85 then high_risk
  else malicious.

Definition calculateConfidence
    (permissionAnalysis : PermissionAnalysis) (codeAnalysis : CodeAnalysis)
    (threatAnalysis : ThreatAnalysis) : Z :=
  if isKnownThreat threatAnalysis then 95
  else if (50 <? pa_riskScore permissionAnalysis)
          || (50 <? ca_riskScore codeAnalysis) then 85
  else 70.

Definition RiskLevel_eqb (a b : RiskLevel) : bool :=
  match a, b with
  | safe, safe | low_risk, low_risk | suspicious, suspicious
  | high_risk, high_risk | malicious, malicious => true
  | _, _ => false
  end.

Definition generateRecommendations
    (riskLevel : RiskLevel) (permissionAnalysis : PermissionAnalysis)
    (codeAnalysis : CodeAnalysis) : list string :=
  let recommendations :=
    if RiskLevel_eqb riskLevel safe then
      [ "This APK appears to be safe for installation";
        "Always download from official sources when possible" ]
    else if RiskLevel_eqb riskLevel suspicious then
      [ "Exercise caution - this APK has some suspicious characteristics";
        "Review the detailed analysis before making a decision";
        "Consider downloading from official sources instead" ]
    else
      [ "DO NOT INSTALL this APK - high risk of malware";
        "Delete the file immediately";
        "Report to your bank if this claims to be a banking app" ] in
  if 0 <? len (pa_suspicious permissionAnalysis)
  then (recommendations ++
        [ String.append "Review suspicious permissions: "
            (String.concat ", " (pa_suspicious permissionAnalysis)) ])%list
  else recommendations.

(** The running pair ([totalRiskScore], [riskBreakdown.adjustments]) *)
Definition Acc : Type := Z * list Adjustment.

Definition raise_to (f : Factor) (b : Z) (a : Acc) : Acc :=
  (Z.max (fst a) b,
   (snd a ++ [ {| factor := f; magnitude := boost b |} ])%list).

Definition reduce_by (f : Factor) (r : Z) (a : Acc) : Acc :=
  (Z.max (fst a - r) 0,
   (snd a ++ [ {| factor := f; magnitude := reduction r |} ])%list).

Definition cap_to (f : Factor) (c : Z) (a : Acc) : Acc :=
  (Z.min (fst a) c,
   (snd a ++ [ {| factor := f; magnitude := cap c |} ])%list).

Definition malware_words : list string :=
  [ "hack"; "trojan"; "malware"; "virus"; "spyware" ].
Definition modded_words : list string :=
  [ "mod"; "vanced"; "microg"; "happymod"; "gamedva" ].
Definition banking_words : list string :=
  [ "bank"; "finance"; "payment"; "wallet"; "credit" ].

(** The permission tables local to [generateFinalResult] (shorter than
    those of [calculatePermissionRisk]) *)
Definition highRiskPerms : list string :=
  [ "android.permission.BIND_ACCESSIBILITY_SERVICE";
    "android.permission.SYSTEM_ALERT_WINDOW";
    "android.permission.TYPE_APPLICATION_OVERLAY" ].
Definition mediumRiskPerms : list string :=
  [ "android.permission.RECEIVE_SMS";
    "android.permission.READ_SMS";
    "android.permission.SEND_SMS";
    "android.permission.READ_CONTACTS";
    "android.permission.WRITE_CONTACTS" ].
Definition lowRiskPerms : list string :=
  [ "android.permission.CAMERA";
    "android.permission.RECORD_AUDIO";
    "android.permission.ACCESS_FINE_LOCATION";
    "android.permission.ACCESS_COARSE_LOCATION" ].

(** [String(p.pattern || '').toUpperCase()] *)
Definition pat_of (p : FoundPattern) : string :=
  Js.toUpperCase (fp_pattern p).

Definition high_pattern (p : FoundPattern) : bool :=
  let pat := pat_of p in
  Js.includes pat "SYSTEM_ALERT_WINDOW" ||
  Js.includes pat "TYPE_APPLICATION_OVERLAY" ||
  Js.includes pat "ACCESSIBILITYSERVICE" ||
  Js.includes pat "KEYLOGGER" ||
  Js.includes pat "SCREEN_CAPTURE".

Definition medium_pattern (p : FoundPattern) : bool :=
  let pat := pat_of p in
  Js.includes pat "SMS" ||
  Js.includes pat "CONTACTS" ||
  Js.includes pat "CALL_LOG" ||
  Js.includes pat "RECORD_AUDIO" ||
  Js.includes pat "CAMERA".

(** The first [try] block, one definition per [if] of the source *)

Definition malicious_name_pass (filename packageName : string) (a : Acc)
    : Acc :=
  if Js.test_any malware_words filename
     || Js.test_any malware_words packageName
  then raise_to MaliciousName 80 a else a.

Definition modded_name_pass (filename packageName : string) (a : Acc)
    : Acc :=
  if Js.test_any modded_words filename
     || Js.test_any modded_words packageName
  then raise_to ModdedApp 55 a else a.

Definition permission_pass (permissionAnalysis : PermissionAnalysis)
    (a : Acc) : Acc :=
  let susp := pa_suspicious permissionAnalysis in
  if 0 <? len susp then
    let highRiskCount :=
      len (List.filter (Js.arr_includes highRiskPerms) susp) in
    let mediumRiskCount :=
      len (List.filter (Js.arr_includes mediumRiskPerms) susp) in
    let lowRiskCount :=
      len (List.filter (Js.arr_includes lowRiskPerms) susp) in
    let a :=
      if 0 <? highRiskCount
      then raise_to (HighRiskPermissions highRiskCount)
             (Z.min (30 + highRiskCount * 10) 60) a
      else a in
    let a :=
      if 2 <=? mediumRiskCount
      then raise_to (MediumRiskPermissions mediumRiskCount)
             (Z.min (25 + mediumRiskCount * 5) 45) a
      else a in
    if 3 <=? lowRiskCount
    then raise_to (LowRiskPermissions lowRiskCount)
           (Z.min (20 + lowRiskCount * 3) 35) a
    else a
  else a.

Definition code_pass (codeAnalysis : CodeAnalysis) (a : Acc) : Acc :=
  let pats := ca_suspiciousPatterns codeAnalysis in
  if 0 <? len pats then
    let highRiskPatterns := List.filter high_pattern pats in
    let mediumRiskPatterns := List.filter medium_pattern pats in
    let a :=
      if 0 <? len highRiskPatterns
      then raise_to (HighRiskPatterns (len highRiskPatterns))
             (Z.min (35 + len highRiskPatterns * 8) 60) a
      else a in
    if 2 <=? len mediumRiskPatterns
    then raise_to (MediumRiskPatterns (len mediumRiskPatterns))
           (Z.min (25 + len mediumRiskPatterns * 5) 45) a
    else a
  else a.

Definition banking_pass (filename packageName : string) (a : Acc) : Acc :=
  if Js.test_any banking_words packageName
     || Js.test_any banking_words filename
  then (if fst a <? 60 then reduce_by BankingIndicators 15 a else a)
  else a.

(** [manifestAnalysis?.signatures?.some(sig => sig.includes('google')
    || sig.includes('android'))] *)
Definition platform_signed (manifestAnalysis : ManifestInfo) : bool :=
  match signatures manifestAnalysis with
  | Some sigs =>
      existsb (fun sig => Js.includes sig "google"
                          || Js.includes sig "android") sigs
  | None => false
  end.

Definition signature_pass (manifestAnalysis : ManifestInfo) (a : Acc)
    : Acc :=
  if platform_signed manifestAnalysis
  then (if fst a <? 50 then reduce_by PlatformSignature 10 a else a)
  else a.

(** The second [try] block *)
Definition no_signals_pass (permissionAnalysis : PermissionAnalysis)
    (codeAnalysis : CodeAnalysis) (threatAnalysis : ThreatAnalysis)
    (a : Acc) : Acc :=
  let noPermSignals := negb (0 <? len (pa_suspicious permissionAnalysis)) in
  let noCodeSignals :=
    negb (0 <? len (ca_suspiciousPatterns codeAnalysis)) in
  let noThreat := negb (isKnownThreat threatAnalysis) in
  if noPermSignals && noCodeSignals && noThreat
  then cap_to NoSignals 20 a else a.

(** The third [try] block *)
Definition low_signals_guard (permissionAnalysis : PermissionAnalysis)
    (codeAnalysis : CodeAnalysis) (threatAnalysis : ThreatAnalysis)
    (a : Acc) : Acc :=
  let lowPermRisk := pa_riskScore permissionAnalysis <? 25 in
  let lowCodeRisk := ca_riskScore codeAnalysis <? 25 in
  let notKnownThreat := negb (isKnownThreat threatAnalysis) in
  if lowPermRisk && lowCodeRisk && notKnownThreat
  then cap_to LowSignalsGuard 20 a else a.

(** [String(fileAnalysis?.filename || '').toLowerCase()] *)
Definition filename_of (fileAnalysis : FileAnalysis) : string :=
  Js.toLowerCase (default "" (fa_filename fileAnalysis)).

(** [String(manifestAnalysis?.packageName || '').toLowerCase()] *)
Definition packageName_of (manifestAnalysis : ManifestInfo) : string :=
  Js.toLowerCase (packageName manifestAnalysis).

(** The score and the adjustment log just before the banking-name
    check *)
Definition before_banking
    (fileAnalysis : FileAnalysis) (manifestAnalysis : ManifestInfo)
    (permissionAnalysis : PermissionAnalysis) (codeAnalysis : CodeAnalysis)
    (threatAnalysis : ThreatAnalysis) : Acc :=
  let totalRiskScore :=
    calculateTotalRisk (pa_riskScore permissionAnalysis)
      (ca_riskScore codeAnalysis) (Some threatAnalysis) in
  let filename := filename_of fileAnalysis in
  let packageName := packageName_of manifestAnalysis in
  let a : Acc := (totalRiskScore, []) in
  let a := malicious_name_pass filename packageName a in
  let a := modded_name_pass filename packageName a in
  let a := permission_pass permissionAnalysis a in
  code_pass codeAnalysis a.

Definition generateFinalResult
    (analysisId : string)
    (fileAnalysis : FileAnalysis) (manifestAnalysis : ManifestInfo)
    (permissionAnalysis : PermissionAnalysis) (codeAnalysis : CodeAnalysis)
    (threatAnalysis : ThreatAnalysis) : FinalResult :=
  let base :=
    calculateTotalRisk (pa_riskScore permissionAnalysis)
      (ca_riskScore codeAnalysis) (Some threatAnalysis) in
  let filename := filename_of fileAnalysis in
  let packageName := packageName_of manifestAnalysis in
  let a := before_banking fileAnalysis manifestAnalysis permissionAnalysis
             codeAnalysis threatAnalysis in
  let a := banking_pass filename packageName a in
  let a := signature_pass manifestAnalysis a in
  let a := no_signals_pass permissionAnalysis codeAnalysis threatAnalysis a in
  let a :=
    low_signals_guard permissionAnalysis codeAnalysis threatAnalysis a in
  let totalRiskScore := Z.max 0 (Z.min (fst a) 100) in
  let riskLevel := determineRiskLevel totalRiskScore in
  {| fr_id := analysisId;
     fr_status := completed;
     summary :=
       {| riskLevel := riskLevel;
          riskScore := totalRiskScore;
          isSafe := RiskLevel_eqb riskLevel safe;
          confidence :=
            calculateConfidence permissionAnalysis codeAnalysis
              threatAnalysis;
          riskBreakdown :=
            {| baseScore := base;
               permissionScore := pa_riskScore permissionAnalysis;
               codeScore := ca_riskScore codeAnalysis;
               adjustments := snd a;
               finalScore := totalRiskScore |} |};
     details :=
       {| d_fileAnalysis := fileAnalysis;
          d_manifestAnalysis := manifestAnalysis;
          d_permissionAnalysis := permissionAnalysis;
          d_codeAnalysis := codeAnalysis;
          d_threatAnalysis := threatAnalysis |};
     recommendations :=
       generateRecommendations riskLevel permissionAnalysis codeAnalysis |}.

(** Does the file name or the package name carry a banking word? *)
Definition banking_named (fileAnalysis : FileAnalysis)
    (manifestAnalysis : ManifestInfo) : bool :=
  Js.test_any banking_words (packageName_of manifestAnalysis)
  || Js.test_any banking_words (filename_of fileAnalysis).

(** The score and the adjustment log just after the banking-name check *)
Definition after_banking
    (fileAnalysis : FileAnalysis) (manifestAnalysis : ManifestInfo)
    (permissionAnalysis : PermissionAnalysis) (codeAnalysis : CodeAnalysis)
    (threatAnalysis : ThreatAnalysis) : Acc :=
  banking_pass (filename_of fileAnalysis) (packageName_of manifestAnalysis)
    (before_banking fileAnalysis manifestAnalysis permissionAnalysis
       codeAnalysis threatAnalysis).

(** *** Auxiliary notions for the properties below *)

(** The sub-scores 0..100 *)
Definition grid : list Z := List.map Z.of_nat (seq 0 101).

(** Do the binary64 and the integer computation of the weighted sum
    agree at [p], [c]? *)
Definition agrees (p c : Z) : bool :=
  match weighted_f64 p c with
  | Some r => r =? weighted p c
  | None => false
  end.

(** [{ factor: 'Legitimate banking app indicators', reduction: 15 }] *)
Definition banking_adjustment : Adjustment :=
  {| factor := BankingIndicators; magnitude := reduction 15 |}.

(** A pass that keeps every entry of the log *)
Definition extends (pass : Acc -> Acc) : Prop :=
  forall (a : Acc) (x : Adjustment), In x (snd a) -> In x (snd (pass a)).

(** A pass that logs no banking adjustment of its own *)
Definition silent (pass : Acc -> Acc) : Prop :=
  forall (a : Acc) (x : Adjustment),
    In x (snd (pass a)) -> In x (snd a) \/ factor x <> BankingIndicators.

End Aggregator.

(* ===================================================================== *)
(** ** [ThreatDatabase] *)
(* ===================================================================== *)

Module ThreatDatabase.

(** A threat record; the properties a caller may leave out are
    optional. *)
Record ThreatRecord := {
  tr_id : option string;
  tr_hash : option string;
  tr_packageName : option string;
  tr_type : string;
  tr_family : option string;
  tr_confidence : Z;
  tr_description : string;
  tr_severity : option string;
  tr_tags : list string;
  tr_firstSeen : option string;
  tr_lastSeen : option string
}.

(** [this.threats]: one [Map] for both kinds of key *)
Abbreviation Threats := (gmap string ThreatRecord).

(** What the wall clock gives [addThreat]: the text of [Date.now()]
    and of [new Date().toISOString().split('T')[0]]. *)
Record Clock := { now_ms : string; today : string }.

(** [this.threats.has(hash)], where the hash may be [null] (the
    fallback file analysis): the map is keyed by strings. *)
Definition has (threats : Threats) (key : option string) : bool :=
  match key with
  | Some k => bool_decide (is_Some (threats !! k))
  | None => false
  end.

Definition get (threats : Threats) (key : option string)
    : option ThreatRecord :=
  match key with
  | Some k => threats !! k
  | None => None
  end.

(** [lookupThreat(hash, packageName)]; [None] is the [null] the source
    returns. *)
Definition lookupThreat (threats : Threats)
    (hash packageName : option string) : option ThreatRecord :=
  if has threats hash then get threats hash
  else if Js.truthy packageName && has threats packageName
  then get threats packageName
  else None.

(** The in-memory part of [addThreat]: the record as it is stored ([id]
    and [firstSeen] filled in when absent, [lastSeen] overwritten). *)
Definition stamp (clock : Clock) (threat : ThreatRecord) : ThreatRecord :=
  {| tr_id :=
       if Js.truthy (tr_id threat) then tr_id threat
       else Some (String.append "threat_" (now_ms clock));
     tr_hash := tr_hash threat;
     tr_packageName := tr_packageName threat;
     tr_type := tr_type threat;
     tr_family := tr_family threat;
     tr_confidence := tr_confidence threat;
     tr_description := tr_description threat;
     tr_severity := tr_severity threat;
     tr_tags := tr_tags threat;
     tr_firstSeen :=
       if Js.truthy (tr_firstSeen threat) then tr_firstSeen threat
       else Some (today clock);
     tr_lastSeen := Some (today clock) |}.

(** [if (key) this.threats.set(key, threat)] *)
Definition set_if (key : option string) (threat : ThreatRecord)
    (threats : Threats) : Threats :=
  match key with
  | Some (String c r) => <[ String c r := threat ]> threats
  | _ => threats
  end.

(** [addThreat(threat)].  [save] is the outcome of
    [saveThreatDatabase] ([Some msg]: the write to disk fails with
    [msg]).  The result is the new map and either the thrown message or
    the returned record. *)
Definition addThreat (clock : Clock) (save : option string)
    (threats : Threats) (threat : ThreatRecord)
    : Threats * (string + ThreatRecord) :=
  if negb (Js.truthy (tr_hash threat))
     && negb (Js.truthy (tr_packageName threat))
  then (threats, inl "Threat must have either hash or package name")
  else
    let threat := stamp clock threat in
    let threats := set_if (tr_hash threat) threat threats in
    let threats := set_if (tr_packageName threat) threat threats in
    match save with
    | Some msg => (threats, inl msg)
    | None => (threats, inr threat)
    end.

End ThreatDatabase.

(* ===================================================================== *)
(** ** [APKAnalyzer.checkThreatDatabase] *)
(* ===================================================================== *)

Module ThreatCheck.

Import ThreatDatabase.

(** The body of [checkThreatDatabase] once [this.threatDatabase] is
    there: two lookups and the object built from their result. *)
Definition consult (threats : Threats)
    (fileAnalysis : FileAnalysis) (manifestAnalysis : ManifestInfo)
    (codeAnalysis : CodeAnalysis) : ThreatAnalysis :=
  let fileHashSha256 := fa_hash fileAnalysis in
  let fileHashSha1 := fa_hashSha1 fileAnalysis in
  let packageName := Some (packageName manifestAnalysis) in
  let knownThreat := lookupThreat threats fileHashSha256 packageName in
  let knownThreat :=
    match knownThreat with
    | None =>
        if Js.truthy fileHashSha1
        then lookupThreat threats fileHashSha1 packageName
        else None
    | Some _ => knownThreat
    end in
  match knownThreat with
  | Some t =>
      {| isKnownThreat := true;
         threatType := Some (tr_type t);
         ta_confidence := Some (tr_confidence t);
         ta_description := Some (tr_description t) |}
  | None =>
      {| isKnownThreat := false;
         threatType := None;
         ta_confidence := Some 0;
         ta_description := None |}
  end.

Definition no_database : string :=
  "Cannot read properties of undefined (reading 'lookupThreat')".

(** [this.threatDatabase] is whatever the constructor was given; a
    missing database makes the method call throw a [TypeError]. *)
Definition checkThreatDatabase (threatDatabase : option Threats)
    (fileAnalysis : FileAnalysis) (manifestAnalysis : ManifestInfo)
    (codeAnalysis : CodeAnalysis) : string + ThreatAnalysis :=
  match threatDatabase with
  | None => inl no_database
  | Some threats =>
      inr (consult threats fileAnalysis manifestAnalysis codeAnalysis)
  end.

End ThreatCheck.

(* ===================================================================== *)
(** ** [APKAnalyzer.analyzeManifest] and its fallbacks *)
(* ===================================================================== *)

Module Manifest.

(** What the file system holds at [<extracted>/AndroidManifest.xml]:
    nothing, a file that cannot be read ([readFile] throws [msg]), or a
    file with some content. *)
Inductive ManifestFile :=
| absent
| unreadable (msg : string)
| readable (content : string).

Definition dquote : ascii := ascii_of_nat 34.

Fixpoint take_while (f : ascii -> bool) (s : string) : string :=
  match s with
  | EmptyString => EmptyString
  | String c r => if f c then String c (take_while f r) else EmptyString
  end.

Fixpoint drop (n : nat) (s : string) : string :=
  match n, s with
  | O, _ => s
  | S k, EmptyString => EmptyString
  | S k, String _ r => drop k r
  end.

Definition NEEDLE : string := "android.permission.".

Definition KNOWN : list string :=
  [ "android.permission.READ_SMS";
    "android.permission.SEND_SMS";
    "android.permission.RECEIVE_SMS";
    "android.permission.BIND_ACCESSIBILITY_SERVICE";
    "android.permission.REQUEST_INSTALL_PACKAGES";
    "android.permission.SYSTEM_ALERT_WINDOW";
    "android.permission.WRITE_SETTINGS";
    "android.permission.PACKAGE_USAGE_STATS";
    "android.permission.RECEIVE_BOOT_COMPLETED";
    "android.permission.READ_CONTACTS";
    "android.permission.WRITE_CONTACTS";
    "android.permission.READ_CALL_LOG";
    "android.permission.WRITE_CALL_LOG";
    "android.permission.CAMERA";
    "android.permission.RECORD_AUDIO";
    "android.permission.ACCESS_FINE_LOCATION";
    "android.permission.ACCESS_COARSE_LOCATION";
    "android.permission.READ_PHONE_NUMBERS";
    "android.permission.READ_PHONE_STATE";
    "android.permission.INTERNET";
    "android.permission.ACCESS_NETWORK_STATE";
    "android.permission.READ_EXTERNAL_STORAGE";
    "android.permission.WRITE_EXTERNAL_STORAGE";
    "android.permission.BLUETOOTH";
    "android.permission.BLUETOOTH_CONNECT";
    "android.permission.NFC";
    "android.permission.WAKE_LOCK";
    "android.permission.FOREGROUND_SERVICE" ].

(** [(ch >= 'A' && ch <= 'Z') || (ch >= '0' && ch <= '9') ||
     ch === '_' || ch === '.'] *)
Definition isValid (ch : ascii) : bool :=
  let n := Z.of_nat (nat_of_ascii ch) in
  Js.is_upper ch || ((48 <=? n) && (n <=? 57)) || (n =? 95) || (n =? 46).

(** [CANDIDATES.add]: a [Set] keeps the first insertion only *)
Definition set_add (x : string) (seen : list string) : list string :=
  if Js.arr_includes seen x then seen else (seen ++ [x])%list.

(** The [while] loop of [extractPermissionsFromBinaryBuffer].  [skip]
    counts the characters still covered by the last candidate (the
    source jumps with [index = end]). *)
Fixpoint scan_candidates (text : string) (skip : nat)
    (CANDIDATES : list string) : list string :=
  match text with
  | EmptyString => CANDIDATES
  | String _ rest =>
      match skip with
      | S k => scan_candidates rest k CANDIDATES
      | O =>
          if String.prefix NEEDLE text then
            let candidate :=
              String.append NEEDLE
                (take_while isValid (drop (String.length NEEDLE) text)) in
            (* the shape test holds exactly when a valid character
               follows the prefix; every member of KNOWN has one *)
            let isShapeValid :=
              negb (String.eqb candidate NEEDLE) in
            scan_candidates rest (String.length candidate - 1)
              (if isShapeValid && Js.arr_includes KNOWN candidate
               then set_add candidate CANDIDATES else CANDIDATES)
          else scan_candidates rest 0 CANDIDATES
      end
  end.

Definition extractPermissionsFromBinaryBuffer (buffer : string)
    : list string :=
  scan_candidates buffer 0 [].

(** A match of [/key([^dq]+)dq/] anchored at the start of [s], where
    [key] ends with the opening quote: the captured group. *)
Definition capture_at (key s : string) : option string :=
  if String.prefix key s then
    let rest := drop (String.length key) s in
    let group :=
      take_while (fun c => negb (Ascii.eqb c dquote)) rest in
    match group, drop (String.length group) rest with
    | String _ _, String c _ =>
        if Ascii.eqb c dquote then Some group else None
    | _, _ => None
    end
  else None.

(** [s.match(/key([^dq]+)dq/)]: the group of the leftmost match *)
Fixpoint first_match (key s : string) : option string :=
  match capture_at key s with
  | Some g => Some g
  | None =>
      match s with
      | EmptyString => None
      | String _ r => first_match key r
      end
  end.

(** The [exec] loop of a [/g] regular expression: the groups of the
    successive matches, each search starting after the previous match. *)
Fixpoint all_matches (key s : string) (skip : nat) : list string :=
  match s with
  | EmptyString => []
  | String _ r =>
      match skip with
      | S k => all_matches key r k
      | O =>
          match capture_at key s with
          | Some g =>
              g :: all_matches key r (String.length key + String.length g)
          | None => all_matches key r 0
          end
      end
  end.

Definition key_of (attr : string) : string :=
  String.append attr (String.append "=" (String dquote EmptyString)).

Definition extractPermissionsFallback (manifestContent : string)
    : list string :=
  List.filter (fun m => Js.startsWith m "android.permission.")
    (all_matches (key_of "android:name") manifestContent 0).

(** The first [try] block.  [readFile] throws on an unreadable file and
    [parseStringPromise] may reject ([parse_error]); when both succeed
    the object literal is evaluated up to [this.extractPermissions],
    whose body reads [manifest.manifest?.uses-permission]: a
    subtraction whose right operand, the identifier [permission], is
    bound nowhere, so that evaluating it raises a [ReferenceError].  The
    block therefore always ends in its [catch]. *)
Definition structured_tier (parse_error : string -> option string)
    (file : ManifestFile) : string + ManifestInfo :=
  match file with
  | absent => inl "ENOENT"
  | unreadable msg => inl msg
  | readable content =>
      match parse_error content with
      | Some msg => inl msg
      | None => inl "permission is not defined"
      end
  end.

(** The second tier: [Some] when it returns, [None] when it falls
    through (no permission found, or the read threw). *)
Definition binary_tier (file : ManifestFile) : option ManifestInfo :=
  match file with
  | readable content =>
      let binaryPermissions := extractPermissionsFromBinaryBuffer content in
      if (0 <? Z.of_nat (length binaryPermissions))
      then Some {| packageName := "Unknown";
                   versionCode := "Unknown";
                   versionName := "Unknown";
                   permissions := binaryPermissions;
                   activities := [];
                   services := [];
                   receivers := [];
                   providers := [];
                   signatures := None |}
      else None
  | _ => None
  end.

Definition regex_tier (file : ManifestFile) : string + ManifestInfo :=
  match file with
  | readable manifestContent =>
      let packageMatch := first_match (key_of "package") manifestContent in
      let versionMatch :=
        first_match (key_of "versionName") manifestContent in
      let versionCodeMatch :=
        first_match (key_of "versionCode") manifestContent in
      inr {| packageName := default "Unknown" packageMatch;
             versionCode := default "Unknown" versionCodeMatch;
             versionName := default "Unknown" versionMatch;
             permissions := extractPermissionsFallback manifestContent;
             activities := [];
             services := [];
             receivers := [];
             providers := [];
             signatures := None |}
  | _ => inl "Failed to analyze Android manifest file"
  end.

(** [analyzeManifest(extractedPath)]: [inl msg] is [throw new
    Error(msg)]. *)
Definition analyzeManifest (parse_error : string -> option string)
    (file : ManifestFile) : string + ManifestInfo :=
  match file with
  | absent => inl "AndroidManifest.xml not found"
  | _ =>
      match structured_tier parse_error file with
      | inr m => inr m
      | inl _ =>
          match binary_tier file with
          | Some m => inr m
          | None => regex_tier file
          end
      end
  end.

(** The placeholder [analyzeAPK] substitutes *)
Definition minimal_manifest : ManifestInfo :=
  {| packageName := "Unknown";
     versionCode := "Unknown";
     versionName := "Unknown";
     permissions := [];
     activities := [];
     services := [];
     receivers := [];
     providers := [];
     signatures := None |}.

End Manifest.

(* ===================================================================== *)
(** ** [APKAnalyzer.analyzeAPK]: the pipeline and the job record *)
(* ===================================================================== *)

Module Pipeline.

Import ThreatDatabase.

(** One entry of [steps] (its time stamp is left out) *)
Record Step := { step : string; description : string }.

(** An object held in [analysisResults].  The object [analyzeAPK]
    creates has [progress] and [steps] and no verdict; the object
    [generateFinalResult] stores in its place is the verdict, with no
    [progress] and no [steps] property. *)
Record Job := {
  j_status : Status;
  j_progress : option Z;
  j_steps : option (list Step);
  j_error : option string;
  j_result : option FinalResult
}.

(** The writes to the record of the running job, in program order *)
Inductive Write :=
| WCreate                       (* [analysisResults.set(id, result)] *)
| WProgress (p : Z)             (* [result.progress = p] *)
| WStep (name : string)         (* [result.steps.push(...)] *)
| WFailed (msg : string)        (* [r.status = 'failed'; r.error = msg] *)
| WCompleted (v : FinalResult). (* [analysisResults.set(id, finalResult)] *)

Record Statistics := {
  totalScans : Z;
  safeApps : Z;
  suspiciousApps : Z;
  maliciousApps : Z
}.

(** The state [analyzeAPK] acts on: the two fields of the analyzer, the
    pending timer (the number of I/O waits that still pass before it
    fires, and the job it was armed for), the local [timedOut] and the
    log of writes. *)
Record World := {
  analysisResults : gmap string Job;
  statistics : Statistics;
  timer : option (nat * string);
  timedOut : bool;
  log : list Write
}.

(** Everything outside the analyzer that a run depends on: the outcome
    of each stage that touches the file system ([inl msg]: the stage
    throws [msg]), a throw inside [generateFinalResult] (main path and
    fallback path), and the I/O wait during which the five-minute timer
    fires, if any. *)
Record Env := {
  threatDatabase : option Threats;
  file_structure : string + FileAnalysis;
  file_structure_again : string + FileAnalysis;
  extraction : option string;
  manifest_file : Manifest.ManifestFile;
  parse_error : string -> option string;
  code_scan : string + (Z * list FoundPattern);
  assemble_fault : option string;
  assemble_fault_fallback : option string;
  fire_at : option nat
}.

(** *** State and exceptions *)

Definition M (A : Type) : Type := World -> (string + A) * World.

Definition ret {A} (a : A) : M A := fun w => (inr a, w).

Definition bind {A B} (m : M A) (k : A -> M B) : M B :=
  fun w => match m w with
           | (inr a, w') => k a w'
           | (inl e, w') => (inl e, w')
           end.

Definition throw {A} (msg : string) : M A := fun w => (inl msg, w).

(** [try { m } catch (e) { h e }] *)
Definition try_catch {A} (m : M A) (h : string -> M A) : M A :=
  fun w => match m w with
           | (inl e, w') => h e w'
           | r => r
           end.

Definition lift {A} (r : string + A) : M A := fun w => (r, w).

Definition modify (f : World -> World) : M unit := fun w => (inr tt, f w).

Notation "x <- m ;; k" := (bind m (fun x => k))
  (at level 100, m at next level, right associativity).
Notation "m ;; k" := (bind m (fun _ => k))
  (at level 100, right associativity).

(** *** Writes to the record *)

Definition set_results (f : gmap string Job -> gmap string Job)
    (ws : list Write) (w : World) : World :=
  {| analysisResults := f (analysisResults w);
     statistics := statistics w;
     timer := timer w;
     timedOut := timedOut w;
     log := (log w ++ ws)%list |}.

Definition set_timer (t : option (nat * string)) (flag : bool) (w : World)
    : World :=
  {| analysisResults := analysisResults w;
     statistics := statistics w;
     timer := t;
     timedOut := flag;
     log := log w |}.

Definition with_progress (p : Z) (r : Job) : Job :=
  {| j_status := j_status r; j_progress := Some p; j_steps := j_steps r;
     j_error := j_error r; j_result := j_result r |}.

Definition with_steps (st : list Step) (r : Job) : Job :=
  {| j_status := j_status r; j_progress := j_progress r;
     j_steps := Some st; j_error := j_error r; j_result := j_result r |}.

Definition with_failure (msg : string) (r : Job) : Job :=
  {| j_status := failed; j_progress := j_progress r; j_steps := j_steps r;
     j_error := Some msg; j_result := j_result r |}.

(** [{ id: analysisId }] *)
Definition bare : Job :=
  {| j_status := queued; j_progress := None; j_steps := None;
     j_error := None; j_result := None |}.

(** The object [analyzeAPK] starts with *)
Definition fresh : Job :=
  {| j_status := processing; j_progress := Some 0; j_steps := Some [];
     j_error := None; j_result := None |}.

(** The verdict, seen as the stored object *)
Definition job_of (v : FinalResult) : Job :=
  {| j_status := fr_status v; j_progress := None; j_steps := None;
     j_error := None; j_result := Some v |}.

(** [updateProgress]: nothing happens for an unknown id; on an object
    without [steps] the assignment to [progress] is made and the
    [push] then throws. *)
Definition updateProgress (analysisId : string) (progress : Z)
    (step description : string) : M unit :=
  fun w =>
    match analysisResults w !! analysisId with
    | None => (inr tt, w)
    | Some result =>
        let result := with_progress progress result in
        match j_steps result with
        | None =>
            (inl "Cannot read properties of undefined (reading 'push')",
             set_results <[ analysisId := result ]> [WProgress progress] w)
        | Some st =>
            let entry := {| step := step; description := description |} in
            (inr tt,
             set_results
               <[ analysisId := with_steps (st ++ [entry])%list result ]>
               [WProgress progress; WStep step] w)
        end
    end.

(** [const r = this.analysisResults.get(id) || { id };
     r.status = 'failed'; r.error = msg;
     this.analysisResults.set(id, r); return r] *)
Definition fail_job (analysisId msg : string) : M Job :=
  fun w =>
    let r :=
      with_failure msg (default bare (analysisResults w !! analysisId)) in
    (inr r, set_results <[ analysisId := r ]> [WFailed msg] w).

(** *** The timer *)

Definition timeout_message : string :=
  "Analysis timeout - process took too long".

(** The callback given to [setTimeout].  The call of [updateProgress]
    is not awaited: the callback goes on whether or not it throws. *)
Definition on_timeout (analysisId : string) (w : World) : World :=
  let w := set_timer None true w in
  let w :=
    snd (updateProgress analysisId 0 "Timeout"
           "Analysis took too long and was cancelled" w) in
  match analysisResults w !! analysisId with
  | Some r =>
      set_results
        <[ analysisId := with_failure timeout_message r ]>
        [WFailed timeout_message] w
  | None => w
  end.

(** [setTimeout(callback, 300000)]: the environment fixes the wait
    during which the delay elapses. *)
Definition setTimeout (analysisId : string) (after : option nat) : M unit :=
  modify (fun w =>
    set_timer
      match after with Some n => Some (n, analysisId) | None => None end
      (timedOut w) w).

Definition clearTimeout : M unit :=
  modify (fun w => set_timer None (timedOut w) w).

(** An [await] on real I/O: the only points where the event loop can
    run the timer callback. *)
Definition io_wait : M unit :=
  fun w =>
    match timer w with
    | Some (O, analysisId) => (inr tt, on_timeout analysisId w)
    | Some (S n, analysisId) =>
        (inr tt, set_timer (Some (n, analysisId)) (timedOut w) w)
    | None => (inr tt, w)
    end.

(** *** The stages *)

Definition analyzeFileStructure (outcome : string + FileAnalysis)
    : M FileAnalysis :=
  io_wait ;; lift outcome.

Definition extractAPK (env : Env) : M unit :=
  io_wait ;;
  match extraction env with
  | Some msg => throw msg
  | None => ret tt
  end.

Definition analyzeManifest (env : Env) : M ManifestInfo :=
  io_wait ;;
  lift (Manifest.analyzeManifest (parse_error env) (manifest_file env)).

(** [analyzeCode] has its own [try]/[catch] and never throws. *)
Definition analyzeCode (env : Env) : M CodeAnalysis :=
  io_wait ;;
  match code_scan env with
  | inr (dexFiles, suspiciousPatterns) =>
      ret {| ca_dexFiles := dexFiles;
             ca_suspiciousPatterns := suspiciousPatterns;
             ca_riskScore := Code.calculateCodeRisk suspiciousPatterns;
             ca_error := None |}
  | inl msg =>
      ret {| ca_dexFiles := 0;
             ca_suspiciousPatterns := [];
             ca_riskScore := 0;
             ca_error := Some msg |}
  end.

Definition checkThreatDatabase (env : Env) (fileAnalysis : FileAnalysis)
    (manifestAnalysis : ManifestInfo) (codeAnalysis : CodeAnalysis)
    : M ThreatAnalysis :=
  lift (ThreatCheck.checkThreatDatabase (threatDatabase env) fileAnalysis
          manifestAnalysis codeAnalysis).

(** [generateFinalResult]: the verdict is computed, stored under the
    job id and returned; a throw happens before the store. *)
Definition generateFinalResult (fault : option string) (analysisId : string)
    (fileAnalysis : FileAnalysis) (manifestAnalysis : ManifestInfo)
    (permissionAnalysis : PermissionAnalysis) (codeAnalysis : CodeAnalysis)
    (threatAnalysis : ThreatAnalysis) : M FinalResult :=
  match fault with
  | Some msg => throw msg
  | None =>
      let finalResult :=
        Aggregator.generateFinalResult analysisId fileAnalysis
          manifestAnalysis permissionAnalysis codeAnalysis threatAnalysis in
      modify (set_results <[ analysisId := job_of finalResult ]>
                   [WCompleted finalResult]) ;;
      ret finalResult
  end.

Definition updateStatistics (riskLevel : RiskLevel) : M unit :=
  modify (fun w =>
    let s := statistics w in
    {| analysisResults := analysisResults w;
       statistics :=
         {| totalScans := totalScans s + 1;
            safeApps :=
              match riskLevel with safe => safeApps s + 1 | _ => safeApps s end;
            suspiciousApps :=
              match riskLevel with
              | suspicious => suspiciousApps s + 1
              | _ => suspiciousApps s
              end;
            maliciousApps :=
              match riskLevel with
              | malicious => maliciousApps s + 1
              | _ => maliciousApps s
              end |};
       timer := timer w;
       timedOut := timedOut w;
       log := log w |}).

(** The placeholders of the two [catch] blocks *)
Definition minimal_permissions : PermissionAnalysis :=
  {| pa_total := 0; pa_suspicious := []; pa_banking := [];
     pa_riskScore := 0 |}.

Definition minimal_code (msg : string) : CodeAnalysis :=
  {| ca_dexFiles := 0; ca_suspiciousPatterns := []; ca_riskScore := 0;
     ca_error := Some msg |}.

Definition minimal_file : FileAnalysis :=
  {| fa_size := 0; fa_hash := None; fa_hashSha1 := None;
     fa_isValidAPK := false; fa_filename := None |}.

(** [{ isKnownThreat: false }] *)
Definition minimal_threat : ThreatAnalysis :=
  {| isKnownThreat := false; threatType := None; ta_confidence := None;
     ta_description := None |}.

(** Steps 2 to 5, inside their own [try] *)
Definition extract_and_analyze (env : Env) (analysisId : string)
    : M (ManifestInfo * PermissionAnalysis * CodeAnalysis) :=
  try_catch
    (extractAPK env ;;
     updateProgress analysisId 60 "Manifest Analysis"
          "Analyzing Android manifest file" ;;
     manifestAnalysis <- analyzeManifest env ;;
     updateProgress analysisId 80 "Permission Check"
          "Analyzing requested permissions" ;;
     permissionAnalysis <-
          ret (Permissions.analyzePermissions (permissions manifestAnalysis)) ;;
     updateProgress analysisId 90 "Code Analysis"
          "Checking for malicious code patterns" ;;
     codeAnalysis <- analyzeCode env ;;
     ret (manifestAnalysis, permissionAnalysis, codeAnalysis))
    (fun extractionOrManifestError =>
       ret (Manifest.minimal_manifest, minimal_permissions,
            minimal_code extractionOrManifestError)).

(** The inner [try] block of [analyzeAPK] *)
Definition main_path (env : Env) (analysisId : string) : M Job :=
  updateProgress analysisId 20 "File Analysis"
       "Examining file structure and integrity" ;;
  fileAnalysis <- analyzeFileStructure (file_structure env) ;;
  updateProgress analysisId 40 "Extracting APK"
       "Extracting and parsing APK contents" ;;
  r <- extract_and_analyze env analysisId ;;
  let '(manifestAnalysis, permissionAnalysis, codeAnalysis) := r in
  updateProgress analysisId 95 "Database Check"
       "Comparing with known threats" ;;
  threatAnalysis <-
       checkThreatDatabase env fileAnalysis manifestAnalysis codeAnalysis ;;
  updateProgress analysisId 100 "Finalizing"
       "Generating security report" ;;
  finalResult <-
       generateFinalResult (assemble_fault env) analysisId fileAnalysis
         manifestAnalysis permissionAnalysis codeAnalysis threatAnalysis ;;
  updateStatistics (riskLevel (summary finalResult)) ;;
  (* [fs.remove(extractedPath)], in its own [try] *)
  io_wait ;;
  clearTimeout ;;
  ret (job_of finalResult).

(** The [catch (stepError)] block *)
Definition fallback_path (env : Env) (analysisId stepError : string)
    : M Job :=
  clearTimeout ;;
  try_catch
    (fileAnalysis <-
          try_catch (analyzeFileStructure (file_structure_again env))
            (fun _ => ret minimal_file) ;;
     let manifestAnalysis := Manifest.minimal_manifest in
     let permissionAnalysis := minimal_permissions in
     let codeAnalysis := minimal_code stepError in
     threatAnalysis <-
          try_catch
            (checkThreatDatabase env fileAnalysis manifestAnalysis
               codeAnalysis)
            (fun _ => ret minimal_threat) ;;
     updateProgress analysisId 100 "Finalizing (fallback)"
          "Completing with minimal analysis due to an error" ;;
     finalResult <-
          generateFinalResult (assemble_fault_fallback env) analysisId
            fileAnalysis manifestAnalysis permissionAnalysis codeAnalysis
            threatAnalysis ;;
     ret (job_of finalResult))
    (fun finalizeErr => fail_job analysisId stepError).

Definition analyzeAPK (env : Env) (apkPath analysisId : string) : M Job :=
  try_catch
    (modify (set_results <[ analysisId := fresh ]> [WCreate]) ;;
     updateProgress analysisId 5 "Starting" "Initializing analysis" ;;
     setTimeout analysisId (fire_at env) ;;
     try_catch (main_path env analysisId)
               (fallback_path env analysisId))
    (fun error =>
       updateProgress analysisId 0 "Error"
            (String.append "Analysis failed: " error) ;;
       fail_job analysisId error).

(** *** Reading the log of writes *)

Definition terminal (s : Status) : bool :=
  match s with
  | completed | failed => true
  | _ => false
  end.

(** Does the write set a terminal status? *)
Definition sets_terminal (x : Write) : bool :=
  match x with
  | WFailed _ => true
  | WCompleted v => terminal (fr_status v)
  | _ => false
  end.

Definition terminal_writes (l : list Write) : nat :=
  length (List.filter sets_terminal l).

(** The progress values written while the status of the record is not
    terminal (the record starts non-terminal). *)
Fixpoint progress_while_live (l : list Write) : list Z :=
  match l with
  | [] => []
  | x :: r =>
      if sets_terminal x then []
      else match x with
           | WCreate => 0 :: progress_while_live r
           | WProgress p => p :: progress_while_live r
           | _ => progress_while_live r
           end
  end.

Fixpoint non_decreasing (l : list Z) : bool :=
  match l with
  | a :: ((b :: _) as r) => (a <=? b) && non_decreasing r
  | _ => true
  end.

(** The writes after the first one that sets a terminal status *)
Fixpoint after_terminal (l : list Write) : list Write :=
  match l with
  | [] => []
  | x :: r => if sets_terminal x then r else after_terminal r
  end.

(** Does the write change [result] or [error]? *)
Definition touches_outcome (x : Write) : bool :=
  match x with
  | WFailed _ | WCompleted _ | WCreate => true
  | _ => false
  end.

(** The property of the job record: progress never decreases while the
    job is live, a terminal status is set exactly once, and nothing
    writes [result] or [error] afterwards. *)
Definition well_behaved (l : list Write) : Prop :=
  non_decreasing (progress_while_live l) = true /\
  terminal_writes l = 1%nat /\
  existsb touches_outcome (after_terminal l) = false.

Definition empty_world (jobs : gmap string Job) : World :=
  {| analysisResults := jobs;
     statistics := {| totalScans := 0; safeApps := 0; suspiciousApps := 0;
                      maliciousApps := 0 |};
     timer := None;
     timedOut := false;
     log := [] |}.

(** *** A run from a clean analyzer *)

Definition run (env : Env) (apkPath analysisId : string)
    (jobs : gmap string Job) : (string + Job) * World :=
  analyzeAPK env apkPath analysisId (empty_world jobs).

(** What [analyzeAPK] resolves to *)
Definition returned (env : Env) (apkPath analysisId : string)
    (jobs : gmap string Job) : string + Job :=
  fst (run env apkPath analysisId jobs).

(** The record of the job once [analyzeAPK] has resolved *)
Definition stored (env : Env) (apkPath analysisId : string)
    (jobs : gmap string Job) : option Job :=
  analysisResults (snd (run env apkPath analysisId jobs)) !! analysisId.

Definition writes (env : Env) (apkPath analysisId : string)
    (jobs : gmap string Job) : list Write :=
  log (snd (run env apkPath analysisId jobs)).

(** The message a stage throws, if it throws *)
Definition thrown_by {A} (outcome : string + A) : option string :=
  match outcome with
  | inl msg => Some msg
  | inr _ => None
  end.

Definition manifest_outcome (env : Env) : string + ManifestInfo :=
  Manifest.analyzeManifest (parse_error env) (manifest_file env).

Definition database_failure (env : Env) : option string :=
  match threatDatabase env with
  | None => Some ThreatCheck.no_database
  | Some _ => None
  end.

(** Some stage of the pipeline throws: file analysis, extraction,
    manifest interpretation or the threat check. *)
Definition stage_failure (env : Env) : Prop :=
  is_Some (thrown_by (file_structure env)) \/
  is_Some (extraction env) \/
  is_Some (thrown_by (manifest_outcome env)) \/
  is_Some (database_failure env).

(** The messages thrown in this environment by the stages and by the
    assembly of the verdict *)
Definition thrown (env : Env) : list string :=
  (option_list (thrown_by (file_structure env)) ++
   option_list (extraction env) ++
   option_list (thrown_by (manifest_outcome env)) ++
   option_list (database_failure env) ++
   option_list (assemble_fault env))%list.

(** An error that sends the pipeline to its [catch (stepError)] block *)
Definition step_error (env : Env) (msg : string) : Prop :=
  thrown_by (file_structure env) = Some msg \/
  database_failure env = Some msg \/
  assemble_fault env = Some msg.

End Pipeline.

(* ===================================================================== *)
(** ** Sample inputs *)
(* ===================================================================== *)

Module Samples.

Definition bank_file : FileAnalysis :=
  {| fa_size := 4096; fa_hash := Some "0f0f"; fa_hashSha1 := Some "1e1e";
     fa_isValidAPK := true; fa_filename := None |}.

Definition bank_manifest : ManifestInfo :=
  {| packageName := "com.mybank.app"; versionCode := "7";
     versionName := "1.2"; permissions := []; activities := [];
     services := []; receivers := []; providers := [];
     signatures := None |}.

Definition trojan_manifest : ManifestInfo :=
  {| packageName := "com.trojan.mod"; versionCode := "1";
     versionName := "1.0"; permissions := []; activities := [];
     services := []; receivers := []; providers := [];
     signatures := Some ["google"] |}.

Definition overlay_permissions : PermissionAnalysis :=
  Permissions.analyzePermissions
    [ "android.permission.SYSTEM_ALERT_WINDOW";
      "android.permission.BIND_ACCESSIBILITY_SERVICE" ].

Definition sms_permissions : PermissionAnalysis :=
  Permissions.analyzePermissions [ "android.permission.READ_SMS" ].

Definition camera_permissions : PermissionAnalysis :=
  Permissions.analyzePermissions [ "android.permission.CAMERA" ].

Definition no_code : CodeAnalysis :=
  {| ca_dexFiles := 1; ca_suspiciousPatterns := []; ca_riskScore := 0;
     ca_error := None |}.

(** A match of the scanner in [classes.dex] *)
Definition found (pattern : string) : FoundPattern :=
  {| fp_pattern := pattern; fp_file := "classes.dex";
     fp_confidence := conf_low |}.

Definition no_threat : ThreatAnalysis :=
  {| isKnownThreat := false; threatType := None; ta_confidence := Some 0;
     ta_description := None |}.

Definition anubis : ThreatDatabase.ThreatRecord :=
  {| ThreatDatabase.tr_id := Some "threat_001";
     ThreatDatabase.tr_hash := Some "0f0f";
     ThreatDatabase.tr_packageName := Some "com.fakebanking.app";
     ThreatDatabase.tr_type := "banking_trojan";
     ThreatDatabase.tr_family := Some "Anubis";
     ThreatDatabase.tr_confidence := 95;
     ThreatDatabase.tr_description :=
       "Fake banking application designed to steal credentials";
     ThreatDatabase.tr_severity := Some "high";
     ThreatDatabase.tr_tags := [ "banking"; "trojan" ];
     ThreatDatabase.tr_firstSeen := Some "2024-01-01";
     ThreatDatabase.tr_lastSeen := None |}.

Definition clock : ThreatDatabase.Clock :=
  {| ThreatDatabase.now_ms := "1762041600000";
     ThreatDatabase.today := "2025-11-02" |}.

(** An upload whose archive has no manifest *)
Definition no_manifest : Pipeline.Env :=
  {| Pipeline.threatDatabase := Some ∅;
     Pipeline.file_structure := inr bank_file;
     Pipeline.file_structure_again := inr bank_file;
     Pipeline.extraction := None;
     Pipeline.manifest_file := Manifest.absent;
     Pipeline.parse_error := fun _ => None;
     Pipeline.code_scan := inr (1, []);
     Pipeline.assemble_fault := None;
     Pipeline.assemble_fault_fallback := None;
     Pipeline.fire_at := None |}.

(** An upload whose code scan is still running when the five minutes
    are over: the timer fires during the fourth I/O wait. *)
Definition slow_scan : Pipeline.Env :=
  {| Pipeline.threatDatabase := Some ∅;
     Pipeline.file_structure := inr bank_file;
     Pipeline.file_structure_again := inr bank_file;
     Pipeline.extraction := None;
     Pipeline.manifest_file :=
       Manifest.readable "android.permission.CAMERA";
     Pipeline.parse_error := fun _ => Some "Non-whitespace before first tag";
     Pipeline.code_scan := inr (1, []);
     Pipeline.assemble_fault := None;
     Pipeline.assemble_fault_fallback := None;
     Pipeline.fire_at := Some 3%nat |}.

(** The file cannot be read and the verdict cannot be assembled *)
Definition unreadable_upload : Pipeline.Env :=
  {| Pipeline.threatDatabase := Some ∅;
     Pipeline.file_structure := inl "ENOENT: no such file or directory";
     Pipeline.file_structure_again :=
       inl "ENOENT: no such file or directory";
     Pipeline.extraction := None;
     Pipeline.manifest_file := Manifest.absent;
     Pipeline.parse_error := fun _ => None;
     Pipeline.code_scan := inr (0, []);
     Pipeline.assemble_fault := None;
     Pipeline.assemble_fault_fallback := Some "out of memory";
     Pipeline.fire_at := None |}.

End Samples.

(* ===================================================================== *)
(** ** [APKAnalyzer]: the code-pattern scanner *)
(* ===================================================================== *)

Module Scanner.

(** [estimatePatternConfidence(pattern)] *)
Definition highRisk : list string :=
  [ "SYSTEM_ALERT_WINDOW"; "TYPE_APPLICATION_OVERLAY"; "AccessibilityService";
    "sms_intercept"; "keylogger" ].

Definition mediumRisk : list string :=
  [ "RECORD_AUDIO"; "READ_SMS"; "RECEIVE_SMS"; "SEND_SMS" ].

Definition estimatePatternConfidence (pattern : string) : Confidence :=
  let p := Js.toUpperCase pattern in
  if existsb (fun k => Js.includes p k) highRisk then conf_high
  else if existsb (fun k => Js.includes p k) mediumRisk then conf_medium
  else conf_low.

(** Does the string hold a lower-case letter? *)
Fixpoint has_lower (s : string) : bool :=
  match s with
  | EmptyString => false
  | String c r => Js.is_lower c || has_lower r
  end.

(** The fixed list at the head of [scanForSuspiciousPatterns] *)
Definition builtin_patterns : list string :=
  [ "TYPE_APPLICATION_OVERLAY";
    "SYSTEM_ALERT_WINDOW";
    "BIND_ACCESSIBILITY_SERVICE";
    "AccessibilityService";
    "REQUEST_INSTALL_PACKAGES";
    "PACKAGE_USAGE_STATS";
    "RECEIVE_BOOT_COMPLETED";
    "MediaProjection";
    "VirtualDisplay";
    "DeviceAdminReceiver";
    "DevicePolicyManager";
    "BIND_DEVICE_ADMIN";
    "SmsManager";
    "addJavascriptInterface" ].

(** An entry of the pattern table of the threat database; [examples]
    is [None] when the property is no array. *)
Record ScanPattern := {
  sp_id : option string;
  sp_name : string;
  sp_pattern : option string;
  sp_riskLevel : string;
  sp_examples : option (list string)
}.

(** What one entry of the table adds to [patterns]: its examples, then
    its own [pattern] when that is truthy. *)
Definition patterns_of (pattern : ScanPattern) : list string :=
  (default [] (sp_examples pattern) ++
   (if Js.truthy (sp_pattern pattern)
    then [ default "" (sp_pattern pattern) ] else []))%list.

(** The list [patterns] once the table of the database ([None]: no
    database, or one without a table) has been added, in the order of
    [this.threatDatabase.patterns.values()]. *)
Definition registry (table : option (list ScanPattern)) : list string :=
  (builtin_patterns ++ flat_map patterns_of (default [] table))%list.

(** The extracted tree.  A file has a name and a content ([None]: it
    cannot be read); a directory has a name, the message [readdir]
    throws, if it does, and its items in the order [readdir] lists them;
    [Broken] is an item on which [stat] throws. *)
Inductive Entry :=
| File (name : string) (content : option string)
| Dir (name : string) (failure : option string) (items : list Entry)
| Broken (name : string) (msg : string).

(** [path.join(dir, item)] for a plain item name (POSIX separator) *)
Definition join (dir item : string) : string :=
  String.append dir (String.append "/" item).

Definition is_digit (c : ascii) : bool :=
  let n := Z.of_nat (nat_of_ascii c) in (48 <=? n) && (n <=? 57).

(** [s.endsWith(suffix)] *)
Definition endsWith (s suffix : string) : bool :=
  String.eqb
    (Manifest.drop (String.length s - String.length suffix)%nat s) suffix
  && (String.length suffix <=? String.length s)%nat.

(** The test of the regular expression for [classes.dex],
    [classes2.dex], ...: the word classes, digits, then [.dex], letters
    in either case. *)
Definition is_classes_dex (item : string) : bool :=
  let l := Js.toLowerCase item in
  String.prefix "classes" l
  && String.eqb
       (Manifest.drop
          (String.length
             (Manifest.take_while is_digit (Manifest.drop 7 l)))
          (Manifest.drop 7 l))
       ".dex".

(** The test that selects the files to scan *)
Definition is_target (item itemPath : string) : bool :=
  is_classes_dex item
  || String.eqb item "AndroidManifest.xml"
  || (endsWith (Js.toLowerCase item) ".xml"
      && Js.includes (Js.toLowerCase itemPath) "/res/").

(** A file selected for the scan: its path, its base name and what
    [readFile] gives. *)
Record Target := {
  t_path : string;
  t_name : string;
  t_content : option string
}.

(** [addFilesFromDir(dir)] over the items of [dir]: the selected files
    in the order they are pushed, or the message of the first [readdir]
    or [stat] that throws. *)
Fixpoint addFilesFromEntry (dir : string) (e : Entry) : string + list Target :=
  match e with
  | File item content =>
      let itemPath := join dir item in
      if is_target item itemPath
      then inr [ {| t_path := itemPath; t_name := item;
                    t_content := content |} ]
      else inr []
  | Broken item msg => inl msg
  | Dir item failure items =>
      let itemPath := join dir item in
      match failure with
      | Some msg => inl msg
      | None =>
          (fix addFilesFromItems (l : list Entry) : string + list Target :=
             match l with
             | [] => inr []
             | x :: r =>
                 match addFilesFromEntry itemPath x with
                 | inl msg => inl msg
                 | inr ts =>
                     match addFilesFromItems r with
                     | inl msg => inl msg
                     | inr ts' => inr (ts ++ ts')%list
                     end
                 end
             end) items
      end
  end.

(** The same loop over the items of a directory already listed *)
Fixpoint addFilesFromItems (dir : string) (l : list Entry)
    : string + list Target :=
  match l with
  | [] => inr []
  | x :: r =>
      match addFilesFromEntry dir x with
      | inl msg => inl msg
      | inr ts =>
          match addFilesFromItems dir r with
          | inl msg => inl msg
          | inr ts' => inr (ts ++ ts')%list
          end
      end
  end.

(** [addFilesFromDir(allFiles)] at the root of the extracted tree *)
Definition addFilesFromDir (root : string) (failure : option string)
    (items : list Entry) : string + list Target :=
  match failure with
  | Some msg => inl msg
  | None => addFilesFromItems root items
  end.

(** The callback of [patterns.forEach] for one file content *)
Definition match_pattern (name contentStr : string) (pattern : string)
    : list FoundPattern :=
  let p := Js.toLowerCase pattern in
  if Js.truthy (Some p) && Js.includes contentStr p
  then [ {| fp_pattern := pattern; fp_file := name;
            fp_confidence := estimatePatternConfidence pattern |} ]
  else [].

(** The body of the loop over [targetFiles]: a file that cannot be read
    is skipped. *)
Definition scan_target (patterns : list string) (t : Target)
    : list FoundPattern :=
  match t_content t with
  | Some buffer =>
      flat_map (match_pattern (t_name t) (Js.toLowerCase buffer)) patterns
  | None => []
  end.

(** [scanForSuspiciousPatterns(extractedPath)] *)
Definition scanForSuspiciousPatterns (table : option (list ScanPattern))
    (root : string) (failure : option string) (items : list Entry)
    : string + list FoundPattern :=
  match addFilesFromDir root failure items with
  | inl msg => inl msg
  | inr targetFiles => inr (flat_map (scan_target (registry table)) targetFiles)
  end.

(** [findDex(dir)] of [findDexFiles]: every [readdir] and every item has
    its own [try], so that a failure skips the directory or the item. *)
Fixpoint findDexEntry (dir : string) (e : Entry) : list string :=
  match e with
  | File item _ =>
      if endsWith item ".dex" then [ join dir item ] else []
  | Broken _ _ => []
  | Dir item failure items =>
      match failure with
      | Some _ => []
      | None => flat_map (findDexEntry (join dir item)) items
      end
  end.

Definition findDexFiles (root : string) (failure : option string)
    (items : list Entry) : list string :=
  match failure with
  | Some _ => []
  | None => flat_map (findDexEntry root) items
  end.

(** [analyzeCode(extractedPath)] *)
Definition analyzeCode (table : option (list ScanPattern))
    (root : string) (failure : option string) (items : list Entry)
    : CodeAnalysis :=
  let dexFiles := findDexFiles root failure items in
  match scanForSuspiciousPatterns table root failure items with
  | inr suspiciousPatterns =>
      {| ca_dexFiles := Z.of_nat (length dexFiles);
         ca_suspiciousPatterns := suspiciousPatterns;
         ca_riskScore := Code.calculateCodeRisk suspiciousPatterns;
         ca_error := None |}
  | inl msg =>
      {| ca_dexFiles := 0;
         ca_suspiciousPatterns := [];
         ca_riskScore := 0;
         ca_error := Some msg |}
  end.

(** Does [readdir] or [stat] throw somewhere in the tree? *)
Fixpoint faulty (e : Entry) : bool :=
  match e with
  | File _ _ => false
  | Broken _ _ => true
  | Dir _ failure items =>
      match failure with
      | Some _ => true
      | None => existsb faulty items
      end
  end.

(** Does the call throw? *)
Definition throws {A} (r : string + A) : bool :=
  match r with
  | inl _ => true
  | inr _ => false
  end.

(** The test of [addFilesFromDir] on a file of the tree *)
Definition selected (t : Target) : bool :=
  is_target (t_name t) (t_path t).

(** The files of a tree, with their paths *)
Fixpoint files_of (dir : string) (e : Entry) : list Target :=
  match e with
  | File item content =>
      [ {| t_path := join dir item; t_name := item; t_content := content |} ]
  | Broken _ _ => []
  | Dir item _ items => flat_map (files_of (join dir item)) items
  end.

End Scanner.

(* ===================================================================== *)
(** ** [ThreatDatabase]: removal, search and the pattern table *)
(* ===================================================================== *)

Module ThreatAdmin.

Import ThreatDatabase.

(** [threat.id === threatId] *)
Definition has_id (threatId : string) (threat : ThreatRecord) : bool :=
  bool_decide (tr_id threat = Some threatId).

(** [removeThreat(threatId)]: every entry whose record has the id is
    deleted; the map is saved, and [true] returned, only when some entry
    was.  [save] is the outcome of [saveThreatDatabase]. *)
Definition removeThreat (save : option string)
    (threats : gmap string ThreatRecord) (threatId : string)
    : gmap string ThreatRecord * (string + bool) :=
  let removed :=
    bool_decide
      (map_Exists (fun _ threat => has_id threatId threat = true) threats) in
  let threats' :=
    filter (fun kv : string * ThreatRecord => has_id threatId kv.2 = false)
      threats in
  if removed then
    match save with
    | Some msg => (threats', inl msg)
    | None => (threats', inr true)
    end
  else (threats', inr false).

Definition no_id : string :=
  "Cannot read properties of undefined (reading 'includes')".

(** The condition of the [if] in [searchThreats]; a record without
    [id] makes [threat.id.includes] throw. *)
Definition hit (queryLower : string) (threat : ThreatRecord)
    : string + bool :=
  match tr_id threat with
  | None => inl no_id
  | Some id =>
      inr (Js.includes id queryLower
           || (Js.truthy (tr_packageName threat)
               && Js.includes (default "" (tr_packageName threat)) queryLower)
           || (Js.truthy (Some (tr_description threat))
               && Js.includes (Js.toLowerCase (tr_description threat))
                    queryLower)
           || (Js.truthy (tr_family threat)
               && Js.includes (Js.toLowerCase (default "" (tr_family threat)))
                    queryLower))
  end.

(** The loop of [searchThreats] over [this.threats.values()] *)
Fixpoint search_values (queryLower : string) (values : list ThreatRecord)
    : string + list ThreatRecord :=
  match values with
  | [] => inr []
  | threat :: rest =>
      match hit queryLower threat with
      | inl msg => inl msg
      | inr b =>
          match search_values queryLower rest with
          | inl msg => inl msg
          | inr results => inr (if b then threat :: results else results)
          end
      end
  end.

(** [searchThreats(query)].  The values are visited once per key; the
    model lists them in the order of its map, the source in the order
    the keys were inserted. *)
Definition searchThreats (threats : gmap string ThreatRecord)
    (query : string) : string + list ThreatRecord :=
  search_values (Js.toLowerCase query) (map_to_list threats).*2.

(** [this.patterns]: a [Map] from id to pattern, in insertion order *)
Definition Patterns : Type := list (string * Scanner.ScanPattern).

(** [map.set(k, v)]: an existing key keeps its place *)
Fixpoint map_set (k : string) (v : Scanner.ScanPattern) (m : Patterns)
    : Patterns :=
  match m with
  | [] => [ (k, v) ]
  | (k', v') :: r =>
      if String.eqb k k' then (k, v) :: r else (k', v') :: map_set k v r
  end.

(** [getPatterns()] *)
Definition getPatterns (patterns : Patterns) : list Scanner.ScanPattern :=
  List.map snd patterns.

(** The pattern as [addPattern] stores it *)
Definition with_id (clock : Clock) (pattern : Scanner.ScanPattern)
    : Scanner.ScanPattern :=
  {| Scanner.sp_id :=
       if Js.truthy (Scanner.sp_id pattern) then Scanner.sp_id pattern
       else Some (String.append "pattern_" (now_ms clock));
     Scanner.sp_name := Scanner.sp_name pattern;
     Scanner.sp_pattern := Scanner.sp_pattern pattern;
     Scanner.sp_riskLevel := Scanner.sp_riskLevel pattern;
     Scanner.sp_examples := Scanner.sp_examples pattern |}.

(** [addPattern(pattern)]; [save] is the outcome of
    [savePatternDatabase]. *)
Definition addPattern (clock : Clock) (save : option string)
    (patterns : Patterns) (pattern : Scanner.ScanPattern)
    : Patterns * (string + Scanner.ScanPattern) :=
  let pattern := with_id clock pattern in
  let patterns :=
    map_set (default "" (Scanner.sp_id pattern)) pattern patterns in
  match save with
  | Some msg => (patterns, inl msg)
  | None => (patterns, inr pattern)
  end.

End ThreatAdmin.

(* ===================================================================== *)
(** ** [APKAnalyzer.extractAPK] and [extractAPKManual] *)
(* ===================================================================== *)

Module Extraction.

(** What the file system and the two archive libraries do during one
    extraction ([Some msg]: the call throws [msg]). *)
Record Outcomes := {
  ensureDir_first : option string;        (* before the first strategy *)
  unzipper : option string;
  adm_zip : option string;
  ensureDir_placeholder : option string;  (* last resort, inner [catch] *)
  writeFile_marker : option string;       (* [.no_extraction] *)
  ensureDir_last : option string          (* outer [catch] *)
}.

(** How the returned directory was filled *)
Inductive Filled := by_unzipper | by_adm_zip | by_marker | left_empty.

Definition call (outcome : option string) : string + unit :=
  match outcome with
  | Some msg => inl msg
  | None => inr tt
  end.

(** [extractAPKManual(apkPath, extractPath)] *)
Definition extractAPKManual (o : Outcomes) (extractPath : string)
    : string + (string * Filled) :=
  let attempt : string + (string * Filled) :=
    match call (adm_zip o) with
    | inr _ => inr (extractPath, by_adm_zip)
    | inl zErr =>
        match call (ensureDir_placeholder o) with
        | inl e => inl e
        | inr _ =>
            match call (writeFile_marker o) with
            | inl e => inl e
            | inr _ => inr (extractPath, by_marker)
            end
        end
    end in
  match attempt with
  | inr r => inr r
  | inl error =>
      match call (ensureDir_last o) with
      | inl e => inl e
      | inr _ => inr (extractPath, left_empty)
      end
  end.

(** [extractAPK(apkPath, analysisId)], where [extractPath] is the
    directory [extracted_<analysisId>] beside the upload.  The second
    component of the result is not returned by the source: it records
    which strategy filled the directory. *)
Definition extractAPK (o : Outcomes) (extractPath : string)
    : string + (string * Filled) :=
  match call (ensureDir_first o) with
  | inl e => inl e
  | inr _ =>
      match call (unzipper o) with
      | inr _ => inr (extractPath, by_unzipper)
      | inl zipErr => extractAPKManual o extractPath
      end
  end.

End Extraction.

(* ===================================================================== *)
(** ** [APKAnalyzer]: statistics and the other jobs *)
(* ===================================================================== *)

Module Bookkeeping.

Import Pipeline.

(** The body of [updateStatistics(riskLevel)] (the time stamp [lastScan]
    is left out) *)
Definition count_scan (riskLevel : RiskLevel) (s : Statistics)
    : Statistics :=
  {| totalScans := totalScans s + 1;
     safeApps :=
       match riskLevel with safe => safeApps s + 1 | _ => safeApps s end;
     suspiciousApps :=
       match riskLevel with
       | suspicious => suspiciousApps s + 1
       | _ => suspiciousApps s
       end;
     maliciousApps :=
       match riskLevel with
       | malicious => maliciousApps s + 1
       | _ => maliciousApps s
       end |}.

(** The statistics after a series of finished scans *)
Definition count_scans (levels : list RiskLevel) (s : Statistics)
    : Statistics :=
  fold_left (fun s l => count_scan l s) levels s.

Definition counted (l : RiskLevel) : bool :=
  match l with
  | safe | suspicious | malicious => true
  | low_risk | high_risk => false
  end.

(** The statistics of a new analyzer *)
Definition zero : Statistics :=
  {| totalScans := 0; safeApps := 0; suspiciousApps := 0;
     maliciousApps := 0 |}.

(** The pending timer, if any, belongs to this job. *)
Definition armed_for (analysisId : string) (w : World) : Prop :=
  match timer w with
  | Some (_, id) => id = analysisId
  | None => True
  end.


(** The job is under way: its record is the object [analyzeAPK]
    created, which has its [steps], and no timer of another job is
    pending. *)
Definition live (analysisId : string) (w : World) : Prop :=
  armed_for analysisId w /\
  exists r, analysisResults w !! analysisId = Some r /\ is_Some (j_steps r).

(** A computation that leaves the statistics alone *)
Definition quiet {A} (m : M A) : Prop :=
  forall w, statistics (snd (m w)) = statistics w.

(** A computation that keeps the job under way and leaves the
    statistics alone, whether it returns or throws *)
Definition calm (analysisId : string) {A} (m : M A) : Prop :=
  forall w, live analysisId w ->
    live analysisId (snd (m w)) /\
    statistics (snd (m w)) = statistics w.

(** A step of the pipeline that cannot fail while the job is under
    way, and keeps it so *)
Definition steady (analysisId : string) {A} (m : M A) : Prop :=
  forall w, live analysisId w ->
    exists a w', m w = (inr a, w') /\ live analysisId w' /\
                 statistics w' = statistics w.

(** The sum of the three counters of verdicts *)
Definition classified (s : Statistics) : Z :=
  safeApps s + suspiciousApps s + maliciousApps s.

(** The state in which the pipeline proper starts: the record created,
    the first progress step written, the timer armed *)
Definition started (env : Env) (analysisId : string) (w : World) : World :=
  let w := set_results <[ analysisId := fresh ]> [WCreate] w in
  let w :=
    set_results
      <[ analysisId :=
           with_steps
             [ {| step := "Starting";
                  description := "Initializing analysis" |} ]
             (with_progress 5 fresh) ]>
      [WProgress 5; WStep "Starting"] w in
  set_timer
    match fire_at env with
    | Some n => Some (n, analysisId)
    | None => None
    end
    (timedOut w) w.

(** The main path runs to its end: the file can be examined, there is a
    threat database, and the verdict can be assembled. *)
Definition main_path_completes (env : Env) : bool :=
  match file_structure env, threatDatabase env, assemble_fault env with
  | inr _, Some _, None => true
  | _, _, _ => false
  end.


End Bookkeeping.

(* ===================================================================== *)
(** ** More inputs for the examples *)
(* ===================================================================== *)

Module MoreSamples.

(** No threat database was given to the analyzer; everything else
    works. *)
Definition no_database : Pipeline.Env :=
  {| Pipeline.threatDatabase := None;
     Pipeline.file_structure := inr Samples.bank_file;
     Pipeline.file_structure_again := inr Samples.bank_file;
     Pipeline.extraction := None;
     Pipeline.manifest_file := Manifest.readable "<manifest/>";
     Pipeline.parse_error := fun _ => None;
     Pipeline.code_scan := inr (1, []);
     Pipeline.assemble_fault := None;
     Pipeline.assemble_fault_fallback := None;
     Pipeline.fire_at := None |}.


End MoreSamples.

(* ===================================================================== *)
(** * Properties *)
(* ===================================================================== *)

(** ** The permission scorer *)

Section PermissionScore.

Import Permissions.

Lemma add_permission_increment (acc : Z) (p : string) :
  add_permission acc p = acc + increment (tier_of p).
Proof.
  unfold add_permission, tier_of.
  destruct (Js.arr_includes highRiskPerms p); [reflexivity |].
  destruct (Js.arr_includes mediumRiskPerms p); [reflexivity |].
  destruct (Js.arr_includes lowRiskPerms p); reflexivity.
Qed.

Lemma fold_add_permission (ms : list string) :
  forall acc, fold_left add_permission ms acc = acc + sum_increments ms.
Proof.
  induction ms as [| m ms IH]; intros acc; simpl.
  - lia.
  - rewrite IH, add_permission_increment. lia.
Qed.

(** A member of a literal table is one of its entries. *)
Lemma arr_includes_In (arr : list string) (x : string) :
  Js.arr_includes arr x = true <-> In x arr.
Proof.
  unfold Js.arr_includes. rewrite existsb_exists. split.
  - intros (y & Hy & E). apply String.eqb_eq in E. now subst.
  - intros H. exists x. split; [assumption | apply String.eqb_refl].
Qed.

(** The low tier shares no entry with the two tiers tested before it. *)
Lemma low_tier_disjoint (p : string) :
  Js.arr_includes lowRiskPerms p = true ->
  Js.arr_includes highRiskPerms p = false /\
  Js.arr_includes mediumRiskPerms p = false.
Proof.
  intros H. apply arr_includes_In in H. simpl in H.
  repeat (destruct H as [<- | H]; [split; reflexivity |]).
  contradiction.
Qed.

Lemma single_low_risk_exactly_one_low (ms : list string) :
  single_low_risk ms = exactly_one_low ms.
Proof.
  destruct ms as [| m [| m' ms]]; try reflexivity.
  unfold single_low_risk, exactly_one_low, tier_of.
  destruct (Js.arr_includes lowRiskPerms m) eqn:L.
  - destruct (low_tier_disjoint m L) as [-> ->]. reflexivity.
  - destruct (Js.arr_includes highRiskPerms m); [reflexivity |].
    destruct (Js.arr_includes mediumRiskPerms m); reflexivity.
Qed.

Lemma exactly_one_low_sum (ms : list string) :
  exactly_one_low ms = true ->
  sum_increments ms = 8 /\ length ms = 1%nat.
Proof.
  destruct ms as [| m [| m' ms]]; simpl; try discriminate.
  destruct (tier_of m); try discriminate. intros _. split; reflexivity.
Qed.

(** C6.  For every permission list, the score [analyzePermissions]
    reports is 10, plus 25, 15, 8 or 10 for each matched suspicious
    permission according to its tier (high, medium, low, none), minus 5
    when exactly one permission matched and it is low-tier, plus 15 when
    five or more matched, clamped to the range 0..100. *)
Theorem permission_score_formula (perms : list string) :
  pa_riskScore (analyzePermissions perms) = spec_permission_score perms.
Proof.
  unfold analyzePermissions, spec_permission_score, calculatePermissionRisk,
    clamp_0_100, matched. simpl.
  set (ms := List.filter (Js.arr_includes suspiciousPermissions) perms).
  rewrite fold_add_permission, single_low_risk_exactly_one_low.
  destruct (exactly_one_low ms) eqn:E.
  - destruct (exactly_one_low_sum ms E) as [-> ->]. reflexivity.
  - destruct (5 <=? Z.of_nat (length ms)); lia.
Qed.

(** The matched permissions are those of the list that occur in the
    suspicious table, in order and with their repetitions. *)
Lemma suspicious_is_matched (perms : list string) :
  pa_suspicious (analyzePermissions perms) = matched perms.
Proof. reflexivity. Qed.

Example permission_score_two :
  pa_riskScore (analyzePermissions
    [ "android.permission.INTERNET"; "android.permission.READ_SMS" ]) = 25.
Proof. reflexivity. Qed.

Example permission_score_single_camera :
  pa_riskScore (analyzePermissions [ "android.permission.CAMERA" ]) = 13.
Proof. reflexivity. Qed.

Example permission_score_breadth :
  pa_riskScore (analyzePermissions
    [ "android.permission.CAMERA"; "android.permission.RECORD_AUDIO";
      "android.permission.READ_SMS"; "android.permission.WRITE_SETTINGS";
      "android.permission.SYSTEM_ALERT_WINDOW" ]) = 91.
Proof. reflexivity. Qed.

End PermissionScore.

(** ** The code-pattern scorer *)

Section CodeScore.

Import Code.

Lemma len_app {A} (l : list A) (x : A) : len (l ++ [x])%list = len l + 1.
Proof. unfold len. rewrite length_app. simpl. lia. Qed.

Lemma len_nonneg {A} (l : list A) : 0 <= len l.
Proof. unfold len. lia. Qed.

Lemma count_cons (c : Class) (p : FoundPattern) (ps : list FoundPattern) :
  count c (p :: ps) = (if is_class c p then 1 else 0) + count c ps.
Proof.
  unfold count, len. simpl. destruct (is_class c p); simpl; lia.
Qed.

(** What the [forEach] leaves in the three arrays, by size *)
Lemma categorize_counts (ps : list FoundPattern) :
  forall b,
    let b' := fold_left categorize ps b in
    len (highRiskPatterns b')
      = len (highRiskPatterns b) + count high_class ps /\
    len (mediumRiskPatterns b')
      = len (mediumRiskPatterns b) + count medium_class ps /\
    len (lowRiskPatterns b') = len (lowRiskPatterns b) + count low_class ps.
Proof.
  induction ps as [| p ps IH]; intros b; simpl.
  - unfold count, len; simpl. lia.
  - specialize (IH (categorize b p)). simpl in IH.
    destruct IH as (Hh & Hm & Hl). rewrite Hh, Hm, Hl.
    rewrite !count_cons. unfold categorize, is_class, class_of.
    destruct (is_high (pat_of p)); simpl; rewrite ?len_app; [lia |].
    destruct (is_medium (pat_of p)); simpl; rewrite ?len_app; [lia |].
    destruct (is_low_named (pat_of p)); simpl; rewrite ?len_app; lia.
Qed.

Lemma count_nonneg (c : Class) (ps : list FoundPattern) : 0 <= count c ps.
Proof. apply len_nonneg. Qed.

(** C7.  For every list of matched patterns, [calculateCodeRisk] is:
    min(25 + 8 per high-risk match, 60) when a high-risk pattern
    matched, plus a contribution of at most 40 when two or more
    medium-risk patterns matched, plus a contribution of at most 30 when
    three or more low-risk patterns matched, minus 5 when the only
    match is a single low-risk one, minus 10 when no high- and no
    medium-risk pattern matched, the result clamped to 0..100. *)
Theorem code_score_formula (ps : list FoundPattern) :
  calculateCodeRisk ps = spec_code_score ps /\
  medium_contribution (count medium_class ps) <= 40 /\
  low_contribution (count low_class ps) <= 30.
Proof.
  unfold calculateCodeRisk, spec_code_score.
  destruct (categorize_counts ps
              {| highRiskPatterns := []; mediumRiskPatterns := [];
                 lowRiskPatterns := [] |}) as (Hh & Hm & Hl).
  simpl in Hh, Hm, Hl. rewrite Hh, Hm, Hl.
  change (len (@nil FoundPattern)) with 0. rewrite !Z.add_0_l.
  pose proof (count_nonneg high_class ps) as Ph.
  pose proof (count_nonneg medium_class ps) as Pm.
  pose proof (count_nonneg low_class ps) as Pl.
  set (h := count high_class ps) in *.
  set (m := count medium_class ps) in *.
  set (l := count low_class ps) in *.
  unfold high_contribution, medium_contribution, low_contribution,
    Permissions.clamp_0_100.
  repeat split.
  - destruct (Z.ltb_spec 0 h), (Z.leb_spec 1 h), (Z.leb_spec 2 m),
      (Z.leb_spec 3 l), (Z.eqb_spec (len ps) 1), (Z.eqb_spec l 1),
      (Z.eqb_spec h 0), (Z.eqb_spec m 0); simpl; lia.
  - destruct (2 <=? m); lia.
  - destruct (3 <=? l); lia.
Qed.

Example code_score_one_overlay :
  calculateCodeRisk [ Samples.found "SYSTEM_ALERT_WINDOW" ] = 33.
Proof. reflexivity. Qed.

Example code_score_single_low :
  calculateCodeRisk [ Samples.found "addJavascriptInterface" ] = 0.
Proof. reflexivity. Qed.

Example code_score_three_medium :
  calculateCodeRisk
    [ Samples.found "SmsManager"; Samples.found "MediaProjection";
      Samples.found "VirtualDisplay" ] = 35.
Proof. reflexivity. Qed.

Example code_score_three_low :
  calculateCodeRisk
    [ Samples.found "REQUEST_INSTALL_PACKAGES";
      Samples.found "PACKAGE_USAGE_STATS";
      Samples.found "RECEIVE_BOOT_COMPLETED" ] = 14.
Proof. reflexivity. Qed.

End CodeScore.

(** ** The risk aggregator *)

Section TotalRisk.

Import Aggregator.

Lemma grid_complete (x : Z) : 0 <= x <= 100 -> In x grid.
Proof.
  intros H. unfold grid. apply in_map_iff. exists (Z.to_nat x).
  split; [lia | apply in_seq; lia].
Qed.

(** On every pair of sub-scores the double-precision expression of the
    source rounds to the integer [weighted] computes: 10201 evaluations
    of the binary64 product and sum. *)
Lemma weighted_f64_grid :
  forallb (fun p => forallb (agrees p) grid) grid = true.
Proof. vm_compute. reflexivity. Qed.

Lemma weighted_f64_exact (p c : Z) :
  0 <= p <= 100 -> 0 <= c <= 100 -> weighted_f64 p c = Some (weighted p c).
Proof.
  intros Hp Hc. pose proof weighted_f64_grid as G.
  rewrite forallb_forall in G. specialize (G p (grid_complete p Hp)).
  rewrite forallb_forall in G. specialize (G c (grid_complete c Hc)).
  unfold agrees in G. destruct (weighted_f64 p c) as [r |]; [| discriminate].
  apply Z.eqb_eq in G. now subst.
Qed.

(** [weighted p c] is the integer nearest to 0.55 p + 0.45 c, a half
    rounded up: 0.55 p + 0.45 c - 1/2 < w <= 0.55 p + 0.45 c + 1/2. *)
Lemma weighted_nearest (p c : Z) :
  100 * weighted p c <= 55 * p + 45 * c + 50 < 100 * weighted p c + 100.
Proof.
  unfold weighted.
  pose proof (Z.div_mod (11 * p + 9 * c + 10) 20 ltac:(lia)) as D.
  pose proof (Z.mod_pos_bound (11 * p + 9 * c + 10) 20 ltac:(lia)) as B.
  lia.
Qed.

Lemma calculateTotalRisk_guard_rails (p c : Z) (t : option ThreatAnalysis) :
  calculateTotalRisk p c t = spec_total_risk p c (known t).
Proof.
  unfold calculateTotalRisk, spec_total_risk, floor_at, cap_at,
    Permissions.clamp_0_100.
  reflexivity.
Qed.

Lemma calculateTotalRisk_range (p c : Z) (t : option ThreatAnalysis) :
  0 <= calculateTotalRisk p c t <= 100.
Proof. unfold calculateTotalRisk. lia. Qed.

Lemma calculateTotalRisk_known (p c : Z) (t : option ThreatAnalysis) :
  known t = true -> 90 <= calculateTotalRisk p c t.
Proof.
  intros K. unfold calculateTotalRisk. rewrite K. simpl.
  rewrite andb_false_r. lia.
Qed.

(** C1.  For all sub-scores p and c in 0..100 and every threat-lookup
    result: the rounding of the double 0.55 p + 0.45 c is the nearest
    integer [weighted p c], a half rounded up; [calculateTotalRisk]
    starts from it, raises it to at least 70 when p >= 60 or c >= 60, to
    at least 90 when the lookup matched, lowers it to at most 20 when
    p < 15, c < 15 and nothing matched, and returns a value in 0..100. *)
Theorem calculateTotalRisk_spec (p c : Z) (t : option ThreatAnalysis) :
  0 <= p <= 100 -> 0 <= c <= 100 ->
  let r := calculateTotalRisk p c t in
  weighted_f64 p c = Some (weighted p c) /\
  100 * weighted p c <= 55 * p + 45 * c + 50 < 100 * weighted p c + 100 /\
  r = spec_total_risk p c (known t) /\
  (p < 60 -> c < 60 -> known t = false -> r = weighted p c) /\
  (60 <= p \/ 60 <= c -> known t = false -> r = Z.max (weighted p c) 70) /\
  (known t = true -> r = Z.max (weighted p c) 90) /\
  (p < 15 -> c < 15 -> known t = false -> r <= 20) /\
  0 <= r <= 100.
Proof.
  intros Hp Hc r. pose proof (weighted_nearest p c) as W.
  split; [now apply weighted_f64_exact |].
  split; [exact W |].
  split; [apply calculateTotalRisk_guard_rails |].
  subst r. unfold calculateTotalRisk.
  destruct (known t);
    destruct (Z.leb_spec 60 p), (Z.leb_spec 60 c),
             (Z.ltb_spec p 15), (Z.ltb_spec c 15);
    cbn [orb andb negb]; repeat split; intros; try discriminate; lia.
Qed.

Lemma calculateTotalRisk_spec_witness :
  (0 <= 10 <= 100 /\ 0 <= 0 <= 100) /\
  weighted_f64 10 0 = Some 6 /\
  calculateTotalRisk 10 0 None = 6.
Proof.
  split; [lia |].
  destruct (calculateTotalRisk_spec 10 0 None ltac:(lia) ltac:(lia))
    as (F & _ & _ & R & _).
  split; [exact F | apply R; reflexivity || lia].
Defined.

(** The guard rails, case by case *)
Example total_risk_plain : calculateTotalRisk 40 30 None = 36.
Proof. reflexivity. Qed.
Example total_risk_tie_rounds_up : calculateTotalRisk 30 20 None = 26.
Proof. reflexivity. Qed.
Example total_risk_floor_70 : calculateTotalRisk 60 0 None = 70.
Proof. reflexivity. Qed.
Example total_risk_cap_20 : calculateTotalRisk 14 14 None = 14.
Proof. reflexivity. Qed.

End TotalRisk.

(** ** The verdict *)

Section Verdict.

Import Aggregator.

Variables (analysisId : string) (fileAnalysis : FileAnalysis)
          (manifestAnalysis : ManifestInfo)
          (permissionAnalysis : PermissionAnalysis)
          (codeAnalysis : CodeAnalysis).

(** *** Passes that can only raise the score *)

Lemma raise_to_ge (f : Factor) (b : Z) (a : Acc) :
  fst a <= fst (raise_to f b a).
Proof. unfold raise_to. simpl. lia. Qed.

Lemma malicious_name_pass_ge (fn pn : string) (a : Acc) :
  fst a <= fst (malicious_name_pass fn pn a).
Proof.
  unfold malicious_name_pass.
  destruct (_ || _); [apply raise_to_ge | lia].
Qed.

Lemma modded_name_pass_ge (fn pn : string) (a : Acc) :
  fst a <= fst (modded_name_pass fn pn a).
Proof.
  unfold modded_name_pass.
  destruct (_ || _); [apply raise_to_ge | lia].
Qed.

Lemma permission_pass_ge (pa : PermissionAnalysis) (a : Acc) :
  fst a <= fst (permission_pass pa a).
Proof.
  unfold permission_pass.
  repeat match goal with
         | |- context [if ?b then _ else _] => destruct b
         end; unfold raise_to; simpl; lia.
Qed.

Lemma code_pass_ge (ca : CodeAnalysis) (a : Acc) :
  fst a <= fst (code_pass ca a).
Proof.
  unfold code_pass.
  repeat match goal with
         | |- context [if ?b then _ else _] => destruct b
         end; unfold raise_to; simpl; lia.
Qed.

Lemma before_banking_ge (threatAnalysis : ThreatAnalysis) :
  calculateTotalRisk (pa_riskScore permissionAnalysis)
    (ca_riskScore codeAnalysis) (Some threatAnalysis)
  <= fst (before_banking fileAnalysis manifestAnalysis permissionAnalysis
            codeAnalysis threatAnalysis).
Proof.
  unfold before_banking.
  etransitivity; [| apply code_pass_ge].
  etransitivity; [| apply permission_pass_ge].
  etransitivity; [| apply modded_name_pass_ge].
  etransitivity; [| apply malicious_name_pass_ge].
  simpl. lia.
Qed.

(** *** Passes that leave a score of 90 or more alone *)

Lemma banking_pass_high (fn pn : string) (a : Acc) :
  60 <= fst a -> banking_pass fn pn a = a.
Proof.
  intros H. unfold banking_pass.
  destruct (_ || _); [| reflexivity].
  destruct (Z.ltb_spec (fst a) 60); [lia | reflexivity].
Qed.

Lemma signature_pass_high (m : ManifestInfo) (a : Acc) :
  50 <= fst a -> signature_pass m a = a.
Proof.
  intros H. unfold signature_pass.
  destruct (platform_signed m); [| reflexivity].
  destruct (Z.ltb_spec (fst a) 50); [lia | reflexivity].
Qed.

Lemma no_signals_pass_known (t : ThreatAnalysis) (a : Acc) :
  isKnownThreat t = true ->
  no_signals_pass permissionAnalysis codeAnalysis t a = a.
Proof.
  intros K. unfold no_signals_pass. rewrite K. simpl.
  now rewrite andb_false_r.
Qed.

Lemma low_signals_guard_known (t : ThreatAnalysis) (a : Acc) :
  isKnownThreat t = true ->
  low_signals_guard permissionAnalysis codeAnalysis t a = a.
Proof.
  intros K. unfold low_signals_guard. rewrite K. simpl.
  now rewrite andb_false_r.
Qed.

Lemma known_threat_verdict (threatAnalysis : ThreatAnalysis) :
  isKnownThreat threatAnalysis = true ->
  90 <= riskScore (summary (generateFinalResult analysisId fileAnalysis
          manifestAnalysis permissionAnalysis codeAnalysis threatAnalysis)).
Proof.
  intros K.
  pose proof (before_banking_ge threatAnalysis) as B.
  pose proof (calculateTotalRisk_known (pa_riskScore permissionAnalysis)
                (ca_riskScore codeAnalysis) (Some threatAnalysis) K) as T.
  unfold generateFinalResult. cbn [summary riskScore].
  set (a := before_banking _ _ _ _ _) in *.
  rewrite banking_pass_high by lia.
  rewrite signature_pass_high by lia.
  rewrite no_signals_pass_known by assumption.
  rewrite low_signals_guard_known by assumption.
  lia.
Qed.

(** *** The lookup that feeds the verdict *)

Lemma lookupThreat_hash_hit
    (threats : gmap string ThreatDatabase.ThreatRecord)
    (h : string) (pkg : option string) (r : ThreatDatabase.ThreatRecord) :
  threats !! h = Some r ->
  ThreatDatabase.lookupThreat threats (Some h) pkg = Some r.
Proof.
  intros H. unfold ThreatDatabase.lookupThreat. simpl.
  rewrite bool_decide_eq_true_2 by (rewrite H; eauto). exact H.
Qed.

Lemma checkThreatDatabase_hit
    (threats : gmap string ThreatDatabase.ThreatRecord)
    (h : string) (r : ThreatDatabase.ThreatRecord) :
  threats !! h = Some r ->
  fa_hash fileAnalysis = Some h \/
  (fa_hashSha1 fileAnalysis = Some h /\ h <> "") ->
  exists t,
    ThreatCheck.checkThreatDatabase (Some threats) fileAnalysis
      manifestAnalysis codeAnalysis = inr t /\
    isKnownThreat t = true.
Proof.
  intros Hr Hh. eexists. split; [reflexivity |].
  unfold ThreatCheck.consult.
  destruct Hh as [H256 | [H1 Hne]].
  - rewrite H256, (lookupThreat_hash_hit _ _ _ r Hr). reflexivity.
  - destruct (ThreatDatabase.lookupThreat threats (fa_hash fileAnalysis) _)
      as [r' |]; [reflexivity |].
    rewrite H1.
    replace (Js.truthy (Some h)) with true
      by (destruct h; [contradiction | reflexivity]).
    rewrite (lookupThreat_hash_hit _ _ _ r Hr). reflexivity.
Qed.

(** C4.  When a digest of the input file (the sha256, or the sha1) is
    a key of the threat database, the threat check reports a known
    threat and the verdict [generateFinalResult] builds from it has
    [riskScore >= 90], whatever the two sub-scores, the names, the
    signatures and the matched permissions and patterns are. *)
Theorem known_threat_score_at_least_90
    (threats : gmap string ThreatDatabase.ThreatRecord)
    (h : string) (r : ThreatDatabase.ThreatRecord) :
  threats !! h = Some r ->
  fa_hash fileAnalysis = Some h \/
  (fa_hashSha1 fileAnalysis = Some h /\ h <> "") ->
  exists t,
    ThreatCheck.checkThreatDatabase (Some threats) fileAnalysis
      manifestAnalysis codeAnalysis = inr t /\
    isKnownThreat t = true /\
    90 <= riskScore (summary (generateFinalResult analysisId fileAnalysis
            manifestAnalysis permissionAnalysis codeAnalysis t)) <= 100.
Proof.
  intros Hr Hh.
  destruct (checkThreatDatabase_hit threats h r Hr Hh) as (t & E & K).
  exists t. split; [exact E | split; [exact K |]].
  split; [now apply known_threat_verdict |].
  unfold generateFinalResult. cbn [summary riskScore]. lia.
Qed.

(** C10.  When the permission sub-score and the code sub-score are
    both below 25 and the threat lookup did not match, the verdict has
    [riskScore <= 20], whatever the earlier floors raised the score to,
    and the last adjustment logged is the low-signals cap. *)
Theorem low_signals_cap (threatAnalysis : ThreatAnalysis) :
  pa_riskScore permissionAnalysis < 25 ->
  ca_riskScore codeAnalysis < 25 ->
  isKnownThreat threatAnalysis = false ->
  let v := generateFinalResult analysisId fileAnalysis manifestAnalysis
             permissionAnalysis codeAnalysis threatAnalysis in
  0 <= riskScore (summary v) <= 20 /\
  last (adjustments (riskBreakdown (summary v)))
  = Some {| factor := LowSignalsGuard; magnitude := cap 20 |}.
Proof.
  intros Hp Hc K. unfold generateFinalResult.
  cbn [summary riskScore riskBreakdown adjustments].
  set (a := no_signals_pass _ _ _ _).
  unfold low_signals_guard. rewrite K.
  destruct (Z.ltb_spec (pa_riskScore permissionAnalysis) 25); [| lia].
  destruct (Z.ltb_spec (ca_riskScore codeAnalysis) 25); [| lia].
  simpl. split; [lia | apply last_snoc].
Qed.

End Verdict.

Lemma known_threat_score_at_least_90_witness :
  let fa := {| fa_size := 2048; fa_hash := Some "abc123"; fa_hashSha1 := None;
               fa_isValidAPK := true; fa_filename := None |} in
  let ma := {| packageName := "com.mybank.app"; versionCode := "1";
               versionName := "1.0"; permissions := []; activities := [];
               services := []; receivers := []; providers := [];
               signatures := Some ["google"] |} in
  let pa := {| pa_total := 0; pa_suspicious := []; pa_banking := [];
               pa_riskScore := 10 |} in
  let ca := {| ca_dexFiles := 1; ca_suspiciousPatterns := [];
               ca_riskScore := 0; ca_error := None |} in
  let r := {| ThreatDatabase.tr_id := Some "threat_001";
              ThreatDatabase.tr_hash := Some "abc123";
              ThreatDatabase.tr_packageName := None;
              ThreatDatabase.tr_type := "banking_trojan";
              ThreatDatabase.tr_family := None;
              ThreatDatabase.tr_confidence := 95;
              ThreatDatabase.tr_description := "Fake banking application";
              ThreatDatabase.tr_severity := Some "high";
              ThreatDatabase.tr_tags := [];
              ThreatDatabase.tr_firstSeen := None;
              ThreatDatabase.tr_lastSeen := None |} in
  exists t,
    ThreatCheck.checkThreatDatabase (Some {[ "abc123" := r ]}) fa ma ca
      = inr t /\
    isKnownThreat t = true /\
    90 <= riskScore (summary (Aggregator.generateFinalResult "job-1" fa ma
            pa ca t)) <= 100.
Proof.
  intros fa ma pa ca r.
  apply (known_threat_score_at_least_90 "job-1" fa ma pa ca
           {[ "abc123" := r ]} "abc123" r).
  - apply lookup_singleton_eq.
  - left. reflexivity.
Defined.

Lemma low_signals_cap_witness :
  let fa := {| fa_size := 2048; fa_hash := Some "abc123"; fa_hashSha1 := None;
               fa_isValidAPK := true; fa_filename := None |} in
  let ma := {| packageName := "com.trojan.mod"; versionCode := "1";
               versionName := "1.0"; permissions := []; activities := [];
               services := []; receivers := []; providers := [];
               signatures := None |} in
  let pa := Permissions.analyzePermissions
              [ "android.permission.CAMERA" ] in
  let ca := {| ca_dexFiles := 1; ca_suspiciousPatterns := [];
               ca_riskScore := 0; ca_error := None |} in
  let ta := {| isKnownThreat := false; threatType := None;
               ta_confidence := Some 0; ta_description := None |} in
  fst (Aggregator.before_banking fa ma pa ca ta) = 80 /\
  let v := Aggregator.generateFinalResult "job-2" fa ma pa ca ta in
  0 <= riskScore (summary v) <= 20 /\
  last (adjustments (riskBreakdown (summary v)))
  = Some {| factor := LowSignalsGuard; magnitude := cap 20 |}.
Proof.
  intros fa ma pa ca ta. split; [reflexivity |].
  apply (low_signals_cap "job-2" fa ma pa ca ta).
  - vm_compute. reflexivity.
  - vm_compute. reflexivity.
  - reflexivity.
Defined.

Section BankingAdjustment.

Import Aggregator.

Variables (analysisId : string) (fileAnalysis : FileAnalysis)
          (manifestAnalysis : ManifestInfo)
          (permissionAnalysis : PermissionAnalysis)
          (codeAnalysis : CodeAnalysis)
          (threatAnalysis : ThreatAnalysis).

Ltac split_ifs :=
  repeat match goal with
         | |- context [if ?b then _ else _] => destruct b
         end.

Ltac log_step :=
  unfold raise_to, reduce_by, cap_to; simpl; intros;
  repeat match goal with
         | H : In _ (_ ++ _)%list |- _ => apply in_app_or in H; destruct H
         | H : In _ [_] |- _ => destruct H as [<- | []]
         end;
  try (left; assumption);
  try (right; simpl; discriminate);
  repeat (apply in_or_app; left); try assumption.

Lemma malicious_name_pass_silent fn pn : silent (malicious_name_pass fn pn).
Proof. intros a x. unfold malicious_name_pass. split_ifs; log_step. Qed.

Lemma modded_name_pass_silent fn pn : silent (modded_name_pass fn pn).
Proof. intros a x. unfold modded_name_pass. split_ifs; log_step. Qed.

Lemma permission_pass_silent pa : silent (permission_pass pa).
Proof. intros a x. unfold permission_pass. split_ifs; log_step. Qed.

Lemma code_pass_silent ca : silent (code_pass ca).
Proof. intros a x. unfold code_pass. split_ifs; log_step. Qed.

Lemma signature_pass_silent m : silent (signature_pass m).
Proof. intros a x. unfold signature_pass. split_ifs; log_step. Qed.

Lemma no_signals_pass_silent pa ca t : silent (no_signals_pass pa ca t).
Proof. intros a x. unfold no_signals_pass. split_ifs; log_step. Qed.

Lemma low_signals_guard_silent pa ca t : silent (low_signals_guard pa ca t).
Proof. intros a x. unfold low_signals_guard. split_ifs; log_step. Qed.

Lemma signature_pass_extends m : extends (signature_pass m).
Proof. intros a x. unfold signature_pass. split_ifs; log_step. Qed.

Lemma no_signals_pass_extends pa ca t : extends (no_signals_pass pa ca t).
Proof. intros a x. unfold no_signals_pass. split_ifs; log_step. Qed.

Lemma low_signals_guard_extends pa ca t :
  extends (low_signals_guard pa ca t).
Proof. intros a x. unfold low_signals_guard. split_ifs; log_step. Qed.

Lemma before_banking_silent :
  ~ In banking_adjustment
      (snd (before_banking fileAnalysis manifestAnalysis permissionAnalysis
              codeAnalysis threatAnalysis)).
Proof.
  unfold before_banking. intros H.
  apply code_pass_silent in H as [H | H]; [| now apply H].
  apply permission_pass_silent in H as [H | H]; [| now apply H].
  apply modded_name_pass_silent in H as [H | H]; [| now apply H].
  apply malicious_name_pass_silent in H as [H | H]; [| now apply H].
  exact H.
Qed.

Lemma final_log :
  adjustments (riskBreakdown (summary
    (generateFinalResult analysisId fileAnalysis manifestAnalysis
       permissionAnalysis codeAnalysis threatAnalysis))) =
  snd (low_signals_guard permissionAnalysis codeAnalysis threatAnalysis
         (no_signals_pass permissionAnalysis codeAnalysis threatAnalysis
            (signature_pass manifestAnalysis
               (after_banking fileAnalysis manifestAnalysis
                  permissionAnalysis codeAnalysis threatAnalysis)))).
Proof. reflexivity. Qed.

(** C8, as the code has it.  When the file name or the package name
    contains one of bank, finance, payment, wallet, credit: if the score
    reached at that point is below 60 it is lowered by 15, not below 0,
    and the adjustment 'Legitimate banking app indicators' (reduction
    15) is logged in the verdict; if the score is 60 or more, the score
    is left as it is and the verdict logs no such adjustment. *)
Theorem banking_reduction_below_60 :
  banking_named fileAnalysis manifestAnalysis = true ->
  let a := before_banking fileAnalysis manifestAnalysis permissionAnalysis
             codeAnalysis threatAnalysis in
  let a' := after_banking fileAnalysis manifestAnalysis permissionAnalysis
              codeAnalysis threatAnalysis in
  let v := generateFinalResult analysisId fileAnalysis manifestAnalysis
             permissionAnalysis codeAnalysis threatAnalysis in
  (fst a < 60 ->
     fst a' = Z.max (fst a - 15) 0 /\
     (15 <= fst a -> fst a' = fst a - 15) /\
     snd a' = (snd a ++ [banking_adjustment])%list /\
     In banking_adjustment (adjustments (riskBreakdown (summary v)))) /\
  (60 <= fst a ->
     a' = a /\
     ~ In banking_adjustment (adjustments (riskBreakdown (summary v)))).
Proof.
  intros N a a' v. subst v. rewrite final_log. fold a'.
  assert (E : a' = if fst a <? 60
                   then reduce_by BankingIndicators 15 a else a).
  { subst a' a. unfold after_banking, banking_pass.
    unfold banking_named in N. rewrite N. reflexivity. }
  clearbody a'. subst a'. split; intros H.
  - destruct (Z.ltb_spec (fst a) 60); [| lia].
    unfold reduce_by; simpl. repeat split; try lia.
    apply low_signals_guard_extends, no_signals_pass_extends,
      signature_pass_extends.
    simpl. apply in_or_app. right. left. reflexivity.
  - destruct (Z.ltb_spec (fst a) 60); [lia |].
    split; [reflexivity |]. intros I.
    apply low_signals_guard_silent in I as [I | I]; [| now apply I].
    apply no_signals_pass_silent in I as [I | I]; [| now apply I].
    apply signature_pass_silent in I as [I | I]; [| now apply I].
    now apply before_banking_silent in I.
Qed.

End BankingAdjustment.

Section BankingExamples.

Import Aggregator.

Import Samples.

(** C8 as stated fails: package [com.mybank.app] with the two overlay
    permissions reaches the banking check with a score of 70, below 80,
    and keeps it: no reduction, no adjustment. *)
Lemma banking_reduction_not_below_80 :
  let a := before_banking bank_file bank_manifest overlay_permissions
             no_code no_threat in
  let v := generateFinalResult "job-3" bank_file bank_manifest
             overlay_permissions no_code no_threat in
  Js.test_any banking_words (packageName_of bank_manifest) = true /\
  fst a = 70 /\ fst a < 80 /\
  banking_pass (filename_of bank_file) (packageName_of bank_manifest) a = a /\
  riskScore (summary v) = 70 /\
  ~ In (banking_adjustment)
       (adjustments (riskBreakdown (summary v))).
Proof.
  cbv zeta. repeat split; try reflexivity.
  vm_compute. intros [H | []]. discriminate H.
Qed.

Lemma banking_reduction_below_60_witness :
  let a := before_banking bank_file bank_manifest sms_permissions
             no_code no_threat in
  let a' := after_banking bank_file bank_manifest sms_permissions
              no_code no_threat in
  let v := generateFinalResult "job-4" bank_file bank_manifest
             sms_permissions no_code no_threat in
  fst a = 14 /\
  (fst a < 60 ->
     fst a' = Z.max (fst a - 15) 0 /\
     (15 <= fst a -> fst a' = fst a - 15) /\
     snd a' = (snd a ++ [banking_adjustment])%list /\
     In banking_adjustment (adjustments (riskBreakdown (summary v)))) /\
  (60 <= fst a ->
     a' = a /\
     ~ In banking_adjustment (adjustments (riskBreakdown (summary v)))).
Proof.
  cbv zeta. split; [reflexivity |].
  apply (banking_reduction_below_60 "job-4" bank_file bank_manifest
           sms_permissions no_code no_threat).
  reflexivity.
Defined.

End BankingExamples.

(** ** The threat database *)

Section ThreatLookup.

Import ThreatDatabase.

Lemma has_is_Some (threats : gmap string ThreatRecord) (k : option string) :
  has threats k = true <-> is_Some (get threats k).
Proof.
  destruct k as [k |]; simpl.
  - apply bool_decide_eq_true.
  - split; [discriminate | intros [? [=]]].
Qed.

Lemma has_false (threats : gmap string ThreatRecord) (k : option string) :
  has threats k = false <-> get threats k = None.
Proof.
  rewrite <- not_true_iff_false, has_is_Some, eq_None_not_Some. reflexivity.
Qed.

(** Hash first, then package name, else [null] *)
Lemma lookupThreat_order (threats : gmap string ThreatRecord)
    (hash packageName : option string) :
  lookupThreat threats hash packageName =
  match get threats hash with
  | Some r => Some r
  | None => if Js.truthy packageName then get threats packageName else None
  end.
Proof.
  unfold lookupThreat.
  destruct (has threats hash) eqn:Hh.
  - apply has_is_Some in Hh as [r Hr]. now rewrite Hr.
  - apply has_false in Hh. rewrite Hh.
    destruct (Js.truthy packageName); [| reflexivity]. simpl.
    destruct (has threats packageName) eqn:Hp; [reflexivity |].
    apply has_false in Hp. now rewrite Hp.
Qed.

Lemma set_if_lookup (k : string) (r : ThreatRecord)
    (threats : gmap string ThreatRecord) :
  k <> "" -> set_if (Some k) r threats = <[ k := r ]> threats.
Proof. destruct k; [contradiction | reflexivity]. Qed.

Lemma truthy_nonempty (k : string) : k <> "" -> Js.truthy (Some k) = true.
Proof. destruct k; [contradiction | reflexivity]. Qed.

(** C9.  [lookupThreat] tries the hash key, then the package-name key,
    and returns [null] (here [None]), never an error, when neither is
    present; and after [addThreat] of a record that has both a hash and
    a package name, whether or not the write to disk succeeds, a lookup
    by that hash and a lookup by that package name (with a hash that is
    no key) both return the record as [addThreat] stored it. *)
Theorem lookup_after_add (clock : Clock) (save : option string)
    (threats : gmap string ThreatRecord) (r : ThreatRecord)
    (h p : string) :
  tr_hash r = Some h -> h <> "" ->
  tr_packageName r = Some p -> p <> "" ->
  let threats' := fst (addThreat clock save threats r) in
  (forall db hash pkg,
      lookupThreat db hash pkg =
      match get db hash with
      | Some x => Some x
      | None => if Js.truthy pkg then get db pkg else None
      end) /\
  (forall db hash pkg,
      get db hash = None -> get db pkg = None ->
      lookupThreat db hash pkg = None) /\
  (forall pkg, lookupThreat threats' (Some h) pkg = Some (stamp clock r)) /\
  (forall hash,
      get threats' hash = None ->
      lookupThreat threats' hash (Some p) = Some (stamp clock r)) /\
  (save = None -> snd (addThreat clock save threats r) = inr (stamp clock r)).
Proof.
  intros Hh Nh Hp Np threats'.
  assert (E : threats' =
              <[ p := stamp clock r ]> (<[ h := stamp clock r ]> threats)).
  { subst threats'. unfold addThreat.
    rewrite Hh, Hp, (truthy_nonempty h Nh). simpl.
    rewrite Hh, Hp, !set_if_lookup by assumption.
    destruct save; reflexivity. }
  split; [exact lookupThreat_order |].
  split.
  { intros db hash pkg H1 H2. rewrite lookupThreat_order, H1, H2.
    now destruct (Js.truthy pkg). }
  split; [| split].
  - intros pkg. rewrite lookupThreat_order, E. simpl.
    destruct (decide (p = h)) as [-> | Hne].
    + now rewrite lookup_insert_eq.
    + rewrite lookup_insert_ne by exact Hne. now rewrite lookup_insert_eq.
  - intros hash Hnone. rewrite lookupThreat_order, Hnone.
    rewrite (truthy_nonempty p Np), E. simpl. apply lookup_insert_eq.
  - intros ->. unfold addThreat.
    now rewrite Hh, (truthy_nonempty h Nh).
Qed.

Lemma lookup_after_add_witness :
  let r := Samples.anubis in
  let threats' := fst (addThreat Samples.clock None ∅ r) in
  (tr_hash r = Some "0f0f" /\ tr_packageName r = Some "com.fakebanking.app") /\
  lookupThreat threats' (Some "0f0f") None = Some (stamp Samples.clock r) /\
  lookupThreat threats' (Some "ffff") (Some "com.fakebanking.app")
    = Some (stamp Samples.clock r) /\
  lookupThreat threats' (Some "ffff") (Some "com.example") = None.
Proof.
  intros r threats'.
  destruct (lookup_after_add Samples.clock None ∅ r "0f0f"
              "com.fakebanking.app" eq_refl ltac:(discriminate) eq_refl
              ltac:(discriminate))
    as (_ & N & Hh & Hp & _).
  split; [split; reflexivity |].
  split; [apply Hh |].
  split; [apply Hp; reflexivity | apply N; reflexivity].
Defined.

End ThreatLookup.


(** ** The manifest interpreter *)

Section ManifestTiers.

Import Manifest.

Variable parse_error : string -> option string.

Lemma analyzeManifest_absent :
  analyzeManifest parse_error absent = inl "AndroidManifest.xml not found".
Proof. reflexivity. Qed.

Lemma analyzeManifest_unreadable (msg : string) :
  analyzeManifest parse_error (unreadable msg)
  = inl "Failed to analyze Android manifest file".
Proof. reflexivity. Qed.

(** A manifest that can be read is always interpreted, by the scan of
    the raw text or by the regular expressions. *)
Lemma analyzeManifest_readable (content : string) :
  exists m, analyzeManifest parse_error (readable content) = inr m.
Proof.
  unfold analyzeManifest.
  assert (S : exists e, structured_tier parse_error (readable content) = inl e).
  { simpl. destruct (parse_error content); eauto. }
  destruct S as [e ->].
  destruct (binary_tier (readable content)); [eauto |].
  simpl. eauto.
Qed.

Example binary_scan_keeps_known_permissions :
  extractPermissionsFromBinaryBuffer
    "xxandroid.permission.READ_SMSyy android.permission.INTERNET android.permission.READ_SMS android.permission.FOO android.permission."
  = [ "android.permission.READ_SMS"; "android.permission.INTERNET" ].
Proof. reflexivity. Qed.

Example empty_manifest_is_interpreted :
  analyzeManifest (fun _ => None) (readable "<manifest/>")
  = inr minimal_manifest.
Proof. reflexivity. Qed.

End ManifestTiers.

(** ** The pipeline and the job record *)

Section JobRecord.

Import Pipeline.

(** Symbolic execution of [analyzeAPK]: unfold the monad and the
    writes, read back what was just stored, and split on the outcome a
    stage is waiting for. *)
Ltac run_step :=
  cbv beta iota zeta delta
    [run returned stored writes
     analyzeAPK main_path fallback_path extract_and_analyze
     analyzeFileStructure extractAPK Pipeline.analyzeManifest analyzeCode
     Pipeline.checkThreatDatabase ThreatCheck.checkThreatDatabase
     Pipeline.generateFinalResult
     updateStatistics updateProgress fail_job on_timeout setTimeout
     clearTimeout io_wait
     bind ret try_catch throw lift modify set_results set_timer
     with_progress with_steps with_failure empty_world
     analysisResults statistics timer timedOut log
     j_status j_progress j_steps j_error j_result
     fresh bare job_of app
     threatDatabase file_structure file_structure_again extraction
     manifest_file parse_error code_scan assemble_fault
     assemble_fault_fallback fire_at
     stage_failure thrown step_error thrown_by manifest_outcome
     database_failure option_list
     fst snd default from_option Datatypes.id];
  rewrite ?lookup_insert_eq.

Ltac run := repeat (progress run_step).

Ltac split_stuck :=
  match goal with
  | |- context [match ?x with inl _ => _ | inr _ => _ end] =>
      first [ is_var x; destruct x
            | match x with
              | Manifest.analyzeManifest _ _ => destruct x eqn:?
              end ]
  | |- context [match ?x with Some _ => _ | None => _ end] =>
      is_var x; destruct x
  | |- context [let (_, _) := ?x in _] => is_var x; destruct x
  end.

Ltac run_all := run; repeat (split_stuck; run).

Ltac crack :=
  repeat match goal with
         | |- _ /\ _ => split
         | |- _ <-> _ => split
         | |- _ -> _ => intro
         | H : _ \/ _ |- _ => destruct H
         | H : _ /\ _ |- _ => destruct H
         | H : exists _, _ |- _ => destruct H
         | H : is_Some None |- _ => destruct H as [? H]; discriminate H
         | H : @eq Status _ _ |- _ => discriminate H
         | H : @eq (option _) _ _ |- _ => discriminate H
         | |- is_Some (Some _) => eexists; reflexivity
         | |- exists _, _ => eexists
         | |- well_behaved _ => unfold well_behaved
         end.

Ltac pick := solve [ reflexivity | left; pick | right; pick ].

Ltac solve_leaf :=
  eexists; split; [reflexivity |]; split; [reflexivity |];
  crack; try reflexivity; try pick.

(** Every run in which the timer does not fire: what [analyzeAPK]
    returns is the stored record; the record was written as the
    property of the job record demands; it is completed or failed,
    failed exactly when a step error sent the pipeline to its fallback
    and the fallback could not assemble a verdict. *)
Lemma analyzeAPK_outcome (env : Env) (jobs : gmap string Job)
    (apkPath analysisId : string) :
  fire_at env = None ->
  exists job,
    returned env apkPath analysisId jobs = inr job /\
    stored env apkPath analysisId jobs = Some job /\
    well_behaved (writes env apkPath analysisId jobs) /\
    (j_status job = completed \/ j_status job = failed) /\
    (j_status job = completed ->
       j_error job = None /\ exists v, j_result job = Some v) /\
    (stage_failure env \/ is_Some (assemble_fault env) ->
     assemble_fault_fallback env = None ->
       j_status job = completed /\
       exists v msg,
         j_result job = Some v /\ In msg (thrown env) /\
         d_manifestAnalysis (details v) = Manifest.minimal_manifest /\
         d_permissionAnalysis (details v) = minimal_permissions /\
         d_codeAnalysis (details v) = minimal_code msg /\
         (is_Some (database_failure env) ->
            d_threatAnalysis (details v) = minimal_threat)) /\
    (j_status job = failed <->
       (exists msg, step_error env msg) /\
       is_Some (assemble_fault_fallback env)) /\
    (j_status job = failed ->
       j_result job = None /\
       exists msg, step_error env msg /\ j_error job = Some msg).
Proof.
  destruct env as [db fs fs2 ex mf pe cs af aff fire]. simpl. intros ->.
  run_all.
  all: solve_leaf.
Qed.

Example progress_without_manifest :
  progress_while_live (writes Samples.no_manifest "upload.apk" "job-8" ∅)
  = [0; 5; 20; 40; 60; 95; 100].
Proof. vm_compute. reflexivity. Qed.

(** C2 as stated fails.  The code scan of [slow_scan] outlasts the
    timer: the callback writes progress 0 after 90 while the job is
    still processing and marks it failed; the pipeline, which nothing
    stops, then writes 95 and 100 and stores the verdict over the failed
    record, so that a terminal status is set twice and the timeout
    error is gone. *)
Lemma timeout_breaks_job_record :
  let l := writes Samples.slow_scan "upload.apk" "job-7" ∅ in
  progress_while_live l = [0; 5; 20; 40; 60; 80; 90; 0] /\
  terminal_writes l = 2%nat /\
  existsb touches_outcome (after_terminal l) = true /\
  j_status <$> stored Samples.slow_scan "upload.apk" "job-7" ∅
    = Some completed /\
  stored Samples.slow_scan "upload.apk" "job-7" ∅ ≫= j_error = None /\
  ~ well_behaved l.
Proof.
  cbv zeta. repeat split; try (vm_compute; reflexivity).
  intros (H & _). vm_compute in H. discriminate H.
Qed.

(** What the timer callback does to a record that still has its
    [steps]: progress 0, one more step, then status failed with the
    timeout message. *)
Lemma on_timeout_live (w : World) (analysisId : string) (r : Job)
    (st : list Step) :
  analysisResults w !! analysisId = Some r ->
  j_steps r = Some st ->
  log (on_timeout analysisId w)
    = (log w ++ [WProgress 0; WStep "Timeout";
                 WFailed Pipeline.timeout_message])%list /\
  exists r',
    analysisResults (on_timeout analysisId w) !! analysisId = Some r' /\
    j_status r' = failed /\ j_progress r' = Some 0 /\
    j_error r' = Some Pipeline.timeout_message /\ j_result r' = j_result r.
Proof.
  intros Hr Hst. unfold on_timeout, updateProgress.
  cbn [set_timer analysisResults]. rewrite Hr.
  cbn [with_progress j_steps]. rewrite Hst.
  cbn [snd set_results analysisResults log]. rewrite lookup_insert_eq.
  split.
  - cbn [log set_results set_timer]. rewrite <- app_assoc. reflexivity.
  - eexists.
    split; [cbn [analysisResults set_results]; apply lookup_insert_eq |].
    repeat split; reflexivity.
Qed.

(** C2, as the code has it.  In every run in which the timer does not
    fire before [analyzeAPK] clears it, the progress values written to
    the job record while it is not terminal never decrease, a terminal
    status (completed or failed) is set exactly once, and no write to
    [result] or [error] follows it.  When the timer does fire on a live
    record, its callback writes progress 0 and then the status failed
    with the timeout message. *)
Theorem job_record_without_timeout (env : Env) (jobs : gmap string Job)
    (apkPath analysisId : string) :
  fire_at env = None ->
  well_behaved (writes env apkPath analysisId jobs) /\
  (forall (w : World) (r : Job) (st : list Step),
      analysisResults w !! analysisId = Some r ->
      j_steps r = Some st ->
      log (on_timeout analysisId w)
        = (log w ++ [WProgress 0; WStep "Timeout";
                     WFailed Pipeline.timeout_message])%list).
Proof.
  intros H. split.
  - destruct (analyzeAPK_outcome env jobs apkPath analysisId H)
      as (job & _ & _ & W & _).
    exact W.
  - intros w r st Hr Hst. now apply (on_timeout_live w analysisId r st).
Qed.

Lemma job_record_without_timeout_witness :
  fire_at Samples.no_manifest = None /\
  well_behaved (writes Samples.no_manifest "upload.apk" "job-8" ∅).
Proof.
  split; [reflexivity |].
  apply (job_record_without_timeout Samples.no_manifest ∅ "upload.apk"
           "job-8").
  reflexivity.
Defined.



(** A file that cannot be read and a fallback that cannot assemble its
    verdict: the job is failed, with the message of the first error. *)
Example unreadable_upload_fails :
  (j_status <$> stored Samples.unreadable_upload "upload.apk" "job-9" ∅)
    = Some failed /\
  (stored Samples.unreadable_upload "upload.apk" "job-9" ∅ ≫= j_error)
    = Some "ENOENT: no such file or directory".
Proof. split; vm_compute; reflexivity. Qed.

(** C5 as stated fails: with no manifest in the extracted tree
    [analyzeManifest] throws; it returns no [ManifestInfo]. *)
Lemma absent_manifest_raises :
  Manifest.analyzeManifest (fun _ => None) Manifest.absent
    = inl "AndroidManifest.xml not found" /\
  ~ exists m,
      Manifest.analyzeManifest (fun _ => None) Manifest.absent = inr m.
Proof.
  split; [reflexivity |]. intros [m H]. discriminate H.
Qed.

(** C5, as the code has it.  With no manifest in the extracted tree
    [analyzeManifest] throws 'AndroidManifest.xml not found', and
    [analyzeAPK] (the timer not firing, the fallback able to assemble a
    verdict) completes the job with a manifest assessment whose package
    name, version name and version code are "Unknown" and whose
    permission and component lists are empty.  A manifest that exists
    but cannot be read makes [analyzeManifest] throw as well; one that
    can be read is always interpreted, whatever it contains. *)
Theorem absent_manifest_defaults (env : Env) (jobs : gmap string Job)
    (apkPath analysisId content msg : string) :
  manifest_file env = Manifest.absent ->
  fire_at env = None ->
  assemble_fault_fallback env = None ->
  Manifest.analyzeManifest (parse_error env) (manifest_file env)
    = inl "AndroidManifest.xml not found" /\
  Manifest.analyzeManifest (parse_error env) (Manifest.unreadable msg)
    = inl "Failed to analyze Android manifest file" /\
  (exists m,
      Manifest.analyzeManifest (parse_error env) (Manifest.readable content)
        = inr m) /\
  exists job v,
    returned env apkPath analysisId jobs = inr job /\
    stored env apkPath analysisId jobs = Some job /\
    j_status job = completed /\
    j_result job = Some v /\
    let m := d_manifestAnalysis (details v) in
    packageName m = "Unknown" /\ versionName m = "Unknown" /\
    versionCode m = "Unknown" /\ permissions m = [] /\
    activities m = [] /\ services m = [] /\ receivers m = [] /\
    providers m = [].
Proof.
  intros Ha Hf Hn.
  split; [rewrite Ha; reflexivity |].
  split; [reflexivity |].
  split; [apply analyzeManifest_readable |].
  destruct (analyzeAPK_outcome env jobs apkPath analysisId Hf)
    as (job & R & S & _ & _ & _ & F & _).
  assert (SF : stage_failure env).
  { right. right. left. unfold manifest_outcome. rewrite Ha.
    simpl. eauto. }
  destruct (F (or_introl SF) Hn) as (C & v & e & Hv & _ & Hm & _).
  exists job, v. repeat split; try assumption; rewrite Hm; reflexivity.
Qed.

Lemma absent_manifest_defaults_witness :
  (manifest_file Samples.no_manifest = Manifest.absent /\
   fire_at Samples.no_manifest = None /\
   assemble_fault_fallback Samples.no_manifest = None) /\
  exists job v,
    stored Samples.no_manifest "upload.apk" "job-8" ∅ = Some job /\
    j_status job = completed /\
    j_result job = Some v /\
    packageName (d_manifestAnalysis (details v)) = "Unknown" /\
    permissions (d_manifestAnalysis (details v)) = [].
Proof.
  split; [repeat split |].
  destruct (absent_manifest_defaults Samples.no_manifest ∅ "upload.apk"
              "job-8" "" "EACCES" eq_refl eq_refl eq_refl)
    as (_ & _ & _ & job & v & _ & S & C & V & P & _ & _ & Q & _).
  exists job, v. repeat split; assumption.
Defined.

End JobRecord.

(* ===================================================================== *)
(** * Further properties *)
(* ===================================================================== *)

(** ** Strings *)

Section Strings.

Lemma prefix_split (p s : string) :
  String.prefix p s = true <-> exists b, s = String.append p b.
Proof.
  revert s. induction p as [| c p IH]; intros s; simpl.
  - split; [intros _; exists s; reflexivity | intros _; now destruct s].
  - destruct s as [| d s]; simpl.
    + split; [discriminate | intros [b H]; discriminate H].
    + destruct (Ascii.ascii_dec c d) as [-> | Hne].
      * rewrite IH. split; intros [b H]; exists b.
        -- subst s. reflexivity.
        -- change (String d s = String d (p +:+ b)) in H. congruence.
      * split; [discriminate | intros [b H]].
        change (String d s = String c (p +:+ b)) in H. congruence.
Qed.

(** [s.includes(sub)] holds exactly when [sub] is a substring of [s]. *)
Lemma includes_split (s sub : string) :
  Js.includes s sub = true <->
  exists a b, s = String.append a (String.append sub b).
Proof.
  induction s as [| c s IH]; cbn [Js.includes].
  - rewrite orb_false_r, prefix_split. split.
    + intros [b H]. exists "", b. exact H.
    + intros (a & b & H). destruct a as [| x a]; [| discriminate H].
      exists b. exact H.
  - rewrite orb_true_iff, prefix_split, IH. split.
    + intros [[b H] | (a & b & H)].
      * exists "", b. exact H.
      * exists (String c a), b. rewrite H. reflexivity.
    + intros (a & b & H). destruct a as [| x a].
      * left. exists b. exact H.
      * right. change (String c s = String x (a +:+ (sub +:+ b))) in H.
        injection H as -> H. exists a, b. exact H.
Qed.

Lemma append_assoc (a b c : string) :
  String.append (String.append a b) c = String.append a (String.append b c).
Proof.
  induction a as [| x a IH]; [reflexivity |].
  change (String x ((a +:+ b) +:+ c) = String x (a +:+ (b +:+ c))).
  now rewrite IH.
Qed.

Lemma includes_trans (s a b : string) :
  Js.includes s a = true -> Js.includes a b = true -> Js.includes s b = true.
Proof.
  rewrite !includes_split. intros (x & y & ->) (u & v & ->).
  exists (String.append x u), (String.append v y).
  now rewrite !append_assoc.
Qed.

Lemma includes_refl (s : string) : Js.includes s s = true.
Proof.
  apply includes_split. exists "", "".
  change (s = s +:+ "").
  induction s as [| c s IH]; [reflexivity |].
  change (String c s = String c (s +:+ "")). now rewrite <- IH.
Qed.

Lemma map_string_append (f : ascii -> ascii) (a b : string) :
  Js.map_string f (String.append a b)
  = String.append (Js.map_string f a) (Js.map_string f b).
Proof.
  induction a as [| x a IH]; [reflexivity |].
  change (String (f x) (Js.map_string f (a +:+ b))
          = String (f x) (Js.map_string f a +:+ Js.map_string f b)).
  now rewrite IH.
Qed.

(** A substring stays one when both strings change case the same way. *)
Lemma includes_map (f : ascii -> ascii) (s sub : string) :
  Js.includes s sub = true ->
  Js.includes (Js.map_string f s) (Js.map_string f sub) = true.
Proof.
  rewrite !includes_split. intros (a & b & ->).
  exists (Js.map_string f a), (Js.map_string f b).
  now rewrite !map_string_append.
Qed.



Lemma upper_char_not_lower (c : ascii) : Js.is_lower (Js.upper_char c) = false.
Proof. destruct c as [[] [] [] [] [] [] [] []]; reflexivity. Qed.



Lemma has_lower_append (a b : string) :
  Scanner.has_lower (String.append a b)
  = Scanner.has_lower a || Scanner.has_lower b.
Proof.
  induction a as [| x a IH]; [reflexivity |].
  change (Js.is_lower x || Scanner.has_lower (a +:+ b)
          = Js.is_lower x || Scanner.has_lower a || Scanner.has_lower b).
  now rewrite IH, orb_assoc.
Qed.

Lemma toUpperCase_no_lower (s : string) :
  Scanner.has_lower (Js.toUpperCase s) = false.
Proof.
  unfold Js.toUpperCase.
  induction s as [| c s IH]; cbn [Js.map_string Scanner.has_lower];
    [reflexivity |].
  now rewrite upper_char_not_lower, IH.
Qed.

(** An upper-cased text contains no key that has a lower-case letter. *)
Lemma upper_excludes_lower (s k : string) :
  Scanner.has_lower k = true -> Js.includes (Js.toUpperCase s) k = false.
Proof.
  intros Hk. apply not_true_is_false. intros H.
  apply includes_split in H as (a & b & E).
  pose proof (toUpperCase_no_lower s) as N. rewrite E in N.
  rewrite !has_lower_append, Hk in N. now rewrite orb_true_r in N.
Qed.

End Strings.

(** ** More on the permission scorer *)

Section PermissionScoreMore.

Import Permissions.

Lemma calculatePermissionRisk_formula (perms ms : list string) :
  calculatePermissionRisk perms ms =
  clamp_0_100
    (10 + sum_increments ms
        - (if exactly_one_low ms then 5 else 0)
        + (if 5 <=? Z.of_nat (length ms) then 15 else 0)).
Proof.
  unfold calculatePermissionRisk, clamp_0_100.
  rewrite fold_add_permission, single_low_risk_exactly_one_low.
  destruct (exactly_one_low ms) eqn:E.
  - destruct (exactly_one_low_sum ms E) as [-> ->]. reflexivity.
  - destruct (5 <=? Z.of_nat (length ms)); lia.
Qed.

Lemma filter_Permutation {A} (f : A -> bool) (l l' : list A) :
  Permutation l l' -> Permutation (List.filter f l) (List.filter f l').
Proof.
  induction 1 as [| x l l' _ IH | x y l | l l' l'' _ IH1 _ IH2]; simpl.
  - constructor.
  - destruct (f x); [now constructor | exact IH].
  - destruct (f x), (f y); try reflexivity. constructor.
  - now transitivity (List.filter f l').
Qed.

Lemma sum_increments_Permutation (l l' : list string) :
  Permutation l l' -> sum_increments l = sum_increments l'.
Proof.
  induction 1 as [| x l l' _ IH | x y l | l l' l'' _ IH1 _ IH2]; simpl; lia.
Qed.

Lemma exactly_one_low_Permutation (l l' : list string) :
  Permutation l l' -> exactly_one_low l = exactly_one_low l'.
Proof.
  intros P. pose proof (Permutation_length P) as L.
  destruct l as [| x [| y l]], l' as [| x' [| y' l']]; try discriminate L;
    try reflexivity.
  apply Permutation_length_1 in P. now subst.
Qed.

Lemma sum_increments_nonneg (ms : list string) : 0 <= sum_increments ms.
Proof.
  induction ms as [| m ms IH]; simpl; [lia |].
  destruct (tier_of m); simpl; lia.
Qed.

Lemma sum_increments_cons (m : string) (ms : list string) :
  sum_increments ms + 8 <= sum_increments (m :: ms).
Proof. simpl. destruct (tier_of m); simpl; lia. Qed.

(** X1.  The permission assessment does not depend on the order in
    which the manifest lists the permissions: two lists that are
    permutations of each other get the same score and the same counts. *)
Theorem permission_score_order_irrelevant (perms perms' : list string) :
  Permutation perms perms' ->
  pa_riskScore (analyzePermissions perms)
    = pa_riskScore (analyzePermissions perms') /\
  pa_total (analyzePermissions perms) = pa_total (analyzePermissions perms') /\
  Permutation (pa_suspicious (analyzePermissions perms))
              (pa_suspicious (analyzePermissions perms')) /\
  Permutation (pa_banking (analyzePermissions perms))
              (pa_banking (analyzePermissions perms')).
Proof.
  intros P. unfold analyzePermissions.
  cbn [pa_riskScore pa_total pa_suspicious pa_banking].
  pose proof (filter_Permutation (Js.arr_includes suspiciousPermissions)
                _ _ P) as PS.
  pose proof (filter_Permutation (Js.arr_includes bankingPermissions)
                _ _ P) as PB.
  repeat split; try assumption.
  - rewrite !calculatePermissionRisk_formula.
    now rewrite (sum_increments_Permutation _ _ PS),
      (exactly_one_low_Permutation _ _ PS), (Permutation_length PS).
  - now rewrite (Permutation_length P).
Qed.

Lemma permission_score_order_irrelevant_witness :
  Permutation [ "android.permission.CAMERA"; "android.permission.READ_SMS" ]
              [ "android.permission.READ_SMS"; "android.permission.CAMERA" ] /\
  pa_riskScore (analyzePermissions
    [ "android.permission.CAMERA"; "android.permission.READ_SMS" ])
  = pa_riskScore (analyzePermissions
    [ "android.permission.READ_SMS"; "android.permission.CAMERA" ]).
Proof.
  split; [apply perm_swap |].
  apply (permission_score_order_irrelevant
           [ "android.permission.CAMERA"; "android.permission.READ_SMS" ]
           [ "android.permission.READ_SMS"; "android.permission.CAMERA" ]).
  apply perm_swap.
Defined.

(** X2.  The permission score is never below the base of 10 nor above
    100; it is exactly 10 when no requested permission is in the
    suspicious table, and at least 13 otherwise. *)
Theorem permission_score_bounds (perms : list string) :
  10 <= pa_riskScore (analyzePermissions perms) <= 100 /\
  (pa_suspicious (analyzePermissions perms) = [] ->
     pa_riskScore (analyzePermissions perms) = 10) /\
  (pa_suspicious (analyzePermissions perms) <> [] ->
     13 <= pa_riskScore (analyzePermissions perms)).
Proof.
  unfold analyzePermissions. cbn [pa_riskScore pa_suspicious].
  set (ms := List.filter _ perms).
  rewrite calculatePermissionRisk_formula. unfold clamp_0_100.
  pose proof (sum_increments_nonneg ms) as N.
  destruct (exactly_one_low ms) eqn:E.
  - destruct (exactly_one_low_sum ms E) as [S L]. rewrite S, L.
    repeat split; simpl; try lia. intros ->. discriminate L.
  - repeat split.
    + destruct (5 <=? Z.of_nat (length ms)); lia.
    + destruct (5 <=? Z.of_nat (length ms)); lia.
    + intros ->. reflexivity.
    + intros Hne. destruct ms as [| m ms']; [contradiction |].
      pose proof (sum_increments_cons m ms') as C.
      pose proof (sum_increments_nonneg ms') as N'.
      destruct (5 <=? Z.of_nat (length (m :: ms'))); lia.
Qed.

(** X3.  Requesting one more permission never lowers the permission
    score. *)
Theorem permission_score_monotone (p : string) (perms : list string) :
  pa_riskScore (analyzePermissions perms)
  <= pa_riskScore (analyzePermissions (p :: perms)).
Proof.
  unfold analyzePermissions. cbn [pa_riskScore List.filter].
  set (ms := List.filter _ perms).
  rewrite !calculatePermissionRisk_formula. unfold clamp_0_100.
  destruct (Js.arr_includes suspiciousPermissions p); [| lia].
  pose proof (sum_increments_cons p ms) as C.
  pose proof (sum_increments_nonneg ms) as N.
  assert (L : Z.of_nat (length (p :: ms)) = Z.of_nat (length ms) + 1)
    by (simpl; lia).
  rewrite L.
  destruct (exactly_one_low ms), (exactly_one_low (p :: ms)),
    (Z.leb_spec 5 (Z.of_nat (length ms))),
    (Z.leb_spec 5 (Z.of_nat (length ms) + 1)); lia.
Qed.

(** No permission is in both tables of [analyzePermissions]. *)
Lemma suspicious_not_banking (p : string) :
  Js.arr_includes suspiciousPermissions p = true ->
  Js.arr_includes bankingPermissions p = false.
Proof.
  intros H. apply arr_includes_In in H. simpl in H.
  repeat (destruct H as [<- | H]; [reflexivity |]).
  contradiction.
Qed.

Lemma filter_disjoint_length {A} (f g : A -> bool) (l : list A) :
  (forall x, f x = true -> g x = false) ->
  (length (List.filter f l) + length (List.filter g l) <= length l)%nat.
Proof.
  intros D. induction l as [| x l IH]; simpl; [lia |].
  destruct (f x) eqn:F.
  - rewrite (D x F). simpl. lia.
  - destruct (g x); simpl; lia.
Qed.

(** X4.  No permission is reported both as suspicious and as banking
    relevant, and the two reports together never count more permissions
    than the manifest requests. *)
Theorem suspicious_and_banking_disjoint (perms : list string) :
  let a := analyzePermissions perms in
  (forall p, In p (pa_suspicious a) -> ~ In p (pa_banking a)) /\
  Z.of_nat (length (pa_suspicious a)) + Z.of_nat (length (pa_banking a))
    <= pa_total a.
Proof.
  cbv zeta. unfold analyzePermissions.
  cbn [pa_suspicious pa_banking pa_total]. split.
  - intros p Hs Hb. apply filter_In in Hs as [_ Hs], Hb as [_ Hb].
    rewrite (suspicious_not_banking p Hs) in Hb. discriminate Hb.
  - pose proof (filter_disjoint_length
                  (Js.arr_includes suspiciousPermissions)
                  (Js.arr_includes bankingPermissions) perms
                  suspicious_not_banking). lia.
Qed.

End PermissionScoreMore.

(** ** More on the code-pattern scorer *)

Section CodeScoreMore.

Import Code.

(** The score as a function of the sizes of the three classes *)
Lemma calculateCodeRisk_counts (ps : list FoundPattern) :
  let h := count high_class ps in
  let m := count medium_class ps in
  let l := count low_class ps in
  calculateCodeRisk ps =
  Z.min
    (let r := (if 0 <? h then Z.min (25 + h * 8) 60 else 0)
              + (if 2 <=? m then Z.min (20 + m * 5) 40 else 0)
              + (if 3 <=? l then Z.min (15 + l * 3) 30 else 0) in
     let r := if (len ps =? 1) && (l =? 1) then Z.max (r - 5) 0 else r in
     if (h =? 0) && (m =? 0) then Z.max (r - 10) 0 else r)
    100.
Proof.
  cbv zeta. unfold calculateCodeRisk.
  destruct (categorize_counts ps
              {| highRiskPatterns := []; mediumRiskPatterns := [];
                 lowRiskPatterns := [] |}) as (Hh & Hm & Hl).
  simpl in Hh, Hm, Hl. rewrite Hh, Hm, Hl.
  change (len (@nil FoundPattern)) with 0. rewrite !Z.add_0_l.
  destruct (0 <? count high_class ps), (2 <=? count medium_class ps),
    (3 <=? count low_class ps),
    ((len ps =? 1) && (count low_class ps =? 1)),
    ((count high_class ps =? 0) && (count medium_class ps =? 0)); lia.
Qed.

(** Every match falls in exactly one class. *)
Lemma count_total (ps : list FoundPattern) :
  len ps = count high_class ps + count medium_class ps + count low_class ps.
Proof.
  induction ps as [| p ps IH]; [reflexivity |].
  rewrite !count_cons. unfold len in *. simpl length.
  unfold is_class. destruct (class_of p); lia.
Qed.

Lemma count_Permutation (c : Class) (ps ps' : list FoundPattern) :
  Permutation ps ps' -> count c ps = count c ps'.
Proof.
  intros P. unfold count, len.
  now rewrite (Permutation_length (filter_Permutation (is_class c) _ _ P)).
Qed.

(** X5.  The code score does not depend on the order in which the
    scanner reports its matches. *)
Theorem code_score_order_irrelevant (ps ps' : list FoundPattern) :
  Permutation ps ps' -> calculateCodeRisk ps = calculateCodeRisk ps'.
Proof.
  intros P. rewrite !calculateCodeRisk_counts. cbv zeta.
  rewrite !(count_Permutation _ _ _ P). unfold len.
  now rewrite (Permutation_length P).
Qed.

Lemma code_score_order_irrelevant_witness :
  Permutation [ Samples.found "SmsManager"; Samples.found "keylogger" ]
              [ Samples.found "keylogger"; Samples.found "SmsManager" ] /\
  calculateCodeRisk [ Samples.found "SmsManager"; Samples.found "keylogger" ]
  = calculateCodeRisk [ Samples.found "keylogger"; Samples.found "SmsManager" ].
Proof.
  split; [apply perm_swap |].
  apply (code_score_order_irrelevant
           [ Samples.found "SmsManager"; Samples.found "keylogger" ]
           [ Samples.found "keylogger"; Samples.found "SmsManager" ]).
  apply perm_swap.
Defined.

(** X6.  The code score lies in 0..100 although the source only caps
    it from above; it is 0 for no match, for a single low-risk match and
    for a single medium-risk match; it is at most 20 when no high- and
    no medium-risk pattern matched, and at least 33 as soon as one
    high-risk pattern matched. *)
Theorem code_score_bounds (ps : list FoundPattern) :
  0 <= calculateCodeRisk ps <= 100 /\
  (len ps <= 1 -> count high_class ps = 0 -> calculateCodeRisk ps = 0) /\
  (count high_class ps = 0 -> count medium_class ps = 0 ->
     calculateCodeRisk ps <= 20) /\
  (1 <= count high_class ps -> 33 <= calculateCodeRisk ps).
Proof.
  rewrite calculateCodeRisk_counts. cbv zeta.
  pose proof (count_total ps) as T.
  pose proof (count_nonneg high_class ps) as Ph.
  pose proof (count_nonneg medium_class ps) as Pm.
  pose proof (count_nonneg low_class ps) as Pl.
  set (h := count high_class ps) in *.
  set (m := count medium_class ps) in *.
  set (l := count low_class ps) in *.
  destruct (Z.ltb_spec 0 h), (Z.leb_spec 2 m), (Z.leb_spec 3 l),
    (Z.eqb_spec (len ps) 1), (Z.eqb_spec l 1),
    (Z.eqb_spec h 0), (Z.eqb_spec m 0); cbn [andb]; lia.
Qed.

End CodeScoreMore.

(** ** The confidence tier of a match *)

Section PatternConfidence.

Import Scanner.

Lemma estimatePatternConfidence_high (pattern : string) :
  estimatePatternConfidence pattern = conf_high <->
  Js.includes (Js.toUpperCase pattern) "SYSTEM_ALERT_WINDOW" = true \/
  Js.includes (Js.toUpperCase pattern) "TYPE_APPLICATION_OVERLAY" = true.
Proof.
  unfold estimatePatternConfidence, highRisk. cbn [existsb].
  rewrite (upper_excludes_lower pattern "AccessibilityService") by reflexivity.
  rewrite (upper_excludes_lower pattern "sms_intercept") by reflexivity.
  rewrite (upper_excludes_lower pattern "keylogger") by reflexivity.
  rewrite !orb_false_r.
  destruct (Js.includes _ "SYSTEM_ALERT_WINDOW"),
    (Js.includes _ "TYPE_APPLICATION_OVERLAY"); cbn [orb].
  1-3: split; [auto | reflexivity].
  split; [| intros [H | H]; discriminate H].
  destruct (existsb _ mediumRisk); discriminate.
Qed.

Lemma confidence_medium (pattern : string) :
  estimatePatternConfidence pattern = conf_medium ->
  Js.includes (Js.toUpperCase pattern) "SMS" = true \/
  Js.includes (Js.toUpperCase pattern) "RECORD_AUDIO" = true.
Proof.
  unfold estimatePatternConfidence.
  destruct (existsb _ highRisk); [discriminate |].
  destruct (existsb _ mediumRisk) eqn:M; [| discriminate]. intros _.
  cbn [existsb mediumRisk] in M. rewrite orb_false_r in M.
  repeat (apply orb_true_iff in M as [M | M]).
  - now right.
  - left. eapply includes_trans; [exact M | reflexivity].
  - left. eapply includes_trans; [exact M | reflexivity].
  - left. eapply includes_trans; [exact M | reflexivity].
Qed.


(** X8.  The confidence tier the scanner attaches to a match never
    exceeds the class the scorer puts the match in: a match reported
    with high confidence is scored as high-risk, one reported with
    medium confidence as high- or medium-risk. *)
Theorem confidence_below_class (pattern file : string) :
  pattern <> "" ->
  let m := {| fp_pattern := pattern; fp_file := file;
              fp_confidence := estimatePatternConfidence pattern |} in
  (fp_confidence m = conf_high -> Code.class_of m = Code.high_class) /\
  (fp_confidence m = conf_medium -> Code.class_of m <> Code.low_class).
Proof.
  intros Hne. cbv zeta. cbn [fp_confidence].
  unfold Code.class_of, Code.pat_of. cbn [fp_pattern].
  replace (Js.or_else pattern "[object Object]") with pattern
    by (destruct pattern; [contradiction | reflexivity]).
  split.
  - intros H. apply estimatePatternConfidence_high in H.
    unfold Code.is_high. destruct H as [-> | ->]; cbn [orb];
      rewrite ?orb_true_r; reflexivity.
  - intros H. apply confidence_medium in H.
    destruct (Code.is_high _); [discriminate |].
    unfold Code.is_medium. destruct H as [-> | ->]; cbn [orb];
      rewrite ?orb_true_r; discriminate.
Qed.

Lemma confidence_below_class_witness :
  "android.telephony.SmsManager" <> "" /\
  estimatePatternConfidence "android.telephony.SmsManager" = conf_low /\
  estimatePatternConfidence "READ_SMS" = conf_medium /\
  Code.class_of (Samples.found "READ_SMS") <> Code.low_class.
Proof.
  split; [discriminate |]. split; [reflexivity |]. split; [reflexivity |].
  apply (confidence_below_class "READ_SMS" "classes.dex"); [discriminate |].
  reflexivity.
Defined.

(** The service the high list names in mixed case is scored as
    high-risk and reported with low confidence. *)
Example accessibility_service_low_confidence :
  estimatePatternConfidence "AccessibilityService" = conf_low /\
  Code.class_of (Samples.found "AccessibilityService") = Code.high_class.
Proof. split; reflexivity. Qed.

End PatternConfidence.

(** ** More on the verdict *)

Section VerdictMore.

Import Aggregator.

Variables (analysisId : string) (fileAnalysis : FileAnalysis)
          (manifestAnalysis : ManifestInfo)
          (permissionAnalysis : PermissionAnalysis)
          (codeAnalysis : CodeAnalysis)
          (threatAnalysis : ThreatAnalysis).

(** *** Upper bounds through the passes *)

Lemma raise_to_le (f : Factor) (b bound : Z) (a : Acc) :
  fst a <= bound -> b <= bound -> fst (raise_to f b a) <= bound.
Proof. unfold raise_to. simpl. lia. Qed.

Ltac split_if :=
  repeat match goal with
         | |- context [if ?b then _ else _] => destruct b
         end.

Lemma malicious_name_pass_le (fn pn : string) (bound : Z) (a : Acc) :
  fst a <= bound -> 80 <= bound -> fst (malicious_name_pass fn pn a) <= bound.
Proof.
  intros. unfold malicious_name_pass. split_if; unfold raise_to; cbn [fst]; lia.
Qed.

Lemma modded_name_pass_le (fn pn : string) (bound : Z) (a : Acc) :
  fst a <= bound -> 80 <= bound -> fst (modded_name_pass fn pn a) <= bound.
Proof.
  intros. unfold modded_name_pass. split_if; unfold raise_to; cbn [fst]; lia.
Qed.

Lemma permission_pass_le (pa : PermissionAnalysis) (bound : Z) (a : Acc) :
  fst a <= bound -> 80 <= bound -> fst (permission_pass pa a) <= bound.
Proof.
  intros. unfold permission_pass. split_if; unfold raise_to; cbn [fst]; lia.
Qed.

Lemma code_pass_le (ca : CodeAnalysis) (bound : Z) (a : Acc) :
  fst a <= bound -> 80 <= bound -> fst (code_pass ca a) <= bound.
Proof.
  intros. unfold code_pass. split_if; unfold raise_to; cbn [fst]; lia.
Qed.

Lemma banking_pass_le (fn pn : string) (a : Acc) :
  0 <= fst a -> fst (banking_pass fn pn a) <= fst a.
Proof.
  intros. unfold banking_pass. split_if; unfold reduce_by; cbn [fst]; lia.
Qed.

Lemma signature_pass_le (m : ManifestInfo) (a : Acc) :
  0 <= fst a -> fst (signature_pass m a) <= fst a.
Proof.
  intros. unfold signature_pass. split_if; unfold reduce_by; cbn [fst]; lia.
Qed.

Lemma no_signals_pass_le (pa : PermissionAnalysis) (ca : CodeAnalysis)
    (t : ThreatAnalysis) (a : Acc) :
  fst (no_signals_pass pa ca t a) <= fst a.
Proof. unfold no_signals_pass. split_if; unfold cap_to; cbn [fst]; lia. Qed.

Lemma low_signals_guard_le (pa : PermissionAnalysis) (ca : CodeAnalysis)
    (t : ThreatAnalysis) (a : Acc) :
  fst (low_signals_guard pa ca t a) <= fst a.
Proof. unfold low_signals_guard. split_if; unfold cap_to; cbn [fst]; lia. Qed.

Lemma before_banking_le :
  fst (before_banking fileAnalysis manifestAnalysis permissionAnalysis
         codeAnalysis threatAnalysis)
  <= Z.max (calculateTotalRisk (pa_riskScore permissionAnalysis)
              (ca_riskScore codeAnalysis) (Some threatAnalysis)) 80.
Proof.
  unfold before_banking.
  apply code_pass_le; [| lia].
  apply permission_pass_le; [| lia].
  apply modded_name_pass_le; [| lia].
  apply malicious_name_pass_le; [| lia].
  simpl. lia.
Qed.

Lemma banking_pass_nonneg (fn pn : string) (a : Acc) :
  0 <= fst a -> 0 <= fst (banking_pass fn pn a).
Proof.
  intros. unfold banking_pass. split_if; unfold reduce_by; cbn [fst]; lia.
Qed.

(** X9.  No floor set by a name or by matched permissions and patterns
    exceeds 80: the final score is at most the larger of the base score
    and 80, so that a verdict is malicious (85 or more) only when the
    weighted sub-scores or a known threat already put the base score
    there. *)
Theorem names_never_make_malicious :
  let verdict :=
    generateFinalResult analysisId fileAnalysis manifestAnalysis
      permissionAnalysis codeAnalysis threatAnalysis in
  riskScore (summary verdict)
    <= Z.max (baseScore (riskBreakdown (summary verdict))) 80 /\
  (riskLevel (summary verdict) = malicious ->
     85 <= baseScore (riskBreakdown (summary verdict))).
Proof.
  cbv zeta.
  set (verdict := generateFinalResult analysisId fileAnalysis
                    manifestAnalysis permissionAnalysis codeAnalysis
                    threatAnalysis).
  assert (B : riskScore (summary verdict)
              <= Z.max (baseScore (riskBreakdown (summary verdict))) 80).
  { pose proof before_banking_le as L.
    pose proof (before_banking_ge fileAnalysis manifestAnalysis
                  permissionAnalysis codeAnalysis threatAnalysis) as G.
    pose proof (calculateTotalRisk_range (pa_riskScore permissionAnalysis)
                  (ca_riskScore codeAnalysis) (Some threatAnalysis)) as R.
    unfold verdict, generateFinalResult.
    cbn [summary riskScore riskBreakdown baseScore].
    set (a := before_banking _ _ _ _ _) in *.
    pose proof (banking_pass_le (filename_of fileAnalysis)
                  (packageName_of manifestAnalysis) a ltac:(lia)) as L1.
    pose proof (banking_pass_nonneg (filename_of fileAnalysis)
                  (packageName_of manifestAnalysis) a ltac:(lia)) as N1.
    set (a1 := banking_pass _ _ a) in *.
    pose proof (signature_pass_le manifestAnalysis a1 N1) as L2.
    set (a2 := signature_pass _ a1) in *.
    pose proof (no_signals_pass_le permissionAnalysis codeAnalysis
                  threatAnalysis a2) as L3.
    set (a3 := no_signals_pass _ _ _ a2) in *.
    pose proof (low_signals_guard_le permissionAnalysis codeAnalysis
                  threatAnalysis a3) as L4.
    lia. }
  split; [exact B |].
  revert B. unfold verdict, generateFinalResult.
  cbn [summary riskScore riskLevel riskBreakdown baseScore].
  set (s := Z.max 0 _). unfold determineRiskLevel.
  destruct (Z.ltb_spec s 30); [discriminate |].
  destruct (Z.ltb_spec s 50); [discriminate |].
  destruct (Z.ltb_spec s 70); [discriminate |].
  destruct (Z.ltb_spec s 85); [discriminate |]. lia.
Qed.

(** X10.  A package with no suspicious permission, no matched code
    pattern and no known-threat match gets a score of at most 20, the
    level safe, and exactly the two recommendations for safe packages,
    whatever its name and its sub-scores are. *)
Theorem no_signals_is_safe :
  pa_suspicious permissionAnalysis = [] ->
  ca_suspiciousPatterns codeAnalysis = [] ->
  isKnownThreat threatAnalysis = false ->
  let verdict :=
    generateFinalResult analysisId fileAnalysis manifestAnalysis
      permissionAnalysis codeAnalysis threatAnalysis in
  0 <= riskScore (summary verdict) <= 20 /\
  riskLevel (summary verdict) = safe /\
  isSafe (summary verdict) = true /\
  recommendations verdict =
    [ "This APK appears to be safe for installation";
      "Always download from official sources when possible" ].
Proof.
  intros Hp Hc Hk. cbv zeta.
  set (verdict := generateFinalResult analysisId fileAnalysis
                    manifestAnalysis permissionAnalysis codeAnalysis
                    threatAnalysis).
  assert (S : 0 <= riskScore (summary verdict) <= 20).
  { unfold verdict, generateFinalResult. cbn [summary riskScore].
    set (a2 := signature_pass _ _).
    pose proof (low_signals_guard_le permissionAnalysis codeAnalysis
                  threatAnalysis
                  (no_signals_pass permissionAnalysis codeAnalysis
                     threatAnalysis a2)) as L.
    assert (C : fst (no_signals_pass permissionAnalysis codeAnalysis
                       threatAnalysis a2) <= 20).
    { unfold no_signals_pass. rewrite Hp, Hc, Hk. simpl. lia. }
    lia. }
  assert (L : riskLevel (summary verdict) = safe).
  { revert S. unfold verdict, generateFinalResult.
    cbn [summary riskScore riskLevel].
    set (s := Z.max 0 _). unfold determineRiskLevel. intros S.
    destruct (Z.ltb_spec s 30); [reflexivity | lia]. }
  split; [exact S |]. split; [exact L |].
  revert L. unfold verdict, generateFinalResult.
  cbn [summary riskLevel isSafe recommendations].
  intros ->. unfold generateRecommendations. rewrite Hp.
  split; reflexivity.
Qed.

(** X11.  A known threat always gives the level malicious, confidence
    95, a verdict that is not safe, and the advice not to install. *)
Theorem known_threat_is_malicious :
  isKnownThreat threatAnalysis = true ->
  let verdict :=
    generateFinalResult analysisId fileAnalysis manifestAnalysis
      permissionAnalysis codeAnalysis threatAnalysis in
  riskLevel (summary verdict) = malicious /\
  confidence (summary verdict) = 95 /\
  isSafe (summary verdict) = false /\
  head (recommendations verdict)
    = Some "DO NOT INSTALL this APK - high risk of malware".
Proof.
  intros K. cbv zeta.
  pose proof (known_threat_verdict analysisId fileAnalysis manifestAnalysis
                permissionAnalysis codeAnalysis threatAnalysis K) as S.
  set (verdict := generateFinalResult analysisId fileAnalysis
                    manifestAnalysis permissionAnalysis codeAnalysis
                    threatAnalysis) in *.
  assert (L : riskLevel (summary verdict) = malicious).
  { revert S. unfold verdict, generateFinalResult.
    cbn [summary riskScore riskLevel].
    set (s := Z.max 0 _). unfold determineRiskLevel. intros S.
    destruct (Z.ltb_spec s 30); [lia |].
    destruct (Z.ltb_spec s 50); [lia |].
    destruct (Z.ltb_spec s 70); [lia |].
    destruct (Z.ltb_spec s 85); [lia | reflexivity]. }
  split; [exact L |].
  revert L. unfold verdict, generateFinalResult.
  cbn [summary riskLevel confidence isSafe recommendations].
  intros ->. unfold calculateConfidence, generateRecommendations.
  rewrite K. cbn [RiskLevel_eqb].
  repeat split. destruct (0 <? _); reflexivity.
Qed.

(** X12.  A file or package name that contains hack, trojan, malware,
    virus or spyware, without a known-threat match, leads to one of two
    outcomes only: a score of at most 20 when one of the two low-signal
    caps applies (no suspicious permission and no pattern, or both
    sub-scores below 25), and a score between 80 and 100 otherwise. *)
Theorem malware_name_all_or_nothing :
  Js.test_any malware_words (filename_of fileAnalysis)
  || Js.test_any malware_words (packageName_of manifestAnalysis) = true ->
  isKnownThreat threatAnalysis = false ->
  let capped :=
    ((Code.len (pa_suspicious permissionAnalysis) =? 0)
     && (Code.len (ca_suspiciousPatterns codeAnalysis) =? 0))
    || ((pa_riskScore permissionAnalysis <? 25)
        && (ca_riskScore codeAnalysis <? 25)) in
  let verdict :=
    generateFinalResult analysisId fileAnalysis manifestAnalysis
      permissionAnalysis codeAnalysis threatAnalysis in
  if capped
  then 0 <= riskScore (summary verdict) <= 20
  else 80 <= riskScore (summary verdict) <= 100.
Proof.
  intros N K. cbv zeta.
  assert (F : 80 <= fst (before_banking fileAnalysis manifestAnalysis
                           permissionAnalysis codeAnalysis threatAnalysis)).
  { unfold before_banking.
    etransitivity; [| apply code_pass_ge].
    etransitivity; [| apply permission_pass_ge].
    etransitivity; [| apply modded_name_pass_ge].
    unfold malicious_name_pass. rewrite N. unfold raise_to. simpl. lia. }
  unfold generateFinalResult. cbn [summary riskScore].
  set (a := before_banking _ _ _ _ _) in *.
  rewrite banking_pass_high by lia.
  rewrite signature_pass_high by lia.
  unfold no_signals_pass, low_signals_guard, cap_to. rewrite K.
  cbn [negb]. rewrite !andb_true_r.
  assert (P0 : 0 <= Code.len (pa_suspicious permissionAnalysis))
    by apply len_nonneg.
  assert (C0 : 0 <= Code.len (ca_suspiciousPatterns codeAnalysis))
    by apply len_nonneg.
  destruct (Z.ltb_spec 0 (Code.len (pa_suspicious permissionAnalysis))),
    (Z.ltb_spec 0 (Code.len (ca_suspiciousPatterns codeAnalysis))),
    (Z.eqb_spec (Code.len (pa_suspicious permissionAnalysis)) 0),
    (Z.eqb_spec (Code.len (ca_suspiciousPatterns codeAnalysis)) 0),
    (Z.ltb_spec (pa_riskScore permissionAnalysis) 25),
    (Z.ltb_spec (ca_riskScore codeAnalysis) 25);
    cbn [negb andb orb fst snd]; lia.
Qed.

(** X13.  The advice follows the level in three groups only: the levels
    low_risk and high_risk get the same advice as malicious, which starts
    with DO NOT INSTALL; so does every verdict whose score is in 30..49
    or at least 70. *)
Theorem advice_by_score :
  let verdict :=
    generateFinalResult analysisId fileAnalysis manifestAnalysis
      permissionAnalysis codeAnalysis threatAnalysis in
  let s := riskScore (summary verdict) in
  let first := head (recommendations verdict) in
  (s < 30 ->
     first = Some "This APK appears to be safe for installation") /\
  (50 <= s < 70 ->
     first = Some
       "Exercise caution - this APK has some suspicious characteristics") /\
  (30 <= s < 50 \/ 70 <= s ->
     first = Some "DO NOT INSTALL this APK - high risk of malware").
Proof.
  cbv zeta. unfold generateFinalResult.
  cbn [summary riskScore recommendations].
  set (s := Z.max 0 _). unfold generateRecommendations, determineRiskLevel.
  destruct (Z.ltb_spec s 30), (Z.ltb_spec s 50), (Z.ltb_spec s 70),
    (Z.ltb_spec s 85); cbn [RiskLevel_eqb];
    destruct (0 <? _); cbn [head app]; repeat split; intros; try lia;
    reflexivity.
Qed.

End VerdictMore.

Lemma no_signals_is_safe_witness :
  0 <= riskScore
         (summary
            (Aggregator.generateFinalResult "job-5" Samples.bank_file
               Samples.trojan_manifest Pipeline.minimal_permissions
               Samples.no_code Samples.no_threat)) <= 20.
Proof.
  apply (no_signals_is_safe "job-5" Samples.bank_file Samples.trojan_manifest
           Pipeline.minimal_permissions Samples.no_code Samples.no_threat);
    reflexivity.
Defined.

Lemma known_threat_is_malicious_witness :
  riskLevel (summary (Aggregator.generateFinalResult "job-6"
     Samples.bank_file Samples.bank_manifest Samples.sms_permissions
     Samples.no_code
     {| isKnownThreat := true; threatType := Some "banking_trojan";
        ta_confidence := Some 95; ta_description := None |})) = malicious.
Proof.
  apply (known_threat_is_malicious "job-6" Samples.bank_file
           Samples.bank_manifest Samples.sms_permissions Samples.no_code
           {| isKnownThreat := true; threatType := Some "banking_trojan";
              ta_confidence := Some 95; ta_description := None |}).
  reflexivity.
Defined.

Lemma malware_name_all_or_nothing_witness :
  80 <= riskScore
          (summary
             (Aggregator.generateFinalResult "job-7" Samples.bank_file
                Samples.trojan_manifest Samples.overlay_permissions
                Samples.no_code Samples.no_threat)) <= 100.
Proof.
  apply (malware_name_all_or_nothing "job-7" Samples.bank_file
           Samples.trojan_manifest Samples.overlay_permissions
           Samples.no_code Samples.no_threat); reflexivity.
Defined.

(** ** The threat database: adding, removing, searching *)

Section ThreatStore.

Import ThreatDatabase ThreatAdmin.

Implicit Types (threats : gmap string ThreatRecord) (t r : ThreatRecord).

Lemma truthy_Some (k : option string) :
  Js.truthy k = true <-> exists s, k = Some s /\ s <> "".
Proof.
  destruct k as [[| c s] |]; simpl.
  - split; [discriminate | intros (s' & [= <-] & N); contradiction].
  - split; [| reflexivity]. intros _. eexists.
    split; [reflexivity | discriminate].
  - split; [discriminate | intros (s' & [=] & _)].
Qed.

Lemma set_if_is_Some (key : option string) t threats (k : string) :
  is_Some (set_if key t threats !! k) <->
  is_Some (threats !! k) \/ (k <> "" /\ key = Some k).
Proof.
  destruct key as [[| c s] |]; simpl.
  - split; [now left | intros [H | (N & [= <-])]; [exact H | contradiction]].
  - rewrite lookup_insert_is_Some. split.
    + intros [<- | (_ & H)]; [right; split; [discriminate | reflexivity]
                             | now left].
    + intros [H | (_ & [= <-])]; [| now left].
      destruct (decide (String c s = k)); [now left | now right].
  - split; [now left | intros [H | (_ & [=])]; exact H].
Qed.

Lemma addThreat_fst (clock : Clock) (save : option string) threats t :
  negb (Js.truthy (tr_hash t)) && negb (Js.truthy (tr_packageName t))
    = false ->
  fst (addThreat clock save threats t)
  = set_if (tr_packageName t) (stamp clock t)
      (set_if (tr_hash t) (stamp clock t) threats).
Proof. intros E. unfold addThreat. rewrite E. destruct save; reflexivity. Qed.

Lemma addThreat_is_Some (clock : Clock) (save : option string) threats t
    (k : string) :
  is_Some (fst (addThreat clock save threats t) !! k) <->
  is_Some (threats !! k) \/
  (k <> "" /\ (tr_hash t = Some k \/ tr_packageName t = Some k)).
Proof.
  destruct (negb (Js.truthy (tr_hash t))
            && negb (Js.truthy (tr_packageName t))) eqn:E.
  - unfold addThreat. rewrite E.
    apply andb_true_iff in E as (Hh & Hp).
    apply negb_true_iff in Hh, Hp. cbn [fst].
    split; [now left |]. intros [H | (N & [H | H])]; [exact H | |].
    + rewrite H in Hh. destruct k; [contradiction | discriminate].
    + rewrite H in Hp. destruct k; [contradiction | discriminate].
  - rewrite addThreat_fst by exact E.
    rewrite !set_if_is_Some. tauto.
Qed.

(** X14.  [addThreat] never removes a key: afterwards the keys are the
    old ones and the non-empty hash and package name of the record,
    also when the write to disk fails; a record that has neither is
    rejected with the map left as it was. *)
Theorem addThreat_keys (clock : Clock) (save : option string) threats t :
  (forall k : string,
     is_Some (fst (addThreat clock save threats t) !! k) <->
     is_Some (threats !! k) \/
     (k <> "" /\ (tr_hash t = Some k \/ tr_packageName t = Some k))) /\
  (Js.truthy (tr_hash t) = false -> Js.truthy (tr_packageName t) = false ->
     addThreat clock save threats t
     = (threats, inl "Threat must have either hash or package name")).
Proof.
  split; [intros k; apply addThreat_is_Some |].
  intros Hh Hp. unfold addThreat. now rewrite Hh, Hp.
Qed.

Lemma has_id_true (i : string) r : has_id i r = true <-> tr_id r = Some i.
Proof. apply bool_decide_eq_true. Qed.

Lemma has_id_false (i : string) r : has_id i r = false <-> tr_id r <> Some i.
Proof. apply bool_decide_eq_false. Qed.

Lemma removeThreat_lookup (save : option string) threats (i k : string) r :
  fst (removeThreat save threats i) !! k = Some r <->
  threats !! k = Some r /\ tr_id r <> Some i.
Proof.
  assert (F : fst (removeThreat save threats i)
              = filter (fun kv : string * ThreatRecord =>
                          has_id i kv.2 = false) threats).
  { unfold removeThreat. destruct (bool_decide _); [destruct save |];
      reflexivity. }
  rewrite F, map_lookup_filter_Some. cbn [snd]. now rewrite has_id_false.
Qed.

(** X15.  [removeThreat] deletes every entry whose record has the id
    and no other entry.  It answers true (after saving) exactly when
    there was such an entry; it answers false, and leaves the map as it
    was, when there was none.  A failing save is reported after the
    entries are gone from memory. *)
Theorem removeThreat_spec (save : option string) threats (i : string) :
  (forall k r,
     fst (removeThreat save threats i) !! k = Some r <->
     threats !! k = Some r /\ tr_id r <> Some i) /\
  ((exists k r, threats !! k = Some r /\ tr_id r = Some i) ->
     snd (removeThreat save threats i)
     = match save with Some msg => inl msg | None => inr true end) /\
  ((forall k r, threats !! k = Some r -> tr_id r <> Some i) ->
     removeThreat save threats i = (threats, inr false)).
Proof.
  split; [intros k r; apply removeThreat_lookup |]. split.
  - intros (k & r & Hk & Hi). unfold removeThreat.
    rewrite bool_decide_eq_true_2.
    + destruct save; reflexivity.
    + exists k, r. split; [exact Hk | now apply has_id_true].
  - intros H.
    assert (E : fst (removeThreat save threats i) = threats).
    { apply map_eq. intros k. apply option_eq. intros r.
      rewrite removeThreat_lookup. split; [now intros (? & _) |].
      intros Hk. split; [exact Hk | exact (H k r Hk)]. }
    revert E. unfold removeThreat. rewrite bool_decide_eq_false_2.
    + cbn [fst]. now intros ->.
    + intros (k & r & Hk & Hi). apply has_id_true in Hi.
      exact (H k r Hk Hi).
Qed.

Lemma removeThreat_spec_witness :
  snd (removeThreat None
         (fst (addThreat Samples.clock None ∅ Samples.anubis))
         "threat_001") = inr true.
Proof.
  destruct (removeThreat_spec None
              (fst (addThreat Samples.clock None ∅ Samples.anubis))
              "threat_001") as (_ & H & _).
  apply H. exists "0f0f", (stamp Samples.clock Samples.anubis).
  split; reflexivity.
Defined.

Lemma stamp_id (clock : Clock) t : is_Some (tr_id (stamp clock t)).
Proof.
  unfold stamp. cbn [tr_id].
  destruct (Js.truthy (tr_id t)) eqn:E; [| eexists; reflexivity].
  apply truthy_Some in E as (s & -> & _). eexists; reflexivity.
Qed.

Lemma addThreat_lookup (clock : Clock) (save : option string) threats t
    (k : string) r :
  fst (addThreat clock save threats t) !! k = Some r ->
  r = stamp clock t \/ threats !! k = Some r.
Proof.
  destruct (negb (Js.truthy (tr_hash t))
            && negb (Js.truthy (tr_packageName t))) eqn:E;
    [unfold addThreat; rewrite E; now right |].
  rewrite addThreat_fst by exact E.
  assert (S : forall key m, set_if key (stamp clock t) m !! k = Some r ->
                r = stamp clock t \/ m !! k = Some r).
  { intros [[| c s] |] m; simpl; try (now right).
    destruct (decide (String c s = k)) as [-> | N].
    - rewrite lookup_insert_eq. intros [= <-]. now left.
    - rewrite lookup_insert_ne by exact N. now right. }
  intros H'.
  apply S in H' as [-> | H']; [now left |]. now apply S in H'.
Qed.

Lemma addThreat_stored (clock : Clock) (save : option string) threats t
    (k : string) :
  k <> "" -> tr_hash t = Some k \/ tr_packageName t = Some k ->
  fst (addThreat clock save threats t) !! k = Some (stamp clock t).
Proof.
  intros N H.
  assert (T : Js.truthy (Some k) = true)
    by (destruct k; [contradiction | reflexivity]).
  assert (E : negb (Js.truthy (tr_hash t))
              && negb (Js.truthy (tr_packageName t)) = false).
  { destruct H as [-> | ->]; rewrite T; [reflexivity | apply andb_false_r]. }
  rewrite addThreat_fst by exact E.
  assert (S : forall key m,
             (key = Some k \/ m !! k = Some (stamp clock t)) ->
             set_if key (stamp clock t) m !! k = Some (stamp clock t)).
  { intros key m [-> | Hm].
    - destruct k; [contradiction |]. simpl. apply lookup_insert_eq.
    - destruct key as [[| c s] |]; simpl; try exact Hm.
      destruct (decide (String c s = k)) as [-> | Ne].
      + apply lookup_insert_eq.
      + now rewrite lookup_insert_ne. }
  apply S. destruct H as [H | H]; [right | now left].
  apply S. now left.
Qed.

(** X16.  Adding a record and then removing the id under which it was
    stored leaves no trace for [lookupThreat]: the lookup by the
    record's hash and package name answers null, whatever the map held
    before (no entry being filed under the empty string). *)
Theorem add_then_remove (clock : Clock) (save save' : option string)
    threats t (i : string) :
  threats !! "" = None ->
  tr_id (stamp clock t) = Some i ->
  lookupThreat
    (fst (removeThreat save' (fst (addThreat clock save threats t)) i))
    (tr_hash t) (tr_packageName t) = None.
Proof.
  intros He Hi.
  set (m := fst (removeThreat save' _ i)).
  assert (G : forall key, key = tr_hash t \/ key = tr_packageName t ->
                get m key = None).
  { intros [k |] Hkey; [| reflexivity]. simpl.
    apply eq_None_not_Some. intros (r & Hr).
    apply removeThreat_lookup in Hr as (Hr & Hn).
    destruct (decide (k = "")) as [-> | N].
    - assert (S : is_Some (fst (addThreat clock save threats t) !! ""))
        by (eexists; exact Hr).
      apply addThreat_is_Some in S
        as [S | (F & _)]; [| now apply F].
      rewrite He in S. destruct S as (? & [=]).
    - rewrite (addThreat_stored clock save threats t k N) in Hr
        by (destruct Hkey as [-> | ->]; [now left | now right]).
      injection Hr as <-. contradiction. }
  rewrite lookupThreat_order, (G (tr_hash t)) by now left.
  destruct (Js.truthy (tr_packageName t)); [| reflexivity].
  apply G. now right.
Qed.

Lemma add_then_remove_witness :
  lookupThreat
    (fst (removeThreat None
            (fst (addThreat Samples.clock None ∅ Samples.anubis))
            "threat_001"))
    (Some "0f0f") (Some "com.fakebanking.app") = None.
Proof.
  apply (add_then_remove Samples.clock None None ∅ Samples.anubis
           "threat_001"); reflexivity.
Defined.

End ThreatStore.

(** ** Searching the threat database *)

Section ThreatSearch.

Import ThreatDatabase ThreatAdmin.

Implicit Types (threats : gmap string ThreatRecord) (t r : ThreatRecord).

Lemma hit_inl (q : string) r (msg : string) :
  hit q r = inl msg <-> msg = no_id /\ tr_id r = None.
Proof.
  unfold hit. destruct (tr_id r).
  - split; [discriminate | intros (_ & [=])].
  - split; [intros [= <-]; now split | intros (-> & _); reflexivity].
Qed.


Lemma search_values_inr (q : string) (l : list ThreatRecord) :
  (forall r, In r l -> is_Some (tr_id r)) ->
  search_values q l
  = inr (List.filter
           (fun r => match hit q r with inr true => true | _ => false end) l).
Proof.
  induction l as [| x l IH]; intros H; cbn [search_values List.filter];
    [reflexivity |].
  rewrite IH by (intros r Hr; apply H; now right).
  destruct (hit q x) as [e | b] eqn:Hx.
  - apply hit_inl in Hx as (_ & Hx).
    destruct (H x (or_introl eq_refl)) as (i & Hi). congruence.
  - destruct b; reflexivity.
Qed.


Lemma values_In threats r :
  In r (map_to_list threats).*2 <-> exists k, threats !! k = Some r.
Proof.
  rewrite <- list_elem_of_In, list_elem_of_fmap. split.
  - intros ([k x] & -> & H). exists k. now apply elem_of_map_to_list.
  - intros (k & H). exists (k, r). split; [reflexivity |].
    now apply elem_of_map_to_list.
Qed.


(** X18.  A record filed under both its hash and its package name is
    visited once per key: when it matches the query, it is reported
    twice. *)
Theorem search_reports_record_per_key (clock : Clock)
    (save : option string) threats t (h p query : string) :
  (forall k r, threats !! k = Some r -> is_Some (tr_id r)) ->
  tr_hash t = Some h -> h <> "" ->
  tr_packageName t = Some p -> p <> "" ->
  h <> p ->
  hit (Js.toLowerCase query) (stamp clock t) = inr true ->
  exists results rest,
    searchThreats (fst (addThreat clock save threats t)) query = inr results /\
    Permutation results (stamp clock t :: stamp clock t :: rest).
Proof.
  intros Hids Hh Nh Hp Np Hne Hhit.
  set (r := stamp clock t) in *.
  assert (E : fst (addThreat clock save threats t)
              = <[ p := r ]> (<[ h := r ]> threats)).
  { rewrite addThreat_fst.
    - rewrite Hh, Hp. destruct h, p; try contradiction. reflexivity.
    - rewrite Hh. destruct h; [contradiction | reflexivity]. }
  rewrite E. unfold searchThreats.
  set (m0 := delete h (delete p threats)).
  assert (P : Permutation (map_to_list (<[ p := r ]> (<[ h := r ]> threats)))
                ((p, r) :: (h, r) :: map_to_list m0)).
  { rewrite <- (insert_delete_eq (<[ h := r ]> threats)).
    rewrite delete_insert_ne by (intros ->; now apply Hne).
    rewrite <- (insert_delete_eq (delete p threats) h).
    fold m0.
    rewrite map_to_list_insert.
    - apply perm_skip. apply map_to_list_insert. apply lookup_delete_eq.
    - rewrite lookup_insert_ne by exact Hne. unfold m0.
      rewrite lookup_delete_ne by exact Hne. apply lookup_delete_eq. }
  assert (P2 : Permutation
                 (map_to_list (<[ p := r ]> (<[ h := r ]> threats))).*2
                 (r :: r :: (map_to_list m0).*2)).
  { change (r :: r :: (map_to_list m0).*2)
      with (((p, r) :: (h, r) :: map_to_list m0).*2).
    now apply fmap_Permutation. }
  rewrite search_values_inr.
  - eexists. exists (List.filter
        (fun r => match hit (Js.toLowerCase query) r with
                  | inr true => true | _ => false end) (map_to_list m0).*2).
    split; [reflexivity |].
    etransitivity; [apply filter_Permutation; exact P2 |].
    cbn [List.filter]. now rewrite Hhit.
  - intros x Hx. apply values_In in Hx as (k & Hk).
    rewrite <- E in Hk. apply addThreat_lookup in Hk as [-> | Hk].
    + apply stamp_id.
    + exact (Hids k x Hk).
Qed.

Lemma search_reports_record_per_key_witness :
  exists results rest,
    searchThreats (fst (addThreat Samples.clock None ∅ Samples.anubis))
      "ANUBIS" = inr results /\
    Permutation results
      (stamp Samples.clock Samples.anubis
         :: stamp Samples.clock Samples.anubis :: rest).
Proof.
  apply (search_reports_record_per_key Samples.clock None ∅ Samples.anubis
           "0f0f" "com.fakebanking.app" "ANUBIS");
    try reflexivity; discriminate.
Defined.

End ThreatSearch.

(** ** What [analyzeManifest] can return *)

Section ManifestShape.

Import Manifest.

Lemma take_while_split (f : ascii -> bool) (s : string) :
  s = String.append (take_while f s)
        (drop (String.length (take_while f s)) s).
Proof.
  induction s as [| c s IH]; [reflexivity |].
  cbn [take_while]. destruct (f c); [| reflexivity].
  change (String c s
          = String c (take_while f s
                      +:+ drop (String.length (take_while f s)) s)).
  now rewrite <- IH.
Qed.

Lemma drop_append (a b : string) :
  drop (String.length a) (String.append a b) = b.
Proof. induction a as [| c a IH]; [now destruct b | exact IH]. Qed.

Lemma set_add_NoDup (x : string) (seen : list string) :
  NoDup seen -> NoDup (set_add x seen).
Proof.
  intros H. unfold set_add.
  destruct (Js.arr_includes seen x) eqn:E; [exact H |].
  apply NoDup_app. split; [exact H |]. split.
  - intros y Hy Hx. apply list_elem_of_In in Hy.
    apply list_elem_of_In in Hx. destruct Hx as [<- | []].
    apply arr_includes_In in Hy. congruence.
  - apply NoDup_singleton.
Qed.

Lemma set_add_In (x y : string) (seen : list string) :
  In y (set_add x seen) -> y = x \/ In y seen.
Proof.
  unfold set_add. destruct (Js.arr_includes seen x); [now right |].
  rewrite in_app_iff. intros [H | [<- | []]]; [now right | now left].
Qed.

Lemma scan_candidates_inv (buffer : string) :
  forall (text : string) (skip : nat) (C : list string) (pre : string),
    buffer = String.append pre text ->
    (forall p, In p C -> In p KNOWN /\ Js.includes buffer p = true) ->
    NoDup C ->
    (forall p, In p (scan_candidates text skip C) ->
       In p KNOWN /\ Js.includes buffer p = true) /\
    NoDup (scan_candidates text skip C).
Proof.
  induction text as [| c rest IH]; intros skip C pre Hb HC HN;
    [now split |].
  assert (Hb' : buffer
                = String.append (String.append pre (String c EmptyString))
                    rest)
    by (rewrite append_assoc; exact Hb).
  cbn [scan_candidates]. destruct skip as [| k]; [| now apply (IH _ _ _ Hb')].
  destruct (String.prefix NEEDLE (String c rest)) eqn:Hp;
    [| now apply (IH _ _ _ Hb')].
  cbv zeta.
  set (cand := String.append NEEDLE _).
  apply (IH _ _ _ Hb').
  - destruct (negb (cand =? NEEDLE)%string && Js.arr_includes KNOWN cand)
      eqn:E; [| exact HC].
    apply andb_true_iff in E as (_ & E). apply arr_includes_In in E.
    intros p Hp'. apply set_add_In in Hp' as [-> | Hp']; [| now apply HC].
    split; [exact E |].
    apply includes_split.
    apply prefix_split in Hp as (b & Hp).
    exists pre. eexists.
    rewrite Hb, Hp. f_equal. subst cand. rewrite Hp.
    rewrite (drop_append NEEDLE b), append_assoc. f_equal.
    apply take_while_split.
  - destruct (negb (cand =? NEEDLE)%string && Js.arr_includes KNOWN cand);
      [now apply set_add_NoDup | exact HN].
Qed.

(** X19.  The scan of the raw manifest bytes reports only permissions
    of its allow-list that occur in the buffer, each of them once. *)
Theorem binary_scan_sound (buffer : string) :
  (forall p, In p (extractPermissionsFromBinaryBuffer buffer) ->
     In p KNOWN /\ Js.includes buffer p = true) /\
  NoDup (extractPermissionsFromBinaryBuffer buffer).
Proof.
  unfold extractPermissionsFromBinaryBuffer.
  apply (scan_candidates_inv buffer buffer 0%nat [] "").
  - reflexivity.
  - intros p [].
  - apply NoDup_nil_2.
Qed.

Lemma capture_at_nonempty (key s g : string) :
  capture_at key s = Some g -> g <> "".
Proof.
  unfold capture_at. destruct (String.prefix key s); [| discriminate].
  cbv zeta.
  destruct (take_while _ _) as [| c g']; [discriminate |].
  destruct (drop _ _) as [| d r]; [discriminate |].
  destruct (Ascii.eqb d dquote); [| discriminate].
  intros [= <-]. discriminate.
Qed.

Lemma first_match_nonempty (key s g : string) :
  first_match key s = Some g -> g <> "".
Proof.
  induction s as [| c s IH]; cbn [first_match].
  - destruct (capture_at key "") eqn:E; [| discriminate].
    intros [= <-]. exact (capture_at_nonempty _ _ _ E).
  - destruct (capture_at key (String c s)) eqn:E; [| exact IH].
    intros [= <-]. exact (capture_at_nonempty _ _ _ E).
Qed.

Lemma default_nonempty (m : option string) :
  (forall g, m = Some g -> g <> "") -> default "Unknown" m <> "".
Proof. destruct m as [g |]; simpl; [intros H; now apply H | discriminate]. Qed.

Lemma KNOWN_prefixed (p : string) :
  In p KNOWN -> Js.startsWith p "android.permission." = true.
Proof.
  assert (H : forallb (fun p => Js.startsWith p "android.permission.") KNOWN
              = true) by reflexivity.
  rewrite forallb_forall in H. apply H.
Qed.

(** X20.  Whatever the manifest file holds, a manifest that
    [analyzeManifest] returns lists no activity, service, receiver or
    provider and no signature; each of its permissions starts with
    android.permission.; and its package name, version code and version
    name are never empty. *)
Theorem analyzeManifest_shape (parse_error : string -> option string)
    (file : ManifestFile) (m : ManifestInfo) :
  analyzeManifest parse_error file = inr m ->
  activities m = [] /\ services m = [] /\ receivers m = [] /\
  providers m = [] /\ signatures m = None /\
  (forall p, In p (permissions m) ->
     Js.startsWith p "android.permission." = true) /\
  packageName m <> "" /\ versionCode m <> "" /\ versionName m <> "".
Proof.
  destruct file as [| msg | content]; [discriminate | discriminate |].
  unfold analyzeManifest.
  assert (S : exists e, structured_tier parse_error (readable content) = inl e)
    by (simpl; destruct (parse_error content); eauto).
  destruct S as [e ->].
  unfold binary_tier, regex_tier.
  destruct (0 <? _).
  - intros [= <-]. cbn. repeat split; try discriminate.
    intros p Hp. apply KNOWN_prefixed.
    apply (scan_candidates_inv content content 0%nat [] "");
      [reflexivity | intros x [] | apply NoDup_nil_2 | exact Hp].
  - intros [= <-].
    cbn [activities services receivers providers signatures permissions
         packageName versionCode versionName].
    repeat split.
    + intros p Hp. unfold extractPermissionsFallback in Hp.
      now apply filter_In in Hp as (_ & Hp).
    + apply default_nonempty. intros g. apply first_match_nonempty.
    + apply default_nonempty. intros g. apply first_match_nonempty.
    + apply default_nonempty. intros g. apply first_match_nonempty.
Qed.

Lemma analyzeManifest_shape_witness :
  activities Manifest.minimal_manifest = [] /\
  packageName Manifest.minimal_manifest <> "".
Proof.
  destruct (analyzeManifest_shape (fun _ => None) (readable "<manifest/>")
              Manifest.minimal_manifest eq_refl)
    as (A & _ & _ & _ & _ & _ & P & _).
  split; [exact A | exact P].
Defined.

End ManifestShape.

(** ** The code scan over the extracted tree *)

Section CodeScan.

Import Scanner.

(** Induction over a tree, with the property available for the items of
    a directory *)
Lemma Entry_tree_ind (P : Entry -> Prop) :
  (forall name content, P (File name content)) ->
  (forall name msg, P (Broken name msg)) ->
  (forall name failure items,
     Forall P items -> P (Dir name failure items)) ->
  forall e, P e.
Proof.
  intros HF HB HD.
  refine (fix IH (e : Entry) : P e :=
            match e with
            | File name content => HF name content
            | Broken name msg => HB name msg
            | Dir name failure items =>
                HD name failure items
                  ((fix go (l : list Entry) : Forall P l :=
                      match l with
                      | [] => @List.Forall_nil _ P
                      | x :: r => @List.Forall_cons _ P x r (IH x) (go r)
                      end) items)
            end).
Qed.

Lemma addFilesFromEntry_Dir (dir item : string) (items : list Entry) :
  addFilesFromEntry dir (Dir item None items)
  = addFilesFromItems (join dir item) items.
Proof.
  induction items as [| x r IH]; [reflexivity |].
  cbn [addFilesFromItems]. rewrite <- IH. reflexivity.
Qed.

Lemma addFilesFromItems_throws (dir : string) (items : list Entry) :
  Forall (fun e => forall dir,
            throws (addFilesFromEntry dir e) = faulty e) items ->
  throws (addFilesFromItems dir items) = existsb faulty items.
Proof.
  induction 1 as [| x r Hx _ IH]; [reflexivity |].
  cbn [addFilesFromItems existsb]. rewrite <- (Hx dir), <- IH.
  destruct (addFilesFromEntry dir x); [reflexivity |].
  destruct (addFilesFromItems dir r); reflexivity.
Qed.

Lemma addFilesFromEntry_throws (e : Entry) :
  forall dir, throws (addFilesFromEntry dir e) = faulty e.
Proof.
  induction e as [name content | name msg | name failure items IH]
    using Entry_tree_ind; intros dir.
  - cbn [addFilesFromEntry faulty]. now destruct (is_target _ _).
  - reflexivity.
  - destruct failure as [msg |]; [reflexivity |].
    rewrite addFilesFromEntry_Dir. cbn [faulty].
    now apply addFilesFromItems_throws.
Qed.

Lemma addFilesFromItems_selected (dir : string) (items : list Entry) :
  Forall (fun e => forall dir ts,
            addFilesFromEntry dir e = inr ts ->
            ts = List.filter selected (files_of dir e)) items ->
  forall ts, addFilesFromItems dir items = inr ts ->
             ts = List.filter selected (flat_map (files_of dir) items).
Proof.
  induction 1 as [| x r Hx _ IH]; cbn [addFilesFromItems flat_map].
  - now intros ts [= <-].
  - intros ts. destruct (addFilesFromEntry dir x) as [| tx] eqn:Ex;
      [discriminate |].
    destruct (addFilesFromItems dir r) as [| tr]; [discriminate |].
    intros [= <-].
    rewrite List.filter_app, <- (Hx dir tx Ex), <- (IH tr eq_refl).
    reflexivity.
Qed.

Lemma addFilesFromEntry_selected (e : Entry) :
  forall dir ts,
    addFilesFromEntry dir e = inr ts ->
    ts = List.filter selected (files_of dir e).
Proof.
  induction e as [name content | name msg | name failure items IH]
    using Entry_tree_ind; intros dir ts.
  - cbn [addFilesFromEntry files_of List.filter]. unfold selected.
    cbn [t_name t_path]. destruct (is_target _ _); now intros [= <-].
  - discriminate.
  - destruct failure as [msg |]; [discriminate |].
    rewrite addFilesFromEntry_Dir. cbn [files_of].
    now apply addFilesFromItems_selected.
Qed.

Lemma Forall_all {A} (P : A -> Prop) (l : list A) :
  (forall x, P x) -> Forall P l.
Proof. intros H. induction l; constructor; auto. Qed.

(** The files the scan reads: the selected files of the tree, unless a
    directory cannot be listed or an item cannot be examined. *)
Lemma addFilesFromDir_spec (root : string) (failure : option string)
    (items : list Entry) :
  throws (addFilesFromDir root failure items)
    = faulty (Dir root failure items) /\
  forall ts, addFilesFromDir root failure items = inr ts ->
    ts = List.filter selected (flat_map (files_of root) items).
Proof.
  unfold addFilesFromDir. cbn [faulty].
  destruct failure as [msg |]; [split; [reflexivity | discriminate] |].
  split.
  - apply addFilesFromItems_throws, Forall_all, addFilesFromEntry_throws.
  - apply addFilesFromItems_selected, Forall_all, addFilesFromEntry_selected.
Qed.

(** X21.  [analyzeCode] falls back to its empty result (score 0, no
    pattern, no dex file, the error noted) exactly when some directory
    of the extracted tree cannot be listed or some item cannot be
    examined, wherever that is in the tree and whatever the readable
    part holds. *)
Theorem analyzeCode_fallback (table : option (list ScanPattern))
    (root : string) (failure : option string) (items : list Entry) :
  let result := analyzeCode table root failure items in
  (is_Some (ca_error result) <-> faulty (Dir root failure items) = true) /\
  (is_Some (ca_error result) ->
     ca_riskScore result = 0 /\ ca_suspiciousPatterns result = [] /\
     ca_dexFiles result = 0).
Proof.
  cbv zeta. unfold analyzeCode, scanForSuspiciousPatterns.
  destruct (addFilesFromDir_spec root failure items) as (T & _).
  destruct (addFilesFromDir root failure items) as [msg | ts];
    cbn [throws] in T; rewrite <- T; cbn [ca_error ca_riskScore
      ca_suspiciousPatterns ca_dexFiles].
  - split; [| now intros _]. split; [reflexivity | eexists; reflexivity].
  - split; [split; [intros (x & [=]) | discriminate] | intros (x & [=])].
Qed.

Lemma toLowerCase_empty (s : string) : Js.toLowerCase s = "" <-> s = "".
Proof. destruct s; split; try reflexivity; discriminate. Qed.

Lemma match_pattern_In (name contentStr pattern : string)
    (fp : FoundPattern) :
  In fp (match_pattern name contentStr pattern) <->
  pattern <> "" /\
  Js.includes contentStr (Js.toLowerCase pattern) = true /\
  fp = {| fp_pattern := pattern; fp_file := name;
          fp_confidence := estimatePatternConfidence pattern |}.
Proof.
  unfold match_pattern. cbv zeta.
  destruct pattern as [| c p].
  - cbn. split; [intros [] | now intros (N & _)].
  - assert (T : Js.truthy (Some (Js.toLowerCase (String c p))) = true)
      by reflexivity.
    rewrite T. cbn [andb].
    destruct (Js.includes contentStr (Js.toLowerCase (String c p))).
    + cbn [In]. split.
      * intros [<- | []]. repeat split. discriminate.
      * intros (_ & _ & ->). now left.
    + split; [intros [] | intros (_ & [=] & _)].
Qed.

Lemma scan_In (table : option (list ScanPattern)) (root : string)
    (items : list Entry) (found : list FoundPattern) (fp : FoundPattern) :
  scanForSuspiciousPatterns table root None items = inr found ->
  In fp found <->
  exists t content pattern,
    In t (flat_map (files_of root) items) /\ selected t = true /\
    t_content t = Some content /\
    In pattern (registry table) /\ pattern <> "" /\
    Js.includes (Js.toLowerCase content) (Js.toLowerCase pattern) = true /\
    fp = {| fp_pattern := pattern; fp_file := t_name t;
            fp_confidence := estimatePatternConfidence pattern |}.
Proof.
  unfold scanForSuspiciousPatterns.
  destruct (addFilesFromDir_spec root None items) as (_ & S).
  destruct (addFilesFromDir root None items) as [msg | ts]; [discriminate |].
  intros [= <-]. rewrite (S ts eq_refl), in_flat_map. split.
  - intros (t & Ht & Hfp). apply filter_In in Ht as (Ht & Hs).
    unfold scan_target in Hfp.
    destruct (t_content t) as [content |] eqn:Hc; [| destruct Hfp].
    apply in_flat_map in Hfp as (pattern & Hp & Hfp).
    apply match_pattern_In in Hfp as (N & I & ->).
    now exists t, content, pattern.
  - intros (t & content & pattern & Ht & Hs & Hc & Hp & N & I & ->).
    exists t. split; [apply filter_In; now split |].
    unfold scan_target. rewrite Hc. apply in_flat_map.
    exists pattern. split; [exact Hp |]. now apply match_pattern_In.
Qed.


End CodeScan.


(** ** The pattern table and the scan *)

Section PatternTable.

Import Scanner ThreatDatabase ThreatAdmin.

Lemma map_set_In (k : string) (v : ScanPattern) (m : Patterns) :
  In v (getPatterns (map_set k v m)).
Proof.
  unfold getPatterns. induction m as [| [k' v'] r IH]; [now left |].
  cbn [map_set]. destruct (String.eqb k k'); cbn [List.map snd];
    [now left | now right].
Qed.

Lemma map_set_twice (k : string) (v v' : ScanPattern) (m : Patterns) :
  map_set k v' (map_set k v m) = map_set k v' m.
Proof.
  induction m as [| [k' x] r IH]; cbn [map_set].
  - now rewrite String.eqb_refl.
  - destruct (String.eqb k k') eqn:E; cbn [map_set].
    + now rewrite String.eqb_refl.
    + now rewrite E, IH.
Qed.

(** X23.  A signature added with [addPattern] is used by the next scan,
    also when saving the table failed: every selected, readable file
    that holds the signature in either case of letters is reported with
    it. *)
Theorem added_pattern_is_scanned (clock : Clock) (save : option string)
    (patterns : Patterns) (pattern : ScanPattern) (signature : string)
    (root : string) (items : list Entry) (t : Target) (content : string) :
  sp_pattern pattern = Some signature -> signature <> "" ->
  faulty (Dir root None items) = false ->
  In t (flat_map (files_of root) items) -> selected t = true ->
  t_content t = Some content ->
  Js.includes (Js.toLowerCase content) (Js.toLowerCase signature) = true ->
  let table := getPatterns (fst (addPattern clock save patterns pattern)) in
  exists found,
    scanForSuspiciousPatterns (Some table) root None items = inr found /\
    In {| fp_pattern := signature; fp_file := t_name t;
          fp_confidence := estimatePatternConfidence signature |} found.
Proof.
  intros Hs Ns Hf Ht Hsel Hc Hi table.
  destruct (addFilesFromDir_spec root None items) as (T & _).
  rewrite Hf in T.
  destruct (scanForSuspiciousPatterns (Some table) root None items)
    as [msg | found] eqn:E.
  { unfold scanForSuspiciousPatterns in E.
    destruct (addFilesFromDir root None items); discriminate. }
  exists found. split; [reflexivity |].
  apply (scan_In _ _ _ _ _ E).
  exists t, content, signature. repeat split; try assumption.
  unfold registry. apply in_or_app. right. cbn [default].
  apply in_flat_map. exists (with_id clock pattern). split.
  - subst table. unfold addPattern. cbv zeta.
    destruct save; cbn [fst]; apply map_set_In.
  - unfold patterns_of. cbn [with_id sp_pattern sp_examples].
    rewrite Hs. apply in_or_app. right.
    destruct signature; [contradiction | now left].
Qed.

(** X25.  The id given to a pattern that has none is made of the
    clock reading alone: of two such patterns added at the same reading
    the second takes the place of the first, which is lost. *)
Theorem same_tick_patterns_collide (clock : Clock)
    (save save' : option string) (patterns : Patterns)
    (first second : ScanPattern) :
  Js.truthy (sp_id first) = false ->
  Js.truthy (sp_id second) = false ->
  fst (addPattern clock save'
         (fst (addPattern clock save patterns first)) second)
  = fst (addPattern clock save' patterns second).
Proof.
  intros H1 H2.
  assert (F : forall s ps p,
            fst (addPattern clock s ps p)
            = map_set (default "" (sp_id (with_id clock p)))
                (with_id clock p) ps)
    by (intros s ps p; unfold addPattern; destruct s; reflexivity).
  rewrite !F. unfold with_id at 1 3 5. cbn [sp_id].
  rewrite H1, H2. cbn [default]. apply map_set_twice.
Qed.

End PatternTable.

Lemma added_pattern_is_scanned_witness :
  exists found,
    Scanner.scanForSuspiciousPatterns
      (Some (ThreatAdmin.getPatterns
               (fst (ThreatAdmin.addPattern Samples.clock (Some "EACCES") []
                  {| Scanner.sp_id := None;
                     Scanner.sp_name := "Overlay login";
                     Scanner.sp_pattern := Some "FakeLoginActivity";
                     Scanner.sp_riskLevel := "high";
                     Scanner.sp_examples := None |}))))
      "/tmp/x" None
      [ Scanner.Dir "res" None
          [ Scanner.File "layout.XML" (Some "<a fakeloginactivity>") ] ]
    = inr found /\
    In {| fp_pattern := "FakeLoginActivity"; fp_file := "layout.XML";
          fp_confidence := conf_low |} found.
Proof.
  apply (added_pattern_is_scanned Samples.clock (Some "EACCES") []
           {| Scanner.sp_id := None;
              Scanner.sp_name := "Overlay login";
              Scanner.sp_pattern := Some "FakeLoginActivity";
              Scanner.sp_riskLevel := "high";
              Scanner.sp_examples := None |}
           "FakeLoginActivity" "/tmp/x"
           [ Scanner.Dir "res" None
               [ Scanner.File "layout.XML" (Some "<a fakeloginactivity>") ] ]
           {| Scanner.t_path := "/tmp/x/res/layout.XML";
              Scanner.t_name := "layout.XML";
              Scanner.t_content := Some "<a fakeloginactivity>" |}
           "<a fakeloginactivity>");
    try reflexivity; try discriminate.
  left. reflexivity.
Defined.

Lemma same_tick_patterns_collide_witness :
  ThreatAdmin.getPatterns
    (fst (ThreatAdmin.addPattern Samples.clock None
            (fst (ThreatAdmin.addPattern Samples.clock None []
                    {| Scanner.sp_id := None;
                       Scanner.sp_name := "Overlay login";
                       Scanner.sp_pattern := Some "FakeLoginActivity";
                       Scanner.sp_riskLevel := "high";
                       Scanner.sp_examples := None |}))
            {| Scanner.sp_id := None;
               Scanner.sp_name := "Key logger";
               Scanner.sp_pattern := Some "KeyLogService";
               Scanner.sp_riskLevel := "high";
               Scanner.sp_examples := None |}))
  = [ {| Scanner.sp_id := Some "pattern_1762041600000";
         Scanner.sp_name := "Key logger";
         Scanner.sp_pattern := Some "KeyLogService";
         Scanner.sp_riskLevel := "high";
         Scanner.sp_examples := None |} ].
Proof.
  rewrite (same_tick_patterns_collide Samples.clock None None []
             {| Scanner.sp_id := None;
                Scanner.sp_name := "Overlay login";
                Scanner.sp_pattern := Some "FakeLoginActivity";
                Scanner.sp_riskLevel := "high";
                Scanner.sp_examples := None |}
             {| Scanner.sp_id := None;
                Scanner.sp_name := "Key logger";
                Scanner.sp_pattern := Some "KeyLogService";
                Scanner.sp_riskLevel := "high";
                Scanner.sp_examples := None |} eq_refl eq_refl).
  reflexivity.
Defined.

(** ** Extraction *)

Section ExtractionFallbacks.

Import Extraction.

(** X24.  [extractAPK] throws only an error of [ensureDir]: of the
    first call, or of the last one when both archive libraries and the
    placeholder have failed.  A failure of the archive libraries alone
    never fails the extraction, and a returned path is always the
    extraction directory. *)
Theorem extractAPK_failures (o : Outcomes) (extractPath : string) :
  (forall e,
     extractAPK o extractPath = inl e <->
     ensureDir_first o = Some e \/
     (ensureDir_first o = None /\ is_Some (unzipper o) /\
      is_Some (adm_zip o) /\
      (is_Some (ensureDir_placeholder o) \/ is_Some (writeFile_marker o)) /\
      ensureDir_last o = Some e)) /\
  (forall p how, extractAPK o extractPath = inr (p, how) ->
     p = extractPath /\ (how = by_unzipper <-> unzipper o = None)) /\
  (ensureDir_first o = None -> ensureDir_last o = None ->
     exists how, extractAPK o extractPath = inr (extractPath, how)).
Proof.
  unfold extractAPK, extractAPKManual, call.
  destruct (ensureDir_first o) as [e1 |].
  { split; [| split].
    - intros e. split; [intros [= <-]; now left |].
      intros [[= <-] | ([=] & _)]. reflexivity.
    - intros p how [=].
    - intros [=]. }
  destruct (unzipper o) as [u |].
  2: { split; [| split].
       - intros e. split; [discriminate |].
         intros [[=] | (_ & (x & [=]) & _)].
       - intros p how [= <- <-]. now split.
       - intros _ _. eexists; reflexivity. }
  destruct (adm_zip o) as [a |].
  2: { split; [| split].
       - intros e. split; [discriminate |].
         intros [[=] | (_ & _ & (x & [=]) & _)].
       - intros p how [= <- <-]. split; [reflexivity |].
         split; discriminate.
       - intros _ _. eexists; reflexivity. }
  assert (L : forall e x, @inl string (string * Filled) x = inl e <->
                Some x = Some e)
    by (intros e x; split; intros [= <-]; reflexivity).
  destruct (ensureDir_placeholder o) as [d |], (writeFile_marker o) as [m |],
    (ensureDir_last o) as [l |].
  all: split; [| split].
  all: try (intros _ _; eexists; reflexivity).
  all: try (intros _ [=]).
  all: try (intros p how [= <- <-]; split; [reflexivity |];
            split; discriminate).
  all: try (intros p how [=]).
  all: try (intros e; rewrite L; split;
            [ intros H; right; repeat split; eauto
            | intros [[=] | (_ & _ & _ & _ & H)]; exact H ]).
  all: intros e; split; [discriminate |].
  all: intros [[=] | (_ & _ & _ & [S | S] & E)]; try discriminate E.
  all: destruct S as (x & [=]).
Qed.

End ExtractionFallbacks.

(** ** The threat check: which key decides *)

Section ThreatPrecedence.

Import ThreatDatabase ThreatCheck.

(** X26.  The threat check flags a package exactly when its SHA-256 is
    a key, or its non-empty package name is a key, or its non-empty
    SHA-1 is a key; the record found under the SHA-256 decides before
    the one under the package name, and that one before the one under
    the SHA-1.  A package that only carries the package name of a
    known threat is therefore flagged. *)
Theorem consult_precedence (threats : gmap string ThreatRecord)
    (fileAnalysis : FileAnalysis) (manifestAnalysis : ManifestInfo)
    (codeAnalysis : CodeAnalysis) :
  let result := consult threats fileAnalysis manifestAnalysis codeAnalysis in
  let pkg := packageName manifestAnalysis in
  let by_sha256 := get threats (fa_hash fileAnalysis) in
  let by_package := if Js.truthy (Some pkg) then threats !! pkg else None in
  let by_sha1 :=
    if Js.truthy (fa_hashSha1 fileAnalysis)
    then get threats (fa_hashSha1 fileAnalysis) else None in
  (isKnownThreat result = true <->
     is_Some by_sha256 \/ is_Some by_package \/ is_Some by_sha1) /\
  (forall r, by_sha256 = Some r -> threatType result = Some (tr_type r)) /\
  (forall r, by_sha256 = None -> by_package = Some r ->
     threatType result = Some (tr_type r)) /\
  (forall r, by_sha256 = None -> by_package = None -> by_sha1 = Some r ->
     threatType result = Some (tr_type r)).
Proof.
  cbv zeta. unfold consult. rewrite !lookupThreat_order.
  cbn [get].
  destruct (get threats (fa_hash fileAnalysis)) as [r1 |].
  { cbn. repeat split; try discriminate.
    - intros _. left. eexists; reflexivity.
    - now intros r [= <-]. }
  destruct (Js.truthy (Some (packageName manifestAnalysis))).
  - destruct (threats !! packageName manifestAnalysis) as [r2 |].
    + cbn. repeat split; try discriminate.
      * intros _. right. left. eexists; reflexivity.
      * now intros r _ [= <-].
    + destruct (Js.truthy (fa_hashSha1 fileAnalysis)).
      * destruct (get threats (fa_hashSha1 fileAnalysis)) as [r3 |].
        -- cbn. repeat split; try discriminate.
           ++ intros _. right. right. eexists; reflexivity.
           ++ now intros r _ _ [= <-].
        -- cbn. repeat split; try discriminate.
           intros [(x & [=]) | [(x & [=]) | (x & [=])]].
      * cbn. repeat split; try discriminate.
        intros [(x & [=]) | [(x & [=]) | (x & [=])]].
  - destruct (Js.truthy (fa_hashSha1 fileAnalysis)).
    + destruct (get threats (fa_hashSha1 fileAnalysis)) as [r3 |].
      * cbn. repeat split; try discriminate.
        -- intros _. right. right. eexists; reflexivity.
        -- now intros r _ _ [= <-].
      * cbn. repeat split; try discriminate.
        intros [(x & [=]) | [(x & [=]) | (x & [=])]].
    + cbn. repeat split; try discriminate.
      intros [(x & [=]) | [(x & [=]) | (x & [=])]].
Qed.

End ThreatPrecedence.

(** ** The pipeline and the other jobs *)

Section OtherJobs.

Import Pipeline Bookkeeping.

Variable analysisId : string.









Lemma on_timeout_frame (w : World) :
  timer (on_timeout analysisId w) = None /\
  statistics (on_timeout analysisId w) = statistics w /\
  forall other, other <> analysisId ->
    analysisResults (on_timeout analysisId w) !! other
    = analysisResults w !! other.
Proof.
  unfold on_timeout. cbv zeta.
  set (w1 := snd (updateProgress _ _ _ _ (set_timer None true w))).
  assert (H1 : timer w1 = None /\ statistics w1 = statistics w /\
               forall other, other <> analysisId ->
                 analysisResults w1 !! other = analysisResults w !! other).
  { subst w1. unfold updateProgress. cbn [analysisResults set_timer].
    destruct (analysisResults w !! analysisId) as [r |];
      [| now repeat split].
    destruct (j_steps (with_progress 0 r)); cbn; repeat split;
      intros other Ho; now apply lookup_insert_ne. }
  destruct H1 as (T1 & S1 & F1).
  destruct (analysisResults w1 !! analysisId) as [r |];
    [| now repeat split].
  cbn. repeat split; try assumption.
  intros other Ho. rewrite lookup_insert_ne by congruence. now apply F1.
Qed.









(** The first three steps of [analyzeAPK] cannot fail and involve no
    wait. *)
Lemma analyzeAPK_started (env : Env) (apkPath : string) (w : World) :
  analyzeAPK env apkPath analysisId w
  = try_catch
      (try_catch (main_path env analysisId) (fallback_path env analysisId))
      (fun error =>
         updateProgress analysisId 0 "Error"
           (String.append "Analysis failed: " error) ;;
         fail_job analysisId error)
      (started env analysisId w).
Proof.
  unfold analyzeAPK, started.
  unfold try_catch at 1 3. unfold bind at 1 2 3.
  unfold modify at 1. cbv beta iota.
  unfold updateProgress at 1.
  cbn [analysisResults set_results]. rewrite lookup_insert_eq.
  cbn [j_steps with_progress fresh app]. cbv beta iota zeta.
  unfold setTimeout, modify. cbv beta iota.
  reflexivity.
Qed.


End OtherJobs.


(** ** The statistics *)

Section ScanStatistics.

Import Pipeline Bookkeeping.

Variable analysisId : string.

(** *** Computations that leave the statistics alone *)

Lemma quiet_ret {A} (a : A) : quiet (ret a).
Proof. now intros w. Qed.

Lemma quiet_throw {A} (msg : string) : quiet (@throw A msg).
Proof. now intros w. Qed.

Lemma quiet_lift {A} (r : string + A) : quiet (lift r).
Proof. now intros w. Qed.

Lemma quiet_bind {A B} (m : M A) (k : A -> M B) :
  quiet m -> (forall a, quiet (k a)) -> quiet (bind m k).
Proof.
  intros Hm Hk w. unfold bind. specialize (Hm w).
  destruct (m w) as [[e | a] w']; cbn [snd] in *; [exact Hm |].
  now rewrite Hk.
Qed.

Lemma quiet_try_catch {A} (m : M A) (h : string -> M A) :
  quiet m -> (forall e, quiet (h e)) -> quiet (try_catch m h).
Proof.
  intros Hm Hh w. unfold try_catch. specialize (Hm w).
  destruct (m w) as [[e | a] w']; cbn [snd] in *; [| exact Hm].
  now rewrite Hh.
Qed.

Lemma quiet_store (f : gmap string Job -> gmap string Job)
    (ws : list Write) :
  quiet (modify (set_results f ws)).
Proof. now intros w. Qed.

Lemma quiet_updateProgress (id : string) (progress : Z)
    (step description : string) :
  quiet (updateProgress id progress step description).
Proof.
  intros w. unfold updateProgress.
  destruct (analysisResults w !! id) as [r |]; [| reflexivity].
  now destruct (j_steps (with_progress progress r)).
Qed.

Lemma quiet_fail_job (id msg : string) : quiet (fail_job id msg).
Proof. now intros w. Qed.

Lemma quiet_io_wait : quiet io_wait.
Proof.
  intros w. unfold io_wait.
  destruct (timer w) as [[[| n] id] |]; cbn [snd]; try reflexivity.
  apply on_timeout_frame.
Qed.

Lemma io_wait_returns (w : World) : fst (io_wait w) = inr tt.
Proof.
  unfold io_wait. now destruct (timer w) as [[[| n] id] |].
Qed.

Lemma quiet_setTimeout (id : string) (after : option nat) :
  quiet (setTimeout id after).
Proof. now intros w. Qed.

Lemma quiet_clearTimeout : quiet clearTimeout.
Proof. now intros w. Qed.

Lemma quiet_generateFinalResult (fault : option string) (id : string)
    (fileAnalysis : FileAnalysis) (manifestAnalysis : ManifestInfo)
    (permissionAnalysis : PermissionAnalysis) (codeAnalysis : CodeAnalysis)
    (threatAnalysis : ThreatAnalysis) :
  quiet (generateFinalResult fault id fileAnalysis manifestAnalysis
           permissionAnalysis codeAnalysis threatAnalysis).
Proof. unfold generateFinalResult. now destruct fault. Qed.

Ltac quieten :=
  repeat first
    [ apply quiet_generateFinalResult
    | apply quiet_bind
    | apply quiet_try_catch
    | apply quiet_ret
    | apply quiet_throw
    | apply quiet_lift
    | apply quiet_store
    | apply quiet_updateProgress
    | apply quiet_fail_job
    | apply quiet_io_wait
    | apply quiet_setTimeout
    | apply quiet_clearTimeout
    | match goal with
      | |- forall _ : _, quiet _ => intro
      | |- quiet (match ?x with _ => _ end) => destruct x
      end ].

Lemma quiet_fallback_path (env : Env) (stepError : string) :
  quiet (fallback_path env analysisId stepError).
Proof.
  unfold fallback_path, analyzeFileStructure, checkThreatDatabase.
  quieten.
Qed.

(** *** Steps that cannot fail while the job is under way *)

Lemma live_store (w : World) (r : Job) (ws : list Write) :
  live analysisId w -> is_Some (j_steps r) ->
  live analysisId (set_results <[ analysisId := r ]> ws w).
Proof.
  intros (Ha & _) Hr. split; [exact Ha |].
  exists r. split; [apply lookup_insert_eq | exact Hr].
Qed.

Lemma steady_updateProgress (progress : Z) (step description : string) :
  steady analysisId (updateProgress analysisId progress step description).
Proof.
  intros w Hw. pose proof Hw as (Ha & r & Hr & (st & Hst)).
  unfold updateProgress. rewrite Hr. cbn [j_steps with_progress].
  rewrite Hst. eexists tt, _. split; [reflexivity |].
  split; [| reflexivity].
  apply live_store; [exact Hw | eexists; reflexivity].
Qed.

Lemma on_timeout_keeps_live (w : World) :
  live analysisId w -> live analysisId (on_timeout analysisId w).
Proof.
  intros Hw.
  assert (Hw0 : live analysisId (set_timer None true w)).
  { destruct Hw as (_ & H). split; [exact I | exact H]. }
  destruct (steady_updateProgress 0 "Timeout"
              "Analysis took too long and was cancelled" _ Hw0)
    as ([] & w1 & E & L1 & _).
  unfold on_timeout. cbv zeta. rewrite E. cbn [snd].
  pose proof L1 as (_ & r & Hr & Hs). rewrite Hr.
  apply live_store; [exact L1 | exact Hs].
Qed.

Lemma steady_io_wait : steady analysisId io_wait.
Proof.
  intros w Hw. unfold io_wait.
  pose proof Hw as (Ha & Hr). unfold armed_for in Ha.
  destruct (timer w) as [[[| n] id] |] eqn:T.
  - subst id. eexists tt, _. split; [reflexivity |].
    split; [now apply on_timeout_keeps_live | apply on_timeout_frame].
  - eexists tt, _. split; [reflexivity |]. split; [| reflexivity].
    split; [exact Ha | exact Hr].
  - eexists tt, _. split; [reflexivity |]. now split.
Qed.

Lemma calm_steady {A} (m : M A) : steady analysisId m -> calm analysisId m.
Proof.
  intros H w Hw. destruct (H w Hw) as (a & w' & E & L & S).
  rewrite E. now split.
Qed.

Lemma calm_ret {A} (a : A) : calm analysisId (ret a).
Proof. now intros w Hw. Qed.

Lemma calm_throw {A} (msg : string) : calm analysisId (@throw A msg).
Proof. now intros w Hw. Qed.

Lemma calm_lift {A} (r : string + A) : calm analysisId (lift r).
Proof. now intros w Hw. Qed.

Lemma calm_bind {A B} (m : M A) (k : A -> M B) :
  calm analysisId m -> (forall a, calm analysisId (k a)) ->
  calm analysisId (bind m k).
Proof.
  intros Hm Hk w Hw. unfold bind. destruct (Hm w Hw) as (L1 & S1).
  destruct (m w) as [[e | a] w']; cbn [snd] in *; [now split |].
  destruct (Hk a w' L1) as (L2 & S2). split; [exact L2 | congruence].
Qed.

Lemma steady_try_ret {A} (m : M A) (h : string -> A) :
  calm analysisId m ->
  steady analysisId (try_catch m (fun e => ret (h e))).
Proof.
  intros Hm w Hw. unfold try_catch. destruct (Hm w Hw) as (L1 & S1).
  destruct (m w) as [[e | a] w']; cbn [snd] in *;
    eexists _, _; (split; [reflexivity |]); now split.
Qed.

Lemma steady_extract_and_analyze (env : Env) :
  steady analysisId (extract_and_analyze env analysisId).
Proof.
  unfold extract_and_analyze. apply steady_try_ret.
  unfold extractAPK, Pipeline.analyzeManifest, analyzeCode.
  repeat first
    [ apply calm_bind
    | apply calm_ret
    | apply calm_throw
    | apply calm_lift
    | apply calm_steady, steady_updateProgress
    | apply calm_steady, steady_io_wait
    | match goal with
      | |- forall _ : _, calm _ _ => intro
      | |- calm _ (match ?x with _ => _ end) => destruct x
      end ].
Qed.

Lemma bind_inr {A B} (m : M A) (k : A -> M B) (w w' : World) (a : A) :
  m w = (inr a, w') -> bind m k w = k a w'.
Proof. intros E. unfold bind. now rewrite E. Qed.

Lemma bind_inl {A B} (m : M A) (k : A -> M B) (w w' : World) (e : string) :
  m w = (inl e, w') -> bind m k w = (inl e, w').
Proof. intros E. unfold bind. now rewrite E. Qed.

Ltac advance S :=
  match goal with
  | L : live analysisId ?w |- _ =>
      let E := fresh "E" in
      let St := fresh "St" in
      let L' := fresh "L" in
      destruct (S w L) as (? & ? & E & L' & St);
      rewrite (bind_inr _ _ _ _ _ E); clear E L; cbv beta
  end.

(** The main path, started while the job is under way: it runs to its
    end, counting the verdict it returns, or it throws with the
    statistics as they were. *)
Lemma main_path_statistics (env : Env) (w : World) :
  live analysisId w ->
  match main_path env analysisId w with
  | (inr job, w') =>
      main_path_completes env = true /\
      exists v, job = job_of v /\
        statistics w' = count_scan (riskLevel (summary v)) (statistics w)
  | (inl _, w') =>
      main_path_completes env = false /\ statistics w' = statistics w
  end.
Proof.
  intros L. unfold main_path, main_path_completes.
  set (s0 := statistics w).
  assert (St0 : statistics w = s0) by reflexivity. clearbody s0.
  advance (steady_updateProgress 20 "File Analysis"
             "Examining file structure and integrity").
  unfold analyzeFileStructure.
  match goal with
  | L : live analysisId ?w |- _ =>
      destruct (steady_io_wait w L) as ([] & w2 & E2 & L2 & St2); clear L
  end.
  destruct (file_structure env) as [e | fileAnalysis].
  { rewrite (bind_inl _ _ _ w2 e)
      by (rewrite (bind_inr _ _ _ _ _ E2); reflexivity).
    split; [reflexivity | congruence]. }
  rewrite (bind_inr _ _ _ w2 fileAnalysis)
    by (rewrite (bind_inr _ _ _ _ _ E2); reflexivity).
  cbv beta.
  advance (steady_updateProgress 40 "Extracting APK"
             "Extracting and parsing APK contents").
  match goal with
  | L : live analysisId ?w |- _ =>
      destruct (steady_extract_and_analyze env w L)
        as ([[m p] c] & w4 & E4 & L4 & St4);
      rewrite (bind_inr _ _ _ _ _ E4); clear E4 L; cbv beta iota
  end.
  advance (steady_updateProgress 95 "Database Check"
             "Comparing with known threats").
  unfold checkThreatDatabase, ThreatCheck.checkThreatDatabase.
  destruct (threatDatabase env) as [threats |].
  2: { unfold bind at 1, lift. cbv beta iota.
       split; [reflexivity | congruence]. }
  unfold bind at 1, lift at 1. cbv beta iota.
  advance (steady_updateProgress 100 "Finalizing"
             "Generating security report").
  unfold generateFinalResult.
  destruct (assemble_fault env) as [msg |].
  { unfold bind at 1, throw. cbv beta iota.
    split; [reflexivity | congruence]. }
  unfold bind, updateStatistics, clearTimeout, modify, ret.
  cbv beta iota.
  match goal with
  | |- context [io_wait ?w] =>
      pose proof (quiet_io_wait w) as Q; pose proof (io_wait_returns w) as R;
      destruct (io_wait w) as [[e | []] w9]
  end; cbn [fst snd] in Q, R; [discriminate R |].
  cbv beta iota.
  split; [reflexivity |]. eexists. split; [reflexivity |].
  cbn [statistics set_timer set_results] in Q |- *.
  unfold count_scan.
  repeat match goal with
         | H : statistics _ = _ |- _ => rewrite H; clear H
         end.
  reflexivity.
Qed.

Lemma live_started (env : Env) (w : World) :
  live analysisId (started env analysisId w) /\
  statistics (started env analysisId w) = statistics w.
Proof.
  split; [| reflexivity]. split.
  - unfold started, armed_for. cbn. now destruct (fire_at env).
  - eexists. split; [apply lookup_insert_eq | eexists; reflexivity].
Qed.

Lemma analyzeAPK_statistics (env : Env) (apkPath : string)
    (w : World) :
  let run := analyzeAPK env apkPath analysisId w in
  if main_path_completes env
  then exists v,
         fst run = inr (job_of v) /\
         statistics (snd run)
         = count_scan (riskLevel (summary v)) (statistics w)
  else statistics (snd run) = statistics w.
Proof.
  cbv zeta. rewrite analyzeAPK_started.
  destruct (live_started env w) as (L & S).
  pose proof (main_path_statistics env _ L) as H.
  unfold try_catch.
  destruct (main_path env analysisId (started env analysisId w))
    as [[e | job] w'].
  - destruct H as (-> & H).
    pose proof (quiet_fallback_path env e w') as Q.
    destruct (fallback_path env analysisId e w') as [[e' | job] w''];
      cbn [snd] in *; [| congruence].
    rewrite quiet_bind;
      [congruence | apply quiet_updateProgress
       | intros _; apply quiet_fail_job].
  - destruct H as (-> & v & -> & H). exists v. cbn [fst snd].
    split; [reflexivity | congruence].
Qed.


(** X29.  A job that the fallback completes is reported as completed
    and is not counted: when the file cannot be examined, or there is
    no threat database, or the verdict cannot be assembled, but the
    fallback can assemble its own, [analyzeAPK] returns a completed
    job and the statistics of a new analyzer still show no scan. *)
Theorem fallback_completion_not_counted (env : Env)
    (apkPath : string) (jobs : gmap string Job) :
  main_path_completes env = false ->
  assemble_fault_fallback env = None ->
  fire_at env = None ->
  exists job,
    returned env apkPath analysisId jobs = inr job /\
    j_status job = completed /\
    statistics (snd (run env apkPath analysisId jobs)) = zero.
Proof.
  intros Hm Hf Ht.
  destruct (analyzeAPK_outcome env jobs apkPath analysisId Ht)
    as (job & R & _ & _ & _ & _ & C & _).
  exists job. split; [exact R |]. split.
  - apply C; [| exact Hf]. unfold main_path_completes in Hm.
    unfold stage_failure, database_failure, thrown_by.
    destruct (file_structure env); [left; left; eexists; reflexivity |].
    destruct (threatDatabase env);
      [| left; right; right; right; eexists; reflexivity].
    destruct (assemble_fault env); [| discriminate].
    right. eexists; reflexivity.
  - pose proof (analyzeAPK_statistics env apkPath
                  (empty_world jobs)) as H.
    cbv zeta in H. rewrite Hm in H. exact H.
Qed.

(** X30.  After any series of scans the total has grown by the number
    of scans, and the three counters of verdicts together by the number
    of verdicts that are safe, suspicious or malicious: verdicts of the
    levels low_risk and high_risk are counted in the total only, so that
    the three counters never exceed the total and fall short of it by
    the number of such verdicts. *)
Theorem count_scans_totals (levels : list RiskLevel) (s : Statistics) :
  let s' := count_scans levels s in
  totalScans s' = totalScans s + Z.of_nat (length levels) /\
  classified s'
  = classified s + Z.of_nat (length (List.filter counted levels)) /\
  totalScans s' - classified s'
  = totalScans s - classified s
    + Z.of_nat (length (List.filter (fun l => negb (counted l)) levels)).
Proof.
  cbv zeta. revert s. induction levels as [| l levels IH]; intros s.
  - cbn. lia.
  - change (count_scans (l :: levels) s)
      with (count_scans levels (count_scan l s)).
    destruct (IH (count_scan l s)) as (T & C & D).
    unfold classified in *.
    destruct l; cbn [count_scan totalScans safeApps suspiciousApps
                     maliciousApps counted negb List.filter length] in *;
      lia.
Qed.

End ScanStatistics.

Lemma fallback_completion_not_counted_witness :
  exists job,
    Pipeline.returned MoreSamples.no_database "upload.apk" "job-9" ∅
      = inr job /\
    Pipeline.j_status job = completed /\
    Pipeline.statistics
      (snd (Pipeline.run MoreSamples.no_database "upload.apk" "job-9" ∅))
    = Bookkeeping.zero.
Proof.
  apply (fallback_completion_not_counted "job-9" MoreSamples.no_database
           "upload.apk" ∅); reflexivity.
Defined.
